(** * Pinterest search scraper: the extraction pipeline

    A shallow embedding of [src/extractors/pinterest_parser.py] and
    [src/extractors/utils_time.py].

    - Python values (what [json.loads] produces and what [search] returns)
      are the inductive type [value]; a [dict] is an insertion-ordered
      association list.
    - Strings are [string]s of characters with code points below 256.
    - Third-party calls (BeautifulSoup's parser, [json.loads], [dateutil],
      [datetime], [requests], [random]) are the variables of the sections
      below; a call that may raise returns an [option].
    - Waiting times are rationals ([Q]) where the program has floats. *)

From Stdlib Require Import List String Ascii ZArith QArith Bool Lia Lqa PrimFloat.
From Stdlib Require DecimalString.
Import ListNotations.

Local Close Scope Q_scope.
Local Open Scope nat_scope.
Local Open Scope list_scope.
Local Open Scope string_scope.

(** ** Python values *)

Module Py.

#[local] Unset Elimination Schemes.

Inductive value : Type :=
| VNone
| VBool (b : bool)
| VInt (z : Z)
| VFloat (f : float)
| VStr (s : string)
| VList (items : list value)
| VDict (entries : list (string * value)).

#[local] Set Elimination Schemes.

(** Structural induction through lists and dict entries. *)
Definition value_ind (P : value -> Prop)
    (HNone : P VNone)
    (HBool : forall b, P (VBool b))
    (HInt : forall z, P (VInt z))
    (HFloat : forall f, P (VFloat f))
    (HStr : forall s, P (VStr s))
    (HList : forall items, Forall P items -> P (VList items))
    (HDict : forall entries,
        Forall (fun kv => P (snd kv)) entries -> P (VDict entries)) :
  forall v, P v :=
  fix go (v : value) : P v :=
    match v with
    | VNone => HNone
    | VBool b => HBool b
    | VInt z => HInt z
    | VFloat f => HFloat f
    | VStr s => HStr s
    | VList items =>
        HList items
          ((fix go_items (l : list value) : Forall P l :=
              match l with
              | [] => Forall_nil P
              | x :: l' => Forall_cons x (go x) (go_items l')
              end) items)
    | VDict entries =>
        HDict entries
          ((fix go_entries (l : list (string * value))
              : Forall (fun kv => P (snd kv)) l :=
              match l with
              | [] => Forall_nil _
              | kv :: l' =>
                  Forall_cons (P := fun kv => P (snd kv)) kv
                    (go (snd kv)) (go_entries l')
              end) entries)
    end.

(** [bool(v)]: Python's truth value. *)
Definition truthy (v : value) : bool :=
  match v with
  | VNone => false
  | VBool b => b
  | VInt z => negb (z =? 0)%Z
  | VFloat f => negb (PrimFloat.eqb f PrimFloat.zero)
  | VStr s => negb (s =? "")
  | VList items => match items with [] => false | _ => true end
  | VDict entries => match entries with [] => false | _ => true end
  end.

(** [a or b] *)
Definition por (a b : value) : value := if truthy a then a else b.

Definition isinstance_dict (v : value) : bool :=
  match v with VDict _ => true | _ => false end.

Definition isinstance_str (v : value) : bool :=
  match v with VStr _ => true | _ => false end.

(** [isinstance(v, (int, float))]; [bool] is a subclass of [int]. *)
Definition isinstance_number (v : value) : bool :=
  match v with VBool _ | VInt _ | VFloat _ => true | _ => false end.

(** Lookup in an insertion-ordered dict. *)
Fixpoint lookup (k : string) (d : list (string * value)) : option value :=
  match d with
  | [] => None
  | (k', v) :: rest => if k' =? k then Some v else lookup k rest
  end.

(** [k in d] *)
Definition contains (k : string) (d : list (string * value)) : bool :=
  match lookup k d with Some _ => true | None => false end.

(** [d.get(k)] *)
Definition get (k : string) (d : list (string * value)) : value :=
  match lookup k d with Some v => v | None => VNone end.

(** [d.values()] *)
Definition values (d : list (string * value)) : list value := map snd d.

(** [d.keys()] *)
Definition keys (d : list (string * value)) : list string := map fst d.

End Py.
Import Py.

(** ** Python string operations *)

Module PyStr.

Definition char_code (c : ascii) : nat := nat_of_ascii c.

(** [c.isspace()] for code points below 256. *)
Definition isspace (c : ascii) : bool :=
  let n := char_code c in
  (((9 <=? n) && (n <=? 13)) || ((28 <=? n) && (n <=? 32))
   || (n =? 133) || (n =? 160))%nat.

(** [\d] of [re] on code points below 256. *)
Definition isdigit (c : ascii) : bool :=
  let n := char_code c in ((48 <=? n) && (n <=? 57))%nat.

(** [c.lower()] for code points below 256. *)
Definition lower_char (c : ascii) : ascii :=
  let n := char_code c in
  if (((65 <=? n) && (n <=? 90))
      || ((192 <=? n) && (n <=? 222) && negb (n =? 215)))%nat
  then ascii_of_nat (n + 32) else c.

Fixpoint lower (s : string) : string :=
  match s with
  | EmptyString => EmptyString
  | String c rest => String (lower_char c) (lower rest)
  end.

Fixpoint rev_append (s acc : string) : string :=
  match s with
  | EmptyString => acc
  | String c rest => rev_append rest (String c acc)
  end.

Definition rev (s : string) : string := rev_append s EmptyString.

Fixpoint lstrip (s : string) : string :=
  match s with
  | EmptyString => EmptyString
  | String c rest => if isspace c then lstrip rest else s
  end.

Definition rstrip (s : string) : string := rev (lstrip (rev s)).

(** [s.strip()] *)
Definition strip (s : string) : string := rstrip (lstrip s).

(** [s.startswith(p)] *)
Definition startswith (p s : string) : bool := String.prefix p s.

(** [s.endswith(p)] *)
Definition endswith (p s : string) : bool := String.prefix (rev p) (rev s).

(** [s.index(sub)]; [None] stands for [ValueError]. *)
Fixpoint find (sub s : string) : option nat :=
  if String.prefix sub s then Some 0
  else match s with
       | EmptyString => None
       | String _ rest => option_map S (find sub rest)
       end.

(** [s.rindex(sub)]; [None] stands for [ValueError]. *)
Fixpoint rfind (sub s : string) : option nat :=
  match s with
  | EmptyString => if String.prefix sub s then Some 0 else None
  | String _ rest =>
      match rfind sub rest with
      | Some i => Some (S i)
      | None => if String.prefix sub s then Some 0 else None
      end
  end.

(** [sub in s] *)
Definition contains (sub s : string) : bool :=
  match find sub s with Some _ => true | None => false end.

(** [s[i:j]] for [0 <= i], [0 <= j]. *)
Definition slice (i j : nat) (s : string) : string :=
  String.substring i (j - i) s.

(** [s[-n:]] for [n > 0]. *)
Definition last_chars (n : nat) (s : string) : string :=
  String.substring (String.length s - n) n s.

(** [str(z)] for an [int]. *)
Definition str_int (z : Z) : string :=
  DecimalString.NilZero.string_of_int (Z.to_int z).

End PyStr.

(** ** The document tree of BeautifulSoup *)

Module Soup.

#[local] Unset Elimination Schemes.

Inductive node : Type :=
| Text (s : string)
| Tag (name : string) (attrs : list (string * string)) (contents : list node).

#[local] Set Elimination Schemes.

(** [tag.descendants]: document order, the tag itself excluded. *)
Fixpoint descendants (n : node) : list node :=
  match n with
  | Text _ => []
  | Tag _ _ contents =>
      (fix walk (l : list node) : list node :=
         match l with
         | [] => []
         | c :: l' => (c :: descendants c ++ walk l')%list
         end) contents
  end.

(** Every node below the root of a parsed document. *)
Definition all_nodes (soup : list node) : list node :=
  flat_map (fun c => c :: descendants c) soup.

Definition is_tag (name : string) (n : node) : bool :=
  match n with
  | Tag name' _ _ => name' =? name
  | Text _ => false
  end.

(** [soup.find_all(name)] *)
Definition find_all (name : string) (soup : list node) : list node :=
  filter (is_tag name) (all_nodes soup).

(** [tag.find(name)] *)
Definition find (name : string) (n : node) : option node :=
  List.find (is_tag name) (descendants n).

(** [tag.get(key)] *)
Fixpoint attr (key : string) (attrs : list (string * string)) : option string :=
  match attrs with
  | [] => None
  | (k, v) :: rest => if k =? key then Some v else attr key rest
  end.

Definition get (key : string) (n : node) : option string :=
  match n with
  | Tag _ attrs _ => attr key attrs
  | Text _ => None
  end.

(** [tag.string]: the only child when it is a string, or that of the only
    child tag. *)
Fixpoint tag_string (n : node) : option string :=
  match n with
  | Text s => Some s
  | Tag _ _ [c] => tag_string c
  | Tag _ _ _ => None
  end.

(** [tag.text]: all strings below the tag, concatenated. *)
Fixpoint text (n : node) : string :=
  match n with
  | Text s => s
  | Tag _ _ contents =>
      (fix walk (l : list node) : string :=
         match l with
         | [] => ""
         | c :: l' => text c ++ walk l'
         end) contents
  end.

End Soup.

(** ** What the program takes from its libraries *)

(** The result of one [session.get]. *)
Record Response : Type := mkResponse { status_code : Z; resp_text : string }.

Inductive outcome : Type :=
| Raises                      (* a transport error *)
| Returns (resp : Response).

Class Externals : Type := {
  datetime : Type;
  (** [datetime.fromtimestamp(float(v), tz=timezone.utc)]; [None] when it
      raises. *)
  fromtimestamp : value -> option datetime;
  (** [date_parser.parse(text)], made aware of UTC and converted to it;
      [None] when any of this raises. *)
  dateutil_parse_utc : string -> option datetime;
  (** [dt.strftime("%Y-%m-%d")]; [None] when it raises. *)
  strftime_ymd : datetime -> option string;
  (** [str(v)] for a float, a list or a dict. *)
  repr_compound : value -> string;
  (** [BeautifulSoup(html, "html.parser")]; [None] when the parser
      raises on the markup. *)
  BeautifulSoup : string -> option (list Soup.node);
  (** [json.loads(s)]; [None] when it raises. *)
  json_loads : string -> option value;
  (** [session.get(url, params=params, timeout=...)] at the given attempt. *)
  session_get : string -> list (string * string) -> nat -> outcome;
  (** [random.random()] as drawn at the given attempt. *)
  random_unit : nat -> Q
}.

(** ** utils_time.py *)

Section UtilsTime.
Context {ext : Externals}.

Definition _safe_to_datetime (v : value) : option datetime :=
  match v with
  | VNone => None
  | VBool _ | VInt _ | VFloat _ => fromtimestamp v
  | VStr s =>
      let text := PyStr.strip s in
      if text =? "" then None else dateutil_parse_utc text
  | VList _ | VDict _ => None
  end.

(** [None] when an exception leaves the function. *)
Definition parse_pinterest_timestamp (raw : value) : option value :=
  match _safe_to_datetime raw with
  | None => Some (VDict [("formatted", VNone); ("initial", raw)])
  | Some dt =>
      match strftime_ymd dt with
      | Some formatted =>
          Some (VDict [("formatted", VStr formatted); ("initial", raw)])
      | None => None
      end
  end.

End UtilsTime.

(** ** pinterest_parser.py *)

Record PinterestScraperConfig : Type := mkConfig {
  base_url : string;
  timeout : Q;
  max_retries : Z;
  backoff_factor : Q;
  user_agent : string
}.

Definition default_config : PinterestScraperConfig :=
  mkConfig "https://www.pinterest.com/search/pins/" 10 3 (1 # 2)
           "PinterestSearchScraper/1.0".

(** What a run does besides returning: requests, sleeps, and the
    candidates handed to the normalizer. *)
Inductive event : Type :=
| EvGet (attempt : nat)
| EvSleep (seconds : Q)
| EvNormalize (pin_obj : value).

Definition is_get (e : event) : bool :=
  match e with EvGet _ => true | _ => false end.

Definition is_normalize (e : event) : bool :=
  match e with EvNormalize _ => true | _ => false end.

(** [str(v)] *)
Definition py_str {ext : Externals} (v : value) : string :=
  match v with
  | VNone => "None"
  | VBool true => "True"
  | VBool false => "False"
  | VInt z => PyStr.str_int z
  | VStr s => s
  | VFloat _ | VList _ | VDict _ => repr_compound v
  end.

(** [lst[:limit]] *)
Definition slice_to {A : Type} (limit : Z) (l : list A) : list A :=
  if (0 <=? limit)%Z then firstn (Z.to_nat limit) l
  else firstn (Z.to_nat (Z.of_nat (List.length l) + limit)) l.

(** [a or b] on what [tag.get] returns. *)
Definition or_attr (a b : option string) : option string :=
  match a with
  | Some s => if s =? "" then b else a
  | None => b
  end.

(** [a or b] with a string for [b]. *)
Definition or_str (a : option string) (b : string) : string :=
  match a with
  | Some s => if s =? "" then b else s
  | None => b
  end.

(** The longest run of digits at the head of a string, and what follows. *)
Fixpoint span_digits (s : string) : string * string :=
  match s with
  | EmptyString => ("", "")
  | String c rest =>
      if PyStr.isdigit c
      then let (d, r) := span_digits rest in (String c d, r)
      else ("", s)
  end.

(** [re.search(r"/(\d+)/", s)] and its [group(1)]: the leftmost slash
    followed by one or more digits and a slash. *)
Fixpoint re_search_slash_digits (s : string) : option string :=
  match s with
  | EmptyString => None
  | String c rest =>
      if (c =? "/")%char then
        match span_digits rest with
        | (String d ds, String c' _) =>
            if (c' =? "/")%char then Some (String d ds)
            else re_search_slash_digits rest
        | _ => re_search_slash_digits rest
        end
      else re_search_slash_digits rest
  end.

Section PinterestSearchScraper.
Context {ext : Externals}.
Variable config : PinterestScraperConfig.

Definition _build_search_url (query content_filter : string)
  : string * list (string * string) :=
  let params := [("q", query); ("rs", "typed")] in
  let params :=
    if content_filter =? "videos" then (params ++ [("video", "1")])%list else params in
  (base_url config, params).

(** *** The fetcher *)

(** [backoff_factor * (2 ** (attempt - 1))] *)
Definition wait_of (attempt : nat) : Q :=
  (backoff_factor config * inject_Z (2 ^ (Z.of_nat attempt - 1)))%Q.

(** [random.uniform(a, b)] is [a + (b - a) * random()]. *)
Definition uniform (a b u : Q) : Q := (a + (b - a) * u)%Q.

(** [wait + jitter] when [random()] draws [u]. *)
Definition sleep_for (attempt : nat) (u : Q) : Q :=
  let wait := wait_of attempt in
  let jitter := uniform 0 (wait / 2) u in
  (wait + jitter)%Q.

(** [backoff_factor * (2 ** (attempt - 1))] raises [OverflowError] when
    the integer power is too large for a float, from [2 ** 1024] on. *)
Definition wait_overflows (attempt : nat) : bool := (1025 <=? attempt)%nat.

(** The longest sleep [time.sleep] takes: its clock counts nanoseconds in
    64 bits. *)
Definition max_sleep : Q := 9223372036854775807 # 1000000000.

(** [time.sleep(seconds)] raises on a negative length ([ValueError]) and
    on one beyond its clock ([OverflowError]). *)
Definition sleep_raises (seconds : Q) : bool :=
  negb (Qle_bool 0 seconds) || negb (Qle_bool seconds max_sleep).

(** The body of the [for] loop over the remaining attempt numbers. The
    first component is [None] when an exception leaves the loop, which
    only the [except] block can raise, and the returned value otherwise. *)
Fixpoint retry_loop (url : string) (params : list (string * string))
    (attempts : list nat) : option (option Response) * list event :=
  match attempts with
  | [] => (Some None, [])
  | attempt :: rest =>
      let failed :=
        if wait_overflows attempt then (None, [EvGet attempt])
        else
          let seconds := sleep_for attempt (random_unit attempt) in
          if sleep_raises seconds then (None, [EvGet attempt])
          else
            let (resp, evs) := retry_loop url params rest in
            (resp, EvGet attempt :: EvSleep seconds :: evs) in
      match session_get url params attempt with
      | Returns resp =>
          if (500 <=? status_code resp)%Z then failed
          else (Some (Some resp), [EvGet attempt])
      | Raises => failed
      end
  end.

Definition _request_with_retries (url : string) (params : list (string * string))
  : option (option Response) * list event :=
  retry_loop url params (seq 1 (Z.to_nat (max_retries config))).

(** *** The structured-data locator *)

(** [script.string or script.text] *)
Definition script_text (script : Soup.node) : string :=
  match Soup.tag_string script with
  | Some s => if s =? "" then Soup.text script else s
  | None => Soup.text script
  end.

Definition has_marker (text : string) : bool :=
  PyStr.contains "__PWS_DATA__" text || PyStr.contains "initialReduxState" text.

Definition looks_like_json (text : string) : bool :=
  PyStr.startswith "{" (PyStr.strip text) && PyStr.endswith "}" (PyStr.strip text).

(** The first [try] block: [None] when anything in it raises. *)
Definition parse_marked (text : string) : option value :=
  match PyStr.find "{" text, PyStr.rfind "}" text with
  | Some first_brace, Some last_brace =>
      json_loads (PyStr.slice first_brace (last_brace + 1) text)
  | _, _ => None
  end.

(** What one pass of the loop appends to [blobs]. *)
Definition blobs_of_script (script : Soup.node) : list value :=
  let text := script_text script in
  if text =? "" then []
  else
    let pure :=
      if looks_like_json text
      then match json_loads text with Some data => [data] | None => [] end
      else [] in
    if has_marker text then
      match parse_marked text with
      | Some data => data :: pure
      | None => []
      end
    else pure.

(** [None] when an exception leaves the function: the parser's. *)
Definition _extract_json_blobs_from_html (html : string)
  : option (list value) :=
  match BeautifulSoup html with
  | Some soup => Some (flat_map blobs_of_script (Soup.find_all "script" soup))
  | None => None
  end.

(** *** The record finder *)

Fixpoint _iter_dicts (obj : value) : list value :=
  match obj with
  | VDict entries =>
      obj :: (fix each (l : list (string * value)) : list value :=
                match l with
                | [] => []
                | (_, v) :: l' => (_iter_dicts v ++ each l')%list
                end) entries
  | VList items =>
      (fix each (l : list value) : list value :=
         match l with
         | [] => []
         | v :: l' => (_iter_dicts v ++ each l')%list
         end) items
  | _ => []
  end.

(** The heuristic of [_find_pin_objects] on one node. *)
Definition looks_like_pin (node : value) : bool :=
  match node with
  | VDict d =>
      Py.contains "id" d
      && (Py.contains "images" d || Py.contains "grid_title" d
          || Py.contains "title" d)
  | _ => false
  end.

Definition _find_pin_objects (blobs : list value) : list value :=
  flat_map (fun blob => filter looks_like_pin (_iter_dicts blob)) blobs.

(** *** The markup fallback *)

Definition null_pinner : value :=
  VDict [("id", VNone); ("username", VNone); ("fullName", VNone);
         ("avatarURL", VNone); ("followers", VNone)].

(** The identifier of lines 185-189. *)
Definition fallback_pin_id (pin_div : Soup.node) (image_url : string) : string :=
  let pin_id := or_str (Soup.get "data-pin-id" pin_div) "" in
  if pin_id =? "" then
    match re_search_slash_digits image_url with
    | Some digits => digits
    | None => PyStr.last_chars 32 image_url
    end
  else pin_id.

(** One pass of the loop over the [div]s: [Some None] is [continue],
    [None] an exception, [Some (Some pin)] an appended record. *)
Definition fallback_pin (pin_div : Soup.node) : option (option value) :=
  let data_test_id :=
    match Soup.get "data-test-id" pin_div with Some s => s | None => "" end in
  if negb (PyStr.contains "pin" (PyStr.lower data_test_id)) then Some None
  else
    match Soup.find "img" pin_div with
    | None => Some None
    | Some img =>
        let image_url :=
          or_str (or_attr (Soup.get "src" img) (Soup.get "data-src" img)) "" in
        let alt := or_str (Soup.get "alt" img) "" in
        let pin_id := fallback_pin_id pin_div image_url in
        match parse_pinterest_timestamp VNone with
        | None => None
        | Some date =>
            Some (Some (VDict [("id", VStr pin_id);
                               ("title", VStr alt);
                               ("pinner", null_pinner);
                               ("date", date);
                               ("type", VStr "pin");
                               ("imageURL", VStr image_url)]))
        end
    end.

Fixpoint fallback_loop (divs : list Soup.node) : option (list value) :=
  match divs with
  | [] => Some []
  | pin_div :: rest =>
      match fallback_pin pin_div, fallback_loop rest with
      | Some (Some pin), Some results => Some (pin :: results)
      | Some None, Some results => Some results
      | _, _ => None
      end
  end.

Definition _fallback_parse_from_html (html : string) : option (list value) :=
  match BeautifulSoup html with
  | Some soup => fallback_loop (Soup.find_all "div" soup)
  | None => None
  end.

(** *** The normalizer *)

Fixpoint first_url (sizes : list value) : value :=
  match sizes with
  | [] => VNone
  | VDict size_data :: rest =>
      match Py.lookup "url" size_data with
      | Some url => url
      | None => first_url rest
      end
  | _ :: rest => first_url rest
  end.

Definition _extract_primary_image_url (pin_obj : list (string * value)) : value :=
  match Py.get "images" pin_obj with
  | VDict images =>
      match Py.lookup "orig" images with
      | Some (VDict orig) => Py.get "url" orig
      | _ => first_url (Py.values images)
      end
  | _ => VNone
  end.

(** The title expression of lines 227-232. *)
Definition pin_title (pin_obj : list (string * value)) : value :=
  por (Py.get "grid_title" pin_obj)
    (por (Py.get "title" pin_obj)
       (por (Py.get "description" pin_obj) (VStr ""))).

(** [None] when an exception leaves the function. *)
Definition _normalize_pin (pin_obj : value) : option value :=
  match pin_obj with
  | VDict d =>
      let pin_id := py_str (Py.get "id" d) in
      let title := pin_title d in
      let pinner :=
        match por (Py.get "pinner" d) (por (Py.get "owner" d) (VDict [])) with
        | VDict p => p
        | _ => []
        end in
      let pinner_id := por (Py.get "id" pinner) (Py.get "user_id" pinner) in
      let username := por (Py.get "username" pinner) (Py.get "urlname" pinner) in
      let full_name := por (Py.get "full_name" pinner) (Py.get "fullName" pinner) in
      let avatar_url :=
        if Py.contains "image_small_url" pinner
        then Py.get "image_small_url" pinner
        else if Py.contains "image_medium_url" pinner
        then Py.get "image_medium_url" pinner
        else if Py.contains "image_xlarge_url" pinner
        then Py.get "image_xlarge_url" pinner
        else VNone in
      let followers :=
        por (Py.get "follower_count" pinner) (Py.get "followers" pinner) in
      let created_at :=
        por (Py.get "created_at" d)
          (por (Py.get "created_at_timestamp" d) (Py.get "createdAt" d)) in
      match parse_pinterest_timestamp created_at with
      | None => None
      | Some date_info =>
          let image_url := por (_extract_primary_image_url d) (VStr "") in
          Some (VDict [("id", VStr pin_id);
                       ("title", title);
                       ("pinner", VDict [("id", pinner_id);
                                         ("username", username);
                                         ("fullName", full_name);
                                         ("avatarURL", avatar_url);
                                         ("followers", followers)]);
                       ("date", date_info);
                       ("type", por (Py.get "type" d) (VStr "pin"));
                       ("imageURL", image_url)])
      end
  | _ => None
  end.

(** *** The orchestrator *)

(** The [for] loop of lines 318-325 with [normalized] accumulated so far. *)
Fixpoint normalize_loop (limit : Z) (pins_raw normalized : list value)
  : list value * list event :=
  match pins_raw with
  | [] => (normalized, [])
  | pin_obj :: rest =>
      match _normalize_pin pin_obj with
      | Some normalized_pin =>
          let normalized := (normalized ++ [normalized_pin])%list in
          if (limit <=? Z.of_nat (List.length normalized))%Z
          then (normalized, [EvNormalize pin_obj])
          else
            let (out, evs) := normalize_loop limit rest normalized in
            (out, EvNormalize pin_obj :: evs)
      | None =>
          let (out, evs) := normalize_loop limit rest normalized in
          (out, EvNormalize pin_obj :: evs)
      end
  end.

(** What [search] does with the text of a 200 response; [None] when an
    exception leaves it. *)
Definition search_html (limit : Z) (html : string)
  : option (list value) * list event :=
  match _extract_json_blobs_from_html html with
  | None => (None, [])
  | Some blobs =>
      let pins_raw :=
        match blobs with [] => [] | _ => _find_pin_objects blobs end in
      match pins_raw with
      | [] => (option_map (slice_to limit) (_fallback_parse_from_html html), [])
      | _ =>
          let (normalized, evs) := normalize_loop limit pins_raw [] in
          (Some normalized, evs)
      end
  end.

Definition search (query : string) (limit : Z) (content_filter : string)
  : option (list value) * list event :=
  let (url, params) := _build_search_url query content_filter in
  let (resp, fetch_evs) := _request_with_retries url params in
  match resp with
  | None => (None, fetch_evs)
  | Some None => (Some [], fetch_evs)
  | Some (Some resp) =>
      if negb (status_code resp =? 200)%Z then (Some [], fetch_evs)
      else
        let (out, evs) := search_html limit (resp_text resp) in
        (out, (fetch_evs ++ evs)%list)
  end.

End PinterestSearchScraper.

(** ** The vocabulary of the specification *)

Module Spec.

(** Every node of a tree, depth first, a node before what it holds. *)
Fixpoint dfs_nodes (t : value) : list value :=
  t :: match t with
       | VList items =>
           (fix each (l : list value) : list value :=
              match l with
              | [] => []
              | v :: l' => (dfs_nodes v ++ each l')%list
              end) items
       | VDict entries =>
           (fix each (l : list (string * value)) : list value :=
              match l with
              | [] => []
              | (_, v) :: l' => (dfs_nodes v ++ each l')%list
              end) entries
       | _ => []
       end.

(** [node_of n t]: [n] sits somewhere in the tree [t]. *)
Inductive node_of (n : value) : value -> Prop :=
| node_here : node_of n n
| node_item (items : list value) (x : value) :
    In x items -> node_of n x -> node_of n (VList items)
| node_field (entries : list (string * value)) (k : string) (x : value) :
    In (k, x) entries -> node_of n x -> node_of n (VDict entries).

Definition has_field (k : string) (d : list (string * value)) : bool :=
  existsb (String.eqb k) (Py.keys d).

(** "Record-like": a mapping with a field [id] and at least one of
    [images], [grid_title], [title]. *)
Definition record_like (n : value) : bool :=
  match n with
  | VDict d =>
      has_field "id" d
      && (has_field "images" d || has_field "grid_title" d || has_field "title" d)
  | _ => false
  end.

Fixpoint same_keys (a b : list string) : bool :=
  match a, b with
  | [], [] => true
  | x :: a', y :: b' => (x =? y) && same_keys a' b'
  | _, _ => false
  end.

Definition keys_of (v : value) : list string :=
  match v with VDict d => Py.keys d | _ => [] end.

Definition field (k : string) (v : value) : value :=
  match v with VDict d => Py.get k d | _ => VNone end.

Definition str_or_none (v : value) : bool :=
  match v with VNone | VStr _ => true | _ => false end.

(** The fields of an item record, whatever [title], [type] and [imageURL]
    hold: six top-level fields, a string [id], the creator with its five
    fields (under the key [pinner]), the date with its two. *)
Definition item_fields (r : value) : bool :=
  same_keys (keys_of r) ["id"; "title"; "pinner"; "date"; "type"; "imageURL"]
  && isinstance_str (field "id" r)
  && same_keys (keys_of (field "pinner" r))
       ["id"; "username"; "fullName"; "avatarURL"; "followers"]
  && same_keys (keys_of (field "date" r)) ["formatted"; "initial"]
  && str_or_none (field "formatted" (field "date" r)).

(** The canonical item shape: [title], [type] and [imageURL] are strings
    as well. *)
Definition canonical_item (r : value) : bool :=
  item_fields r
  && isinstance_str (field "title" r)
  && isinstance_str (field "type" r)
  && isinstance_str (field "imageURL" r).

(** The value of a field that is present and not null. *)
Definition present (k : string) (d : list (string * value)) : option value :=
  match Py.lookup k d with
  | Some VNone | None => None
  | Some v => Some v
  end.

Definition first_some (candidates : list (option value)) (default : value) : value :=
  match List.find (fun o => match o with Some _ => true | None => false end)
          candidates with
  | Some (Some v) => v
  | _ => default
  end.

(** Title resolution as the specification words it: the first present,
    non-null field wins. *)
Definition title_first_present (d : list (string * value)) : value :=
  first_some [present "grid_title" d; present "title" d; present "description" d]
             (VStr "").

(** Title resolution by truth value: the first field holding a true value
    wins. *)
Definition title_first_truthy (d : list (string * value)) : value :=
  match List.find truthy
          [Py.get "grid_title" d; Py.get "title" d; Py.get "description" d] with
  | Some v => v
  | None => VStr ""
  end.

(** [s.split("/")] *)
Fixpoint split_slash (s : string) : list string :=
  match s with
  | EmptyString => [""]
  | String c rest =>
      if (c =? "/")%char then "" :: split_slash rest
      else match split_slash rest with
           | h :: t => String c h :: t
           | [] => [String c ""]
           end
  end.

Fixpoint digits_only (s : string) : bool :=
  match s with
  | EmptyString => true
  | String c rest => PyStr.isdigit c && digits_only rest
  end.

(** A path segment made of one or more digits. *)
Definition all_digit_segment (s : string) : bool :=
  negb (s =? "") && digits_only s.

(** The segments with a slash on both sides. *)
Definition slash_delimited (s : string) : list string :=
  removelast (tl (split_slash s)).

(** The first slash-delimited all-digit segment of a URL. *)
Definition first_digit_segment (url : string) : option string :=
  List.find all_digit_segment (slash_delimited url).

(** A response that makes the fetcher try again. *)
Definition retryable (o : outcome) : bool :=
  match o with
  | Raises => true
  | Returns resp => (500 <=? status_code resp)%Z
  end.

(** The mean of [sleep_for]: it is affine in the draw, and the mean draw
    of [random()] is one half. *)
Definition expected_sleep (config : PinterestScraperConfig) (attempt : nat) : Q :=
  sleep_for config attempt (1 # 2).

(** The mean of finitely many draws, or sleeps. *)
Definition total (l : list Q) : Q := fold_right Qplus 0%Q l.

Definition mean (l : list Q) : Q :=
  (total l / inject_Z (Z.of_nat (List.length l)))%Q.

(** One failed attempt in the trace of the fetcher. *)
Definition failed_attempt {ext : Externals} (config : PinterestScraperConfig)
    (attempt : nat) : list event :=
  [EvGet attempt; EvSleep (sleep_for config attempt (random_unit attempt))].

(** Whether the [except] block of the fetcher comes to its end at this
    attempt: the wait is computed and the sleep is taken. *)
Definition handler_returns {ext : Externals} (config : PinterestScraperConfig)
    (attempt : nat) : bool :=
  negb (wait_overflows attempt)
  && negb (sleep_raises (sleep_for config attempt (random_unit attempt))).

(** The candidates the normalizer was called on. *)
Definition normalized_candidates (evs : list event) : list value :=
  flat_map (fun e => match e with EvNormalize p => [p] | _ => [] end) evs.

Definition attempts_made (evs : list event) : nat :=
  List.length (filter is_get evs).

(** The fetch that [search] starts with: the response it returned, if it
    returned one, and what it did. *)
Definition fetch_of_search {ext : Externals} (config : PinterestScraperConfig)
    (query content_filter : string) : option Response * list event :=
  let result :=
    _request_with_retries config
      (fst (_build_search_url config query content_filter))
      (snd (_build_search_url config query content_filter)) in
  (match fst result with Some (Some resp) => Some resp | _ => None end,
   snd result).

(** Whether an exception left the fetch that [search] starts with. *)
Definition fetch_raised {ext : Externals} (config : PinterestScraperConfig)
    (query content_filter : string) : bool :=
  match fst (_request_with_retries config
               (fst (_build_search_url config query content_filter))
               (snd (_build_search_url config query content_filter))) with
  | None => true
  | Some _ => false
  end.

(** The candidates of a page: what the finder returns on its blobs, none
    when the page has no blobs to give. *)
Definition candidates {ext : Externals} (html : string) : list value :=
  match _extract_json_blobs_from_html html with
  | Some blobs => _find_pin_objects blobs
  | None => []
  end.

End Spec.

(** ** A small site to run the program on *)

Module Demo.

Definition dq : string := String "034"%char "".

(** A JSON string literal. *)
Definition q (s : string) : string := dq ++ s ++ dq.

(** [{"id": <id>, "title": <title>}] *)
Definition pin_json (id title : string) : string :=
  "{" ++ q "id" ++ ": " ++ id ++ ", " ++ q "title" ++ ": " ++ title ++ "}".

Definition pin_value (id : Z) (title : value) : value :=
  VDict [("id", VInt id); ("title", title)].

(** [{"pins": [{"id": 1, "title": "A"}, {"id": 2, "title": "B"},
    {"id": 3, "title": "C"}]}] *)
Definition json_three : string :=
  "{" ++ q "pins" ++ ": [" ++ pin_json "1" (q "A") ++ ", "
      ++ pin_json "2" (q "B") ++ ", " ++ pin_json "3" (q "C") ++ "]}".

Definition value_three : value :=
  VDict [("pins", VList [pin_value 1 (VStr "A"); pin_value 2 (VStr "B");
                         pin_value 3 (VStr "C")])].

Definition js_three : string := "window.initialReduxState = " ++ json_three ++ ";".

Definition html_three : string :=
  "<html><body><script>" ++ js_three ++ "</script></body></html>".

Definition soup_three : list Soup.node :=
  [Soup.Tag "html" []
     [Soup.Tag "body" [] [Soup.Tag "script" [] [Soup.Text js_three]]]].

(** [{"id": 1, "title": 5}] *)
Definition json_numeric : string := pin_json "1" "5".

Definition value_numeric : value := pin_value 1 (VInt 5).

Definition html_numeric : string := "<script>" ++ json_numeric ++ "</script>".

Definition soup_numeric : list Soup.node :=
  [Soup.Tag "script" [] [Soup.Text json_numeric]].

(** [{"__PWS_DATA__": 1}] *)
Definition json_marked : string := "{" ++ q "__PWS_DATA__" ++ ": 1}".

Definition value_marked : value := VDict [("__PWS_DATA__", VInt 1)].

Definition script_marked : Soup.node := Soup.Tag "script" [] [Soup.Text json_marked].

Definition html_fallback : string :=
  "<div data-test-id='pin-1'><img src='http://x/1/a.jpg' alt='A'></div>"
  ++ "<div data-test-id='pin-2'><img src='http://x/2/b.jpg' alt='B'></div>".

Definition pin_div (test_id src alt : string) : Soup.node :=
  Soup.Tag "div" [("data-test-id", test_id)]
    [Soup.Tag "img" [("src", src); ("alt", alt)] []].

Definition soup_fallback : list Soup.node :=
  [pin_div "pin-1" "http://x/1/a.jpg" "A"; pin_div "pin-2" "http://x/2/b.jpg" "B"].

(** [{"id": 42, "title": "T", "images": {"orig": {"url": "http://x/img.jpg"}}}] *)
Definition json_image : string :=
  "{" ++ q "id" ++ ": 42, " ++ q "title" ++ ": " ++ q "T" ++ ", "
      ++ q "images" ++ ": {" ++ q "orig" ++ ": {" ++ q "url" ++ ": "
      ++ q "http://x/img.jpg" ++ "}}}".

Definition value_image : value :=
  VDict [("id", VInt 42); ("title", VStr "T");
         ("images", VDict [("orig", VDict [("url", VStr "http://x/img.jpg")])])].

Definition js_image : string := "window.initialReduxState = " ++ json_image ++ ";".

Definition html_image : string := "<script>" ++ js_image ++ "</script>".

Definition soup_image : list Soup.node :=
  [Soup.Tag "script" [] [Soup.Text js_image]].

Definition html_hello : string :=
  "<div data-test-id='pin-123'><img src='http://x/5555/a.jpg' alt='Hello'></div>".

Definition soup_hello : list Soup.node :=
  [pin_div "pin-123" "http://x/5555/a.jpg" "Hello"].

(** A marked section the parser rejects with an exception. *)
Definition html_rejected : string := "<![foo[x]]>".

(** The pages of the site by search query; [down] answers 503 for ever,
    [flaky] fails twice before it answers. *)
Definition serve (params : list (string * string)) (attempt : nat) : outcome :=
  match Soup.attr "q" params with
  | Some "three" => Returns (mkResponse 200 html_three)
  | Some "numeric" => Returns (mkResponse 200 html_numeric)
  | Some "fallback" => Returns (mkResponse 200 html_fallback)
  | Some "image" => Returns (mkResponse 200 html_image)
  | Some "hello" => Returns (mkResponse 200 html_hello)
  | Some "rejected" => Returns (mkResponse 200 html_rejected)
  | Some "down" => Returns (mkResponse 503 "")
  | Some "flaky" =>
      match attempt with
      | 1 => Raises
      | 2 => Returns (mkResponse 502 "")
      | _ => Returns (mkResponse 200 html_three)
      end
  | _ => Returns (mkResponse 404 "")
  end.

(** The libraries on the pages above. No page carries a timestamp, so the
    calendar is left out: its three functions raise. *)
#[local] Instance site : Externals := {
  datetime := unit;
  fromtimestamp := fun _ => None;
  dateutil_parse_utc := fun _ => None;
  strftime_ymd := fun _ => None;
  repr_compound := fun _ => "";
  BeautifulSoup := fun html =>
    if html =? html_three then Some soup_three
    else if html =? html_numeric then Some soup_numeric
    else if html =? html_fallback then Some soup_fallback
    else if html =? html_image then Some soup_image
    else if html =? html_hello then Some soup_hello
    else if html =? html_rejected then None
    else Some [Soup.Text html];
  json_loads := fun s =>
    if s =? json_three then Some value_three
    else if s =? json_numeric then Some value_numeric
    else if s =? json_marked then Some value_marked
    else if s =? json_image then Some value_image
    else None;
  session_get := fun _ params attempt => serve params attempt;
  random_unit := fun _ => (1 # 4)%Q
}.

End Demo.

(** ** More vocabulary for the behaviour of the scraper *)

Module Behaviour.

(** The records of the candidates whose normalization does not raise, in
    the order of the candidates. *)
Definition successes {ext : Externals} (pins_raw : list value) : list value :=
  flat_map (fun p => match _normalize_pin p with Some r => [r] | None => [] end)
           pins_raw.

(** A container the fallback turns into a record: its [data-test-id]
    holds [pin] in any letter case and an [img] sits below it. *)
Definition accepted_container (pin_div : Soup.node) : bool :=
  PyStr.contains "pin"
    (PyStr.lower (match Soup.get "data-test-id" pin_div with
                  | Some s => s
                  | None => ""
                  end))
  && match Soup.find "img" pin_div with Some _ => true | None => false end.

(** The image URL and the title the fallback reads off a container. *)
Definition container_image (pin_div : Soup.node) : value :=
  match Soup.find "img" pin_div with
  | Some img =>
      VStr (or_str (or_attr (Soup.get "src" img) (Soup.get "data-src" img)) "")
  | None => VNone
  end.

Definition container_title (pin_div : Soup.node) : value :=
  match Soup.find "img" pin_div with
  | Some img => VStr (or_str (Soup.get "alt" img) "")
  | None => VNone
  end.

(** The character does not occur in the string. *)
Fixpoint char_free (c : ascii) (s : string) : bool :=
  match s with
  | EmptyString => true
  | String a rest => negb (a =? c)%char && char_free c rest
  end.

(** The value under the first of the keys that the mapping has, null
    when it has none of them. *)
Fixpoint first_present (keys : list string) (p : list (string * value))
  : value :=
  match keys with
  | [] => VNone
  | key :: rest =>
      match Py.lookup key p with
      | Some v => v
      | None => first_present rest p
      end
  end.

(** An entry of [images] whose [url] the loop of
    [_extract_primary_image_url] would return. *)
Definition has_url (size_data : value) : bool :=
  match size_data with
  | VDict sd => Py.contains "url" sd
  | _ => false
  end.

(** The values an item record holds below its fixed fields. *)
Definition leaves (r : value) : list value :=
  [Spec.field "title" r; Spec.field "type" r; Spec.field "imageURL" r;
   Spec.field "initial" (Spec.field "date" r);
   Spec.field "id" (Spec.field "pinner" r);
   Spec.field "username" (Spec.field "pinner" r);
   Spec.field "fullName" (Spec.field "pinner" r);
   Spec.field "avatarURL" (Spec.field "pinner" r);
   Spec.field "followers" (Spec.field "pinner" r)].

(** None of them is a mapping. *)
Definition scalar_leaves (r : value) : bool :=
  forallb (fun v => negb (isinstance_dict v)) (leaves r).

(** The columns of a flattened item record. *)
Definition item_columns : list string :=
  ["id"; "title"; "pinner.id"; "pinner.username"; "pinner.fullName";
   "pinner.avatarURL"; "pinner.followers"; "date.formatted"; "date.initial";
   "type"; "imageURL"].

(** A mapping that holds no mapping. *)
Definition flat (items : list (string * value)) : Prop :=
  Forall (fun kv => isinstance_dict (snd kv) = false) items.

(** Every character of the string passes the test. *)
Fixpoint all_chars (test : ascii -> bool) (s : string) : bool :=
  match s with
  | EmptyString => true
  | String c rest => test c && all_chars test rest
  end.

End Behaviour.

(** ** outputs/exporters.py *)

Module Exporter.

(** [c.isalnum()] for code points below 256. *)
Definition isalnum (c : ascii) : bool :=
  let n := PyStr.char_code c in
  (((48 <=? n) && (n <=? 57)) || ((65 <=? n) && (n <=? 90))
   || ((97 <=? n) && (n <=? 122)) || (n =? 170)
   || ((178 <=? n) && (n <=? 179)) || (n =? 181)
   || ((185 <=? n) && (n <=? 186)) || ((188 <=? n) && (n <=? 190))
   || ((192 <=? n) && (n <=? 214)) || ((216 <=? n) && (n <=? 246))
   || (248 <=? n))%nat.

(** [c.isalnum() or c in ("-", "_")] *)
Definition kept (c : ascii) : bool :=
  isalnum c || (c =? "-")%char || (c =? "_")%char.

(** The [safe_stub] of [_build_path]. *)
Fixpoint safe_stub (filename_stub : string) : string :=
  match filename_stub with
  | EmptyString => EmptyString
  | String c rest => String (if kept c then c else "_"%char) (safe_stub rest)
  end.

(** [os.path.join(a, p)] of [posixpath]. *)
Definition path_join (a p : string) : string :=
  if PyStr.startswith "/" p then p
  else if (a =? "") || PyStr.endswith "/" a then a ++ p
  else a ++ "/" ++ p.

Record DataExporter : Type := mkExporter {
  output_dir : string;
  default_format : string
}.

(** [DataExporter(output_dir, default_format)]: the object built when
    [os.makedirs] returns. *)
Definition init (output_dir default_format : string) : DataExporter :=
  mkExporter output_dir (PyStr.lower default_format).

Definition _build_path (self : DataExporter) (filename_stub extension : string)
  : string :=
  path_join (output_dir self) (safe_stub filename_stub ++ "." ++ extension).

(** The writer [export] hands the data and the path to. *)
Inductive writer : Type :=
| ExportJson | ExportJsonl | ExportCsv | ExportExcel | ExportXml.

Definition supported_formats : list string :=
  ["json"; "jsonl"; "csv"; "xlsx"; "excel"; "xml"].

(** How a call of [export] ends: it returns the path, or [ValueError]
    leaves it, or the exception of the writer it ran does. *)
Inductive export_result : Type :=
| Exported (path : string)
| UnsupportedFormat (fmt : string)
| WriterRaised.

(** A writer run on the data and a path. *)
Definition writer_call : Type :=
  (writer * list (list (string * value)) * string)%type.

Section ExportCall.

(** Whether the writer returns on this data and path, with the files and
    the libraries it goes through ([open], [json.dump], [csv], [pandas],
    [ElementTree]); an exception leaves it otherwise. *)
Variable writer_returns :
  writer -> list (list (string * value)) -> string -> bool.

(** [self._export_...(data_list, path)] followed by [return path]. *)
Definition run_writer (w : writer) (data : list (list (string * value)))
    (path : string) : export_result * list writer_call :=
  (if writer_returns w data path then Exported path else WriterRaised,
   [(w, data, path)]).

(** [export]: how it ends, and the writers it ran. *)
Definition export (self : DataExporter) (data : list (list (string * value)))
    (filename_stub : string) (output_format : option string)
  : export_result * list writer_call :=
  let fmt :=
    PyStr.lower (or_str output_format (default_format self)) in
  if negb (existsb (String.eqb fmt) supported_formats)
  then (UnsupportedFormat fmt, [])
  else if fmt =? "json"
  then run_writer ExportJson data (_build_path self filename_stub "json")
  else if fmt =? "jsonl"
  then run_writer ExportJsonl data (_build_path self filename_stub "jsonl")
  else if fmt =? "csv"
  then run_writer ExportCsv data (_build_path self filename_stub "csv")
  else if (fmt =? "xlsx") || (fmt =? "excel")
  then run_writer ExportExcel data (_build_path self filename_stub "xlsx")
  else run_writer ExportXml data (_build_path self filename_stub "xml").

End ExportCall.

(** [items[key] = value] on an insertion-ordered dict. *)
Fixpoint dict_set (key : string) (v : value) (items : list (string * value))
  : list (string * value) :=
  match items with
  | [] => [(key, v)]
  | (k, old) :: rest =>
      if k =? key then (k, v) :: rest else (k, old) :: dict_set key v rest
  end.

(** [items.update(other)] *)
Definition dict_update (items other : list (string * value))
  : list (string * value) :=
  fold_left (fun acc kv => dict_set (fst kv) (snd kv) acc) other items.

(** [f"{parent_key}{sep}{key}" if parent_key else key] *)
Definition new_key (parent_key sep key : string) : string :=
  if parent_key =? "" then key else parent_key ++ sep ++ key.

(** [_flatten_dict] on the mapping held by [data]. *)
Fixpoint flatten_value (data : value) (parent_key sep : string)
  : list (string * value) :=
  match data with
  | VDict entries =>
      (fix each (l items : list (string * value)) : list (string * value) :=
         match l with
         | [] => items
         | (key, v) :: l' =>
             match v with
             | VDict _ =>
                 each l' (dict_update items
                            (flatten_value v (new_key parent_key sep key) sep))
             | _ => each l' (dict_set (new_key parent_key sep key) v items)
             end
         end) entries []
  | _ => []
  end.

Definition _flatten_dict (data : list (string * value))
    (parent_key sep : string) : list (string * value) :=
  flatten_value (VDict data) parent_key sep.

(** The loop over the entries of one mapping, from the items so far. *)
Fixpoint flatten_loop (parent_key sep : string)
    (l items : list (string * value)) : list (string * value) :=
  match l with
  | [] => items
  | (key, v) :: l' =>
      match v with
      | VDict sub =>
          flatten_loop parent_key sep l'
            (dict_update items
               (_flatten_dict sub (new_key parent_key sep key) sep))
      | _ =>
          flatten_loop parent_key sep l'
            (dict_set (new_key parent_key sep key) v items)
      end
  end.

(** The [fieldnames] of [_export_csv]: the keys of the rows as they first
    appear. *)
Definition add_fieldname (fieldnames : list string) (key : string)
  : list string :=
  if existsb (String.eqb key) fieldnames then fieldnames
  else (fieldnames ++ [key])%list.

Definition csv_fieldnames (flat_rows : list (list (string * value)))
  : list string :=
  fold_left (fun fieldnames row => fold_left add_fieldname (Py.keys row) fieldnames)
            flat_rows [].

(** What [_export_csv] writes: an empty file, or a header and the
    flattened rows given to [csv.DictWriter]. *)
Inductive csv_output : Type :=
| CsvEmptyFile
| CsvTable (fieldnames : list string) (rows : list (list (string * value))).

Definition _export_csv (data : list (list (string * value))) : csv_output :=
  match data with
  | [] => CsvEmptyFile
  | _ =>
      let flat_rows := map (fun row => _flatten_dict row "" ".") data in
      CsvTable (csv_fieldnames flat_rows) flat_rows
  end.

End Exporter.

(** ** runner.py *)

Module Runner.

(** The command line after [argparse]. *)
Record Args : Type := mkArgs {
  arg_query : option string;
  arg_limit : option Z;
  arg_filter : option string
}.

(** [config.get(key, default)] *)
Definition config_get (key : string) (default : value)
    (config : list (string * value)) : value :=
  match Py.lookup key config with
  | Some v => v
  | None => default
  end.

(** [job.setdefault(key, default)] *)
Definition setdefault (key : string) (default : value)
    (job : list (string * value)) : list (string * value) :=
  if Py.contains key job then job else (job ++ [(key, default)])%list.

(** The loop of [load_jobs_from_inputs] on one item: the job it appends. *)
Definition job_of_item (item : value) : option (list (string * value)) :=
  match item with
  | VDict d => if Py.contains "query" d then Some d else None
  | _ => None
  end.

(** [load_jobs_from_inputs] on what the inputs file holds: [None] for the
    file stands for a missing or unreadable file, [None] as a result for
    the exception raised. *)
Definition load_jobs_from_inputs (file : option value)
  : option (list (list (string * value))) :=
  match file with
  | Some (VList data) =>
      Some (flat_map (fun item => match job_of_item item with
                                  | Some job => [job]
                                  | None => []
                                  end) data)
  | _ => None
  end.

Section BuildJobs.
Context {ext : Externals}.

(** [int(v)] for a string or a float; [None] when it raises. *)
Variable int_of_text : value -> option Z.

(** [int(v)] *)
Definition py_int (v : value) : option Z :=
  match v with
  | VInt z => Some z
  | VBool b => Some (if b then 1 else 0)%Z
  | VStr _ | VFloat _ => int_of_text v
  | VNone | VList _ | VDict _ => None
  end.

(** [a or b] on an optional integer of [argparse]. *)
Definition or_int (a : option Z) (b : Z) : Z :=
  match a with
  | Some z => if (z =? 0)%Z then b else z
  | None => b
  end.

(** [build_jobs]; [None] when an exception leaves it. *)
Definition build_jobs (args : Args) (config : list (string * value))
    (inputs_file : option value) : option (list (list (string * value))) :=
  match py_int (config_get "default_limit" (VInt 50) config) with
  | None => None
  | Some default_limit =>
      let default_filter :=
        py_str (config_get "content_filter" (VStr "all") config) in
      match or_attr (arg_query args) None with
      | Some query =>
          Some [[("query", VStr query);
                 ("limit", VInt (or_int (arg_limit args) default_limit));
                 ("filter", VStr (or_str (arg_filter args) default_filter))]]
      | None =>
          match load_jobs_from_inputs inputs_file with
          | None => None
          | Some jobs =>
              Some (map (fun job =>
                           setdefault "filter" (VStr default_filter)
                             (setdefault "limit" (VInt default_limit) job))
                        jobs)
          end
      end
  end.

End BuildJobs.

End Runner.

(** * Sanity checks of the model *)

Example strip_ex : PyStr.strip "  {a} " = "{a}".
Proof. reflexivity. Qed.

Example str_int_ex :
  PyStr.str_int 42 = "42" /\ PyStr.str_int (-5) = "-5" /\ PyStr.str_int 0 = "0".
Proof. repeat split; reflexivity. Qed.

Example find_ex :
  PyStr.rfind "}" "a{b}c}d" = Some 5 /\ PyStr.find "{" "a{b}c}d" = Some 1
  /\ PyStr.find "{" "abc" = None.
Proof. repeat split; reflexivity. Qed.

Example slice_ex :
  PyStr.last_chars 3 "abcdef" = "def" /\ PyStr.last_chars 32 "abc" = "abc"
  /\ PyStr.slice 1 4 "abcdef" = "bcd".
Proof. repeat split; reflexivity. Qed.

Example lower_ex :
  PyStr.lower "PiN-1" = "pin-1" /\ PyStr.endswith "}" "ab}" = true
  /\ PyStr.contains "pin" "a-pin" = true.
Proof. repeat split; reflexivity. Qed.

Example re_search_ex :
  re_search_slash_digits "http://x/5555/a.jpg" = Some "5555"
  /\ re_search_slash_digits "http://x/55a/66/7/a.jpg" = Some "66"
  /\ re_search_slash_digits "http://x/a.jpg" = None
  /\ re_search_slash_digits "/12" = None.
Proof. repeat split; reflexivity. Qed.

Example split_slash_ex :
  Spec.split_slash "http://x/5555/a.jpg" = ["http:"; ""; "x"; "5555"; "a.jpg"]
  /\ Spec.slash_delimited "http://x/5555/a.jpg" = [""; "x"; "5555"]
  /\ Spec.first_digit_segment "http://x/5555/a.jpg" = Some "5555"
  /\ Spec.first_digit_segment "12/a/34" = None.
Proof. repeat split; reflexivity. Qed.

Example slice_to_ex :
  slice_to 2 [1; 2; 3] = [1; 2] /\ slice_to 0 [1; 2; 3] = []
  /\ slice_to (-1) [1; 2; 3] = [1; 2] /\ slice_to (-5) [1; 2; 3] = []
  /\ slice_to 7 [1; 2; 3] = [1; 2; 3].
Proof. repeat split; reflexivity. Qed.

Example search_three_ex :
  fst (search (ext := Demo.site) default_config "three" 2 "all")
  = Some [VDict [("id", VStr "1"); ("title", VStr "A");
                 ("pinner", VDict [("id", VNone); ("username", VNone);
                                   ("fullName", VNone); ("avatarURL", VNone);
                                   ("followers", VNone)]);
                 ("date", VDict [("formatted", VNone); ("initial", VNone)]);
                 ("type", VStr "pin"); ("imageURL", VStr "")];
          VDict [("id", VStr "2"); ("title", VStr "B");
                 ("pinner", VDict [("id", VNone); ("username", VNone);
                                   ("fullName", VNone); ("avatarURL", VNone);
                                   ("followers", VNone)]);
                 ("date", VDict [("formatted", VNone); ("initial", VNone)]);
                 ("type", VStr "pin"); ("imageURL", VStr "")]].
Proof. vm_compute. reflexivity. Qed.

Example search_fallback_ex :
  fst (search (ext := Demo.site) default_config "fallback" 10 "all")
  = Some [VDict [("id", VStr "1"); ("title", VStr "A");
                 ("pinner", null_pinner);
                 ("date", VDict [("formatted", VNone); ("initial", VNone)]);
                 ("type", VStr "pin"); ("imageURL", VStr "http://x/1/a.jpg")];
          VDict [("id", VStr "2"); ("title", VStr "B");
                 ("pinner", null_pinner);
                 ("date", VDict [("formatted", VNone); ("initial", VNone)]);
                 ("type", VStr "pin"); ("imageURL", VStr "http://x/2/b.jpg")]].
Proof. vm_compute. reflexivity. Qed.

(** The two end-to-end examples of the specification. *)
Example search_image_ex :
  fst (search (ext := Demo.site) default_config "image" 10 "all")
  = Some [VDict [("id", VStr "42"); ("title", VStr "T");
                 ("pinner", null_pinner);
                 ("date", VDict [("formatted", VNone); ("initial", VNone)]);
                 ("type", VStr "pin"); ("imageURL", VStr "http://x/img.jpg")]].
Proof. vm_compute. reflexivity. Qed.

Example search_hello_ex :
  fst (search (ext := Demo.site) default_config "hello" 10 "all")
  = Some [VDict [("id", VStr "5555"); ("title", VStr "Hello");
                 ("pinner", null_pinner);
                 ("date", VDict [("formatted", VNone); ("initial", VNone)]);
                 ("type", VStr "pin");
                 ("imageURL", VStr "http://x/5555/a.jpg")]].
Proof. vm_compute. reflexivity. Qed.

(** * The record finder *)

Section RecordFinder.

Lemma dfs_nodes_list (items : list value) :
  Spec.dfs_nodes (VList items) = VList items :: flat_map Spec.dfs_nodes items.
Proof.
  reflexivity.
Qed.

Lemma dfs_nodes_dict (entries : list (string * value)) :
  Spec.dfs_nodes (VDict entries)
  = VDict entries :: flat_map Spec.dfs_nodes (Py.values entries).
Proof.
  simpl. f_equal. induction entries as [|[k x] entries IH]; simpl; congruence.
Qed.

Lemma iter_dicts_list (items : list value) :
  _iter_dicts (VList items) = flat_map _iter_dicts items.
Proof.
  reflexivity.
Qed.

Lemma iter_dicts_dict (entries : list (string * value)) :
  _iter_dicts (VDict entries)
  = VDict entries :: flat_map _iter_dicts (Py.values entries).
Proof.
  simpl. f_equal. induction entries as [|[k x] entries IH]; simpl; congruence.
Qed.

Lemma contains_has_field (k : string) (d : list (string * value)) :
  Py.contains k d = Spec.has_field k d.
Proof.
  unfold Py.contains, Spec.has_field, Py.keys.
  induction d as [|[k' v] d IH]; simpl; [reflexivity|].
  rewrite (String.eqb_sym k k').
  destruct (k' =? k); simpl; [reflexivity | exact IH].
Qed.

Lemma looks_like_pin_record_like (n : value) :
  looks_like_pin n = Spec.record_like n.
Proof.
  destruct n; simpl; try reflexivity.
  now rewrite !contains_has_field.
Qed.

Lemma record_like_is_dict (n : value) :
  Spec.record_like n = true -> isinstance_dict n = true.
Proof. destruct n; simpl; congruence. Qed.

Lemma flat_map_filter {A B : Type} (f : B -> bool) (g h : A -> list B)
    (l : list A) :
  Forall (fun x => g x = filter f (h x)) l ->
  flat_map g l = filter f (flat_map h l).
Proof.
  induction 1 as [|x l Hx _ IH]; simpl; [reflexivity|].
  now rewrite filter_app, Hx, IH.
Qed.

Lemma iter_dicts_dfs (t : value) :
  _iter_dicts t = filter isinstance_dict (Spec.dfs_nodes t).
Proof.
  induction t as [| | | | |items IH|entries IH] using value_ind;
    try reflexivity.
  - rewrite iter_dicts_list, dfs_nodes_list. simpl.
    now apply flat_map_filter.
  - rewrite iter_dicts_dict, dfs_nodes_dict. simpl. f_equal.
    apply flat_map_filter. unfold Py.values.
    now rewrite Forall_map.
Qed.

Lemma filter_record_like_dicts (l : list value) :
  filter looks_like_pin (filter isinstance_dict l) = filter Spec.record_like l.
Proof.
  induction l as [|x l IH]; simpl; [reflexivity|].
  rewrite <- (looks_like_pin_record_like x).
  destruct (isinstance_dict x) eqn:Hd; simpl.
  - rewrite IH. reflexivity.
  - destruct (looks_like_pin x) eqn:Hp; [|exact IH].
    rewrite looks_like_pin_record_like in Hp.
    apply record_like_is_dict in Hp. congruence.
Qed.

Lemma find_pin_objects_dfs (blobs : list value) :
  _find_pin_objects blobs
  = filter Spec.record_like (flat_map Spec.dfs_nodes blobs).
Proof.
  unfold _find_pin_objects.
  induction blobs as [|b blobs IH]; simpl; [reflexivity|].
  rewrite filter_app, IH, iter_dicts_dfs, filter_record_like_dicts.
  reflexivity.
Qed.

Lemma find_pin_objects_app (l1 l2 : list value) :
  _find_pin_objects (l1 ++ l2) = (_find_pin_objects l1 ++ _find_pin_objects l2)%list.
Proof. unfold _find_pin_objects. apply flat_map_app. Qed.

(** An accepted mapping does not hide what it holds. *)
Lemma find_pin_objects_dict (entries : list (string * value)) (rest : list value) :
  _find_pin_objects (VDict entries :: rest)
  = ((if Spec.record_like (VDict entries) then [VDict entries] else [])
     ++ _find_pin_objects (Py.values entries) ++ _find_pin_objects rest)%list.
Proof.
  change (VDict entries :: rest) with ([VDict entries] ++ rest)%list.
  rewrite find_pin_objects_app, app_assoc. f_equal.
  rewrite !find_pin_objects_dfs. cbn [flat_map].
  rewrite app_nil_r, dfs_nodes_dict. cbn [filter].
  now destruct (Spec.record_like (VDict entries)).
Qed.

Lemma dfs_nodes_node_of (n t : value) :
  In n (Spec.dfs_nodes t) <-> Spec.node_of n t.
Proof.
  split.
  - revert n.
    induction t as [| | | | |items IH|entries IH] using value_ind; intros n Hin;
      try (destruct Hin as [<-|[]]; constructor).
    + rewrite dfs_nodes_list in Hin. destruct Hin as [<-|Hin]; [constructor|].
      apply in_flat_map in Hin. destruct Hin as (x & Hx & Hn).
      rewrite Forall_forall in IH.
      apply Spec.node_item with x; auto.
    + rewrite dfs_nodes_dict in Hin. destruct Hin as [<-|Hin]; [constructor|].
      apply in_flat_map in Hin. destruct Hin as (x & Hx & Hn).
      unfold Py.values in Hx. apply in_map_iff in Hx.
      destruct Hx as ([k x'] & <- & Hkx).
      rewrite Forall_forall in IH.
      apply Spec.node_field with k x'; [assumption|].
      apply (IH (k, x')); assumption.
  - induction 1 as [|items x Hx _ IH|entries k x Hx _ IH].
    + destruct n; simpl; now left.
    + rewrite dfs_nodes_list. right. apply in_flat_map. eauto.
    + rewrite dfs_nodes_dict. right. apply in_flat_map.
      exists x. split; [|assumption].
      unfold Py.values. apply in_map_iff. now exists (k, x).
Qed.

Lemma node_of_trans (a b c : value) :
  Spec.node_of a b -> Spec.node_of b c -> Spec.node_of a c.
Proof.
  intros Hab Hbc. induction Hbc; [assumption | |].
  - eapply Spec.node_item; eauto.
  - eapply Spec.node_field; eauto.
Qed.

Lemma find_pin_objects_In (blobs : list value) (n : value) :
  In n (_find_pin_objects blobs)
  <-> exists b, In b blobs /\ Spec.node_of n b /\ Spec.record_like n = true.
Proof.
  rewrite find_pin_objects_dfs, filter_In, in_flat_map.
  split.
  - intros ((b & Hb & Hn) & Hr). exists b. now rewrite <- dfs_nodes_node_of.
  - intros (b & Hb & Hn & Hr). split; [|assumption].
    exists b. now rewrite dfs_nodes_node_of.
Qed.

(** C4. [_find_pin_objects] returns exactly the record-like mapping nodes
    of the blobs, in depth-first order: a mapping node with a field [id]
    and at least one of [images], [grid_title], [title]. A tree without
    such a node gives no match, and a record-like mapping inside an
    accepted mapping is returned as a match of its own. *)
Theorem C4_find_pin_objects_exact (blobs : list value) :
  _find_pin_objects blobs
  = filter Spec.record_like (flat_map Spec.dfs_nodes blobs)
  /\ (forall n, In n (_find_pin_objects blobs)
       <-> exists b, In b blobs /\ Spec.node_of n b
                     /\ Spec.record_like n = true)
  /\ ((forall b n, In b blobs -> Spec.node_of n b ->
        Spec.record_like n = false) ->
      _find_pin_objects blobs = [])
  /\ (forall entries rest,
        blobs = VDict entries :: rest ->
        Spec.record_like (VDict entries) = true ->
        _find_pin_objects blobs
        = VDict entries
            :: (_find_pin_objects (Py.values entries)
                ++ _find_pin_objects rest)%list)
  /\ (forall b parent child,
        In b blobs -> Spec.node_of parent b -> Spec.node_of child parent ->
        Spec.record_like parent = true -> Spec.record_like child = true ->
        In parent (_find_pin_objects blobs)
        /\ In child (_find_pin_objects blobs)).
Proof.
  split; [apply find_pin_objects_dfs|].
  split; [apply find_pin_objects_In|].
  split; [|split].
  - intros Hnone.
    destruct (_find_pin_objects blobs) as [|n l] eqn:E; [reflexivity|].
    assert (Hin : In n (_find_pin_objects blobs)) by (rewrite E; now left).
    apply find_pin_objects_In in Hin. destruct Hin as (b & Hb & Hn & Hr).
    rewrite (Hnone b n Hb Hn) in Hr. discriminate.
  - intros entries rest -> Hr.
    rewrite find_pin_objects_dict, Hr. reflexivity.
  - intros b parent child Hb Hp Hc Hrp Hrc. split.
    + apply find_pin_objects_In. now exists b.
    + apply find_pin_objects_In. exists b.
      repeat split; [assumption | | assumption].
      now apply node_of_trans with parent.
Qed.

Lemma C4_find_pin_objects_witness :
  let child := VDict [("id", VInt 2); ("images", VDict [])] in
  let parent := VDict [("id", VInt 1); ("title", VStr "P"); ("child", child)] in
  let blob := VDict [("props", VList [VInt 0; parent])] in
  (In parent (_find_pin_objects [blob]) /\ In child (_find_pin_objects [blob]))
  /\ _find_pin_objects [parent] = [parent; child]
  /\ _find_pin_objects [VDict [("id", VInt 3); ("sizes", VList [VInt 1])]] = [].
Proof.
  intros child parent blob. split; [|split].
  - apply (proj2 (proj2 (proj2 (proj2
             (C4_find_pin_objects_exact [blob])))) blob parent child).
    + now left.
    + apply dfs_nodes_node_of. vm_compute. tauto.
    + apply dfs_nodes_node_of. vm_compute. tauto.
    + reflexivity.
    + reflexivity.
  - rewrite (proj1 (proj2 (proj2 (proj2 (C4_find_pin_objects_exact [parent]))))
               _ [] eq_refl eq_refl).
    reflexivity.
  - apply (proj1 (proj2 (proj2 (C4_find_pin_objects_exact _)))).
    intros b n [<-|[]] Hn. apply dfs_nodes_node_of in Hn. simpl in Hn.
    repeat (destruct Hn as [<-|Hn]; [reflexivity|]). contradiction.
Defined.

End RecordFinder.

(** * The timestamp normalizer *)

Section Timestamp.
Context {ext : Externals}.

(** C7, as the program has it. A raw timestamp that is neither null, nor a
    number, nor a string gives [formatted] null and [initial] the raw value
    itself. *)
Theorem C7_unsupported_type_keeps_raw (raw : value) :
  raw <> VNone ->
  isinstance_number raw = false ->
  isinstance_str raw = false ->
  parse_pinterest_timestamp raw
  = Some (VDict [("formatted", VNone); ("initial", raw)]).
Proof.
  intros Hnone Hnum Hstr.
  destruct raw; simpl in *; try discriminate; try congruence; reflexivity.
Qed.

End Timestamp.

Lemma C7_unsupported_type_witness :
  parse_pinterest_timestamp (ext := Demo.site) (VDict [("seconds", VInt 5)])
  = Some (VDict [("formatted", VNone);
                 ("initial", VDict [("seconds", VInt 5)])]).
Proof.
  apply (C7_unsupported_type_keeps_raw (ext := Demo.site)).
  - discriminate.
  - reflexivity.
  - reflexivity.
Defined.

(** C7 as stated fails: for the list [[1]] the result holds the list under
    [initial], not null. *)
Lemma C7_counterexample :
  parse_pinterest_timestamp (ext := Demo.site) (VList [VInt 1])
  = Some (VDict [("formatted", VNone); ("initial", VList [VInt 1])])
  /\ parse_pinterest_timestamp (ext := Demo.site) (VList [VInt 1])
     <> Some (VDict [("formatted", VNone); ("initial", VNone)]).
Proof. split; [reflexivity | discriminate]. Qed.

(** * The record normalizer *)

Section Normalizer.
Context {ext : Externals}.

Lemma parse_pinterest_timestamp_shape (raw date : value) :
  parse_pinterest_timestamp raw = Some date ->
  exists formatted,
    date = VDict [("formatted", formatted); ("initial", raw)]
    /\ Spec.str_or_none formatted = true.
Proof.
  unfold parse_pinterest_timestamp.
  destruct (_safe_to_datetime raw) as [dt|].
  - destruct (strftime_ymd dt) as [s|]; [|discriminate].
    intros [= <-]. now exists (VStr s).
  - intros [= <-]. now exists VNone.
Qed.

(** What a successful normalization has built. *)
Lemma normalize_pin_inv (pin_obj r : value) :
  _normalize_pin pin_obj = Some r ->
  exists d pinner date,
    pin_obj = VDict d
    /\ Spec.keys_of pinner
       = ["id"; "username"; "fullName"; "avatarURL"; "followers"]
    /\ parse_pinterest_timestamp
         (por (Py.get "created_at" d)
            (por (Py.get "created_at_timestamp" d) (Py.get "createdAt" d)))
       = Some date
    /\ r = VDict [("id", VStr (py_str (Py.get "id" d)));
                  ("title", pin_title d);
                  ("pinner", pinner);
                  ("date", date);
                  ("type", por (Py.get "type" d) (VStr "pin"));
                  ("imageURL", por (_extract_primary_image_url d) (VStr ""))].
Proof.
  destruct pin_obj as [| | | | | |d]; try discriminate.
  unfold _normalize_pin.
  destruct (parse_pinterest_timestamp _) as [date|] eqn:Hdate; [|discriminate].
  intros [= <-]. exists d. eexists. exists date.
  split; [reflexivity|]. split; [|split; [exact Hdate | reflexivity]].
  reflexivity.
Qed.

Lemma pin_title_first_truthy (d : list (string * value)) :
  pin_title d = Spec.title_first_truthy d.
Proof.
  unfold pin_title, Spec.title_first_truthy, por. simpl.
  destruct (truthy (Py.get "grid_title" d)); [reflexivity|].
  destruct (truthy (Py.get "title" d)); [reflexivity|].
  destruct (truthy (Py.get "description" d)); reflexivity.
Qed.

Lemma present_when_truthy (k : string) (d : list (string * value)) :
  Py.get k d = VNone \/ truthy (Py.get k d) = true ->
  Spec.present k d
  = if truthy (Py.get k d) then Some (Py.get k d) else None.
Proof.
  unfold Spec.present, Py.get.
  destruct (Py.lookup k d) as [v|]; [|reflexivity].
  intros [-> | Ht]; [reflexivity|].
  rewrite Ht. destruct v; try reflexivity. discriminate.
Qed.

(** C5, as the program has it. The title of a normalized record is the
    value of the first field among [grid_title], [title], [description]
    that holds a true value, and the empty string when none does; an empty
    [grid_title] therefore gives way to [title] and [description]. When
    each of the three fields is absent, null or true, this is the first
    present, non-null field. *)
Theorem C5_title_first_truthy (d : list (string * value)) (r : value) :
  _normalize_pin (VDict d) = Some r ->
  Spec.field "title" r = Spec.title_first_truthy d
  /\ (Py.get "grid_title" d = VStr "" ->
      Spec.field "title" r
      = match List.find truthy [Py.get "title" d; Py.get "description" d] with
        | Some v => v
        | None => VStr ""
        end)
  /\ ((forall k, In k ["grid_title"; "title"; "description"] ->
         Py.get k d = VNone \/ truthy (Py.get k d) = true) ->
      Spec.field "title" r = Spec.title_first_present d).
Proof.
  intros Hr. apply normalize_pin_inv in Hr.
  destruct Hr as (d' & pinner & date & [= <-] & _ & _ & ->).
  change (Spec.field "title" _) with (pin_title d).
  rewrite pin_title_first_truthy. split; [reflexivity|]. split.
  - intros Hg. unfold Spec.title_first_truthy. simpl. rewrite Hg. reflexivity.
  - intros Hall. unfold Spec.title_first_truthy, Spec.title_first_present.
    rewrite !present_when_truthy by (apply Hall; simpl; tauto).
    unfold Spec.first_some. simpl.
    destruct (truthy (Py.get "grid_title" d)); [reflexivity|].
    destruct (truthy (Py.get "title" d)); [reflexivity|].
    destruct (truthy (Py.get "description" d)); reflexivity.
Qed.

(** What [_extract_primary_image_url] computes, case by case. *)
Lemma extract_primary_image_url_cases (pin_obj : list (string * value)) :
  (isinstance_dict (Py.get "images" pin_obj) = false ->
   _extract_primary_image_url pin_obj = VNone)
  /\ (forall images orig,
        Py.get "images" pin_obj = VDict images ->
        Py.lookup "orig" images = Some (VDict orig) ->
        _extract_primary_image_url pin_obj = Py.get "url" orig)
  /\ (forall images,
        Py.get "images" pin_obj = VDict images ->
        isinstance_dict (Py.get "orig" images) = false ->
        _extract_primary_image_url pin_obj = first_url (Py.values images)).
Proof.
  unfold _extract_primary_image_url. repeat split.
  - destruct (Py.get "images" pin_obj); simpl; congruence.
  - intros images orig -> ->. reflexivity.
  - intros images ->. unfold Py.get.
    destruct (Py.lookup "orig" images) as [[]|]; simpl; congruence.
Qed.

End Normalizer.

Lemma C5_title_witness :
  let d := [("id", VInt 1); ("title", VStr "T"); ("description", VStr "D")] in
  Spec.field "title"
    (VDict [("id", VStr "1"); ("title", VStr "T");
            ("pinner", VDict [("id", VNone); ("username", VNone);
                              ("fullName", VNone); ("avatarURL", VNone);
                              ("followers", VNone)]);
            ("date", VDict [("formatted", VNone); ("initial", VNone)]);
            ("type", VStr "pin"); ("imageURL", VStr "")])
  = Spec.title_first_truthy d.
Proof.
  intros d.
  apply (proj1 (C5_title_first_truthy (ext := Demo.site) d _ eq_refl)).
Defined.

(** C5 as stated fails: with an empty [grid_title] and the title [T], the
    first present, non-null field is the empty [grid_title], and the
    normalized title is [T]. *)
Lemma C5_counterexample :
  let d := [("id", VInt 1); ("grid_title", VStr ""); ("title", VStr "T")] in
  option_map (Spec.field "title") (_normalize_pin (ext := Demo.site) (VDict d))
  = Some (VStr "T")
  /\ Spec.title_first_present d = VStr ""
  /\ VStr "T" <> VStr "".
Proof. split; [reflexivity | split; [reflexivity | discriminate]]. Qed.

(** C8 at the failing input: [orig] is a mapping without [url], the entry
    [small] has one, and no image URL comes out. *)
Lemma C8_orig_without_url_hides_others :
  let pin :=
    [("id", VInt 1);
     ("images", VDict [("orig", VDict [("width", VInt 10)]);
                       ("small", VDict [("url", VStr "http://x/s.jpg")])])] in
  _extract_primary_image_url pin = VNone
  /\ option_map (Spec.field "imageURL")
       (_normalize_pin (ext := Demo.site) (VDict pin))
     = Some (VStr "")
  /\ first_url (Py.values [("orig", VDict [("width", VInt 10)]);
                           ("small", VDict [("url", VStr "http://x/s.jpg")])])
     = VStr "http://x/s.jpg".
Proof. repeat split; reflexivity. Qed.

(** * The structured-data locator *)

Section Locator.
Context {ext : Externals}.

Lemma extract_json_blobs_cases (html : string) :
  _extract_json_blobs_from_html html
  = option_map
      (fun soup => flat_map blobs_of_script (Soup.find_all "script" soup))
      (BeautifulSoup html).
Proof.
  unfold _extract_json_blobs_from_html.
  destruct (BeautifulSoup html); reflexivity.
Qed.

(** C6, as the program has it. A script is accepted when its text holds
    one of the two markers or, trimmed, starts with an opening and ends
    with a closing brace. Every blob it contributes is the parse of the
    text between the first opening and the last closing brace (marker rule)
    or of the whole text (whole-text rule); it contributes at most one
    blob per rule, hence at most two, and at most one when only one rule
    applies. The contribution is given in every case: nothing for an empty
    text, for a text no rule accepts and for a failure under the marker
    rule (the whole-text rule is then not tried); the whole-text parse
    alone without a marker; the marker parse followed by the whole-text
    parse when both rules accept and parse; the marker parse alone when
    the whole-text rule does not accept or fails. The operation returns
    the contributions of the scripts in document order when the markup
    parser accepts the markup, and the parser's exception leaves it
    otherwise. *)
Theorem C6_blobs_of_script (script : Soup.node) :
  let text := script_text script in
  (forall b, In b (blobs_of_script script) ->
     text <> ""
     /\ ((has_marker text = true /\ parse_marked text = Some b)
         \/ (looks_like_json text = true /\ json_loads text = Some b)))
  /\ List.length (blobs_of_script script) <= 2
  /\ (has_marker text && looks_like_json text = false ->
      List.length (blobs_of_script script) <= 1)
  /\ (has_marker text = false -> looks_like_json text = false ->
      blobs_of_script script = [])
  /\ (has_marker text = true -> parse_marked text = None ->
      blobs_of_script script = [])
  /\ (has_marker text = false -> json_loads text = None ->
      blobs_of_script script = [])
  /\ (forall b, text <> "" -> has_marker text = true ->
      parse_marked text = Some b -> In b (blobs_of_script script))
  /\ (text = "" -> blobs_of_script script = [])
  /\ (forall j, text <> "" -> has_marker text = false ->
      looks_like_json text = true -> json_loads text = Some j ->
      blobs_of_script script = [j])
  /\ (forall m j, text <> "" -> has_marker text = true ->
      parse_marked text = Some m ->
      looks_like_json text = true -> json_loads text = Some j ->
      blobs_of_script script = [m; j])
  /\ (forall m, text <> "" -> has_marker text = true ->
      parse_marked text = Some m ->
      looks_like_json text = false \/ json_loads text = None ->
      blobs_of_script script = [m])
  /\ (forall html soup, BeautifulSoup html = Some soup ->
      _extract_json_blobs_from_html html
      = Some (flat_map blobs_of_script (Soup.find_all "script" soup)))
  /\ (forall html,
      _extract_json_blobs_from_html html = None <-> BeautifulSoup html = None).
Proof.
  intros text.
  assert (Hparser :
    (forall html soup, BeautifulSoup html = Some soup ->
      _extract_json_blobs_from_html html
      = Some (flat_map blobs_of_script (Soup.find_all "script" soup)))
    /\ (forall html,
      _extract_json_blobs_from_html html = None <-> BeautifulSoup html = None)).
  { split.
    - intros html soup H. now rewrite extract_json_blobs_cases, H.
    - intros html. rewrite extract_json_blobs_cases.
      destruct (BeautifulSoup html); simpl; split; congruence. }
  unfold blobs_of_script. fold text.
  destruct (String.eqb_spec text "") as [He|He].
  - repeat split; simpl; try tauto; try lia; try contradiction;
      try apply Hparser.
  - destruct (has_marker text) eqn:Hm, (looks_like_json text) eqn:Hj,
      (parse_marked text) as [m|] eqn:Hp, (json_loads text) as [j|] eqn:Hl;
      simpl; repeat split; try discriminate; try tauto; try lia;
      try apply Hparser;
      try (intros b Hb; simpl in Hb; intuition congruence);
      try (intros b _ _ [= <-]; now left);
      try (simpl in *; intuition congruence);
      try (intros; congruence).
Qed.

End Locator.

Lemma C6_blobs_of_script_witness :
  List.length
    (blobs_of_script (ext := Demo.site)
       (Soup.Tag "script" [] [Soup.Text Demo.js_three])) <= 1.
Proof.
  apply (proj1 (proj2 (proj2 (C6_blobs_of_script (ext := Demo.site) _)))).
  reflexivity.
Defined.

(** C6 as stated fails twice. The one script [{"__PWS_DATA__": 1}] holds a
    marker and is a whole JSON object, and contributes its parse twice;
    and on a marked section the parser rejects, the operation does not
    return a sequence: the parser's exception leaves it. *)
Lemma C6_counterexample :
  (blobs_of_script (ext := Demo.site) Demo.script_marked
   = [Demo.value_marked; Demo.value_marked]
   /\ ~ List.length (blobs_of_script (ext := Demo.site) Demo.script_marked) <= 1)
  /\ _extract_json_blobs_from_html (ext := Demo.site) Demo.html_rejected = None.
Proof.
  split; [split; [reflexivity|]; vm_compute; lia | reflexivity].
Qed.

(** * The markup fallback *)

Section UrlSegments.

Lemma digit_not_slash (c : ascii) :
  PyStr.isdigit c = true -> (c =? "/")%char = false.
Proof.
  destruct (Ascii.eqb_spec c "/") as [->|]; [discriminate | reflexivity].
Qed.

Lemma split_slash_nonempty (s : string) :
  exists h t, Spec.split_slash s = h :: t.
Proof.
  induction s as [|c s (h & t & IH)]; simpl; [now eexists _, _|].
  destruct (c =? "/")%char; [now eexists _, _|].
  rewrite IH. now eexists _, _.
Qed.

Lemma digits_only_broken (d h : string) (c : ascii) :
  PyStr.isdigit c = false -> Spec.all_digit_segment (d ++ String c h) = false.
Proof.
  intros Hc. unfold Spec.all_digit_segment.
  assert (H : Spec.digits_only (d ++ String c h) = false).
  { induction d as [|a d IH]; simpl; [now rewrite Hc|].
    rewrite IH. apply andb_false_r. }
  rewrite H. apply andb_false_r.
Qed.

(** How the head of [s.split("/")] relates to the digits at the head of
    [s]. *)
Lemma span_digits_split (s : string) :
  let (d, r) := span_digits s in
  Spec.digits_only d = true
  /\ match r with
     | EmptyString => Spec.split_slash s = [d]
     | String c post =>
         PyStr.isdigit c = false
         /\ if (c =? "/")%char
            then Spec.split_slash s = d :: Spec.split_slash post
            else exists h t,
                Spec.split_slash post = h :: t
                /\ Spec.split_slash s = (d ++ String c h) :: t
     end.
Proof.
  induction s as [|a s IH]; simpl; [now split|].
  destruct (PyStr.isdigit a) eqn:Ha.
  - destruct (span_digits s) as [d r]. destruct IH as [Hd IH].
    rewrite (digit_not_slash a Ha). simpl. rewrite Ha, Hd. split; [reflexivity|].
    destruct r as [|c post]; [now rewrite IH|].
    destruct IH as [Hc IH]. split; [assumption|].
    destruct (c =? "/")%char; [now rewrite IH|].
    destruct IH as (h & t & Hpost & ->). now exists h, t.
  - split; [reflexivity|]. split; [assumption|].
    destruct (a =? "/")%char; [reflexivity|].
    destruct (split_slash_nonempty s) as (h & t & Hs).
    rewrite Hs. now exists h, t.
Qed.

(** The regular expression finds the first slash-delimited all-digit
    segment. *)
Lemma re_search_first_digit_segment (s : string) :
  re_search_slash_digits s = Spec.first_digit_segment s.
Proof.
  unfold Spec.first_digit_segment, Spec.slash_delimited.
  induction s as [|c s IH]; [reflexivity|].
  cbn [re_search_slash_digits Spec.split_slash].
  destruct (c =? "/")%char.
  - cbn [tl]. pose proof (span_digits_split s) as Hs.
    destruct (span_digits s) as [d r]. destruct Hs as [Hd Hs].
    destruct r as [|c' post].
    + rewrite Hs in *. destruct d; exact IH.
    + destruct Hs as [Hc' Hs]. destruct (c' =? "/")%char.
      * rewrite Hs in *. cbn [tl] in IH.
        destruct (split_slash_nonempty post) as (h & t & Hp).
        rewrite Hp in *. cbn [removelast List.find].
        destruct d as [|a d]; [exact IH|].
        unfold Spec.all_digit_segment at 1. rewrite Hd. reflexivity.
      * destruct Hs as (h & t & Hp & Hs). rewrite Hs in *. cbn [tl] in IH.
        assert (Hgoal : re_search_slash_digits s
                        = List.find Spec.all_digit_segment
                            (removelast ((d ++ String c' h) :: t))).
        { rewrite IH. destruct t as [|x t]; [reflexivity|].
          cbn [removelast List.find].
          now rewrite (digits_only_broken d h c' Hc'). }
        destruct d; exact Hgoal.
  - destruct (split_slash_nonempty s) as (h & t & Hs).
    rewrite Hs in *. exact IH.
Qed.

Lemma substring_from (s : string) (k n : nat) :
  k <= String.length s -> String.length s - k <= n ->
  exists pre, s = pre ++ String.substring k n s /\ String.length pre = k.
Proof.
  revert k n. induction s as [|c s IH]; intros k n Hk Hn; simpl in *.
  - exists "". destruct k; [|lia]. now destruct n.
  - destruct k as [|k].
    + exists "". split; [|reflexivity]. simpl.
      destruct n as [|n]; [lia|].
      destruct (IH 0 n) as (pre & Hpre & Hlen); [lia | lia |].
      destruct pre; [|discriminate]. simpl in Hpre. now rewrite <- Hpre.
    + destruct (IH k n) as (pre & Hpre & Hlen); [lia | lia |].
      exists (String c pre). simpl. now rewrite <- Hpre, Hlen.
Qed.

(** [s[-n:]] is the end of [s], [n] characters long or all of [s]. *)
Lemma last_chars_suffix (n : nat) (s : string) :
  exists pre,
    s = pre ++ PyStr.last_chars n s
    /\ String.length (PyStr.last_chars n s) = Nat.min n (String.length s).
Proof.
  unfold PyStr.last_chars.
  destruct (substring_from s (String.length s - n) n) as (pre & Hpre & Hlen);
    [lia | lia |].
  exists pre. split; [assumption|].
  assert (Hl : String.length s
               = String.length pre
                 + String.length (String.substring (String.length s - n) n s)).
  { rewrite Hpre at 1. clear. induction pre; simpl; congruence. }
  lia.
Qed.

End UrlSegments.

Section Fallback.
Context {ext : Externals}.

(** What one accepted container turns into. *)
Lemma fallback_pin_inv (pin_div : Soup.node) (r : value) :
  fallback_pin pin_div = Some (Some r) ->
  exists img,
    Soup.find "img" pin_div = Some img
    /\ let image_url :=
         or_str (or_attr (Soup.get "src" img) (Soup.get "data-src" img)) "" in
       r = VDict [("id", VStr (fallback_pin_id pin_div image_url));
                  ("title", VStr (or_str (Soup.get "alt" img) ""));
                  ("pinner", null_pinner);
                  ("date", VDict [("formatted", VNone); ("initial", VNone)]);
                  ("type", VStr "pin");
                  ("imageURL", VStr image_url)].
Proof.
  unfold fallback_pin.
  destruct (negb _); [discriminate|].
  destruct (Soup.find "img" pin_div) as [img|]; [|discriminate].
  cbn. intros [= <-]. now exists img.
Qed.

Lemma fallback_pin_total (pin_div : Soup.node) : fallback_pin pin_div <> None.
Proof.
  unfold fallback_pin.
  destruct (negb _); [discriminate|].
  destruct (Soup.find "img" pin_div); discriminate.
Qed.

Lemma fallback_loop_total (divs : list Soup.node) :
  exists results, fallback_loop divs = Some results.
Proof.
  induction divs as [|pin_div divs (results & IH)]; simpl; [now eexists|].
  rewrite IH. pose proof (fallback_pin_total pin_div) as Ht.
  destruct (fallback_pin pin_div) as [[pin|]|]; [| |contradiction];
    now eexists.
Qed.

(** The fallback raises only when the parser does. *)
Lemma fallback_parse_total (html : string) (soup : list Soup.node) :
  BeautifulSoup html = Some soup ->
  exists results, _fallback_parse_from_html html = Some results.
Proof.
  unfold _fallback_parse_from_html. intros ->. apply fallback_loop_total.
Qed.

Lemma fallback_parse_inv (html : string) (results : list value) :
  _fallback_parse_from_html html = Some results ->
  exists soup,
    BeautifulSoup html = Some soup
    /\ fallback_loop (Soup.find_all "div" soup) = Some results.
Proof.
  unfold _fallback_parse_from_html.
  destruct (BeautifulSoup html) as [soup|]; [|discriminate].
  intros H. now exists soup.
Qed.

Lemma fallback_loop_canonical (divs : list Soup.node) (results : list value) :
  fallback_loop divs = Some results ->
  Forall (fun r => Spec.canonical_item r = true) results.
Proof.
  revert results. induction divs as [|pin_div divs IH]; simpl; intros results.
  - intros [= <-]. constructor.
  - destruct (fallback_pin pin_div) as [[pin|]|] eqn:Hpin; [| |discriminate];
      destruct (fallback_loop divs) as [rest|]; try discriminate;
      intros [= <-]; [|now apply IH].
    constructor; [|now apply IH].
    apply fallback_pin_inv in Hpin. destruct Hpin as (img & _ & ->).
    reflexivity.
Qed.

(** C9, as the program has it. The id of a fallback record is the
    container's [data-pin-id] attribute when that attribute is present and
    not empty; otherwise the first slash-delimited all-digit segment of
    the image URL when there is one; otherwise the last 32 characters of
    the image URL (all of it when it is shorter). *)
Theorem C9_fallback_pin_id (pin_div img : Soup.node) (r : value) :
  fallback_pin pin_div = Some (Some r) ->
  Soup.find "img" pin_div = Some img ->
  let image_url :=
    or_str (or_attr (Soup.get "src" img) (Soup.get "data-src" img)) "" in
  let url_id :=
    match Spec.first_digit_segment image_url with
    | Some digits => digits
    | None => PyStr.last_chars 32 image_url
    end in
  Spec.field "id" r
  = VStr (match Soup.get "data-pin-id" pin_div with
          | Some pin_id => if pin_id =? "" then url_id else pin_id
          | None => url_id
          end)
  /\ exists pre,
       image_url = pre ++ PyStr.last_chars 32 image_url
       /\ String.length (PyStr.last_chars 32 image_url)
          = Nat.min 32 (String.length image_url).
Proof.
  intros Hr Himg image_url url_id.
  apply fallback_pin_inv in Hr. destruct Hr as (img' & Himg' & ->).
  assert (img' = img) as -> by congruence.
  split; [|apply last_chars_suffix].
  cbn [Spec.field Py.get Py.lookup String.eqb Ascii.eqb Bool.eqb].
  fold image_url. f_equal.
  unfold fallback_pin_id, or_str.
  rewrite re_search_first_digit_segment. fold url_id.
  destruct (Soup.get "data-pin-id" pin_div) as [pin_id|]; [|reflexivity].
  destruct (pin_id =? "") eqn:Hempty; simpl; rewrite ?Hempty; reflexivity.
Qed.

End Fallback.

Lemma C9_fallback_pin_id_witness :
  Spec.field "id"
    (VDict [("id", VStr "5555"); ("title", VStr "Hello");
            ("pinner", null_pinner);
            ("date", VDict [("formatted", VNone); ("initial", VNone)]);
            ("type", VStr "pin"); ("imageURL", VStr "http://x/5555/a.jpg")])
  = VStr "5555".
Proof.
  apply (proj1 (C9_fallback_pin_id (ext := Demo.site)
                  (Demo.pin_div "pin-123" "http://x/5555/a.jpg" "Hello")
                  (Soup.Tag "img"
                     [("src", "http://x/5555/a.jpg"); ("alt", "Hello")] [])
                  _ eq_refl eq_refl)).
Defined.

(** C9 as stated fails: the container carries the attribute [data-pin-id],
    with the empty value, and the id comes from the image URL. *)
Lemma C9_counterexample :
  let pin_div :=
    Soup.Tag "div" [("data-test-id", "pin"); ("data-pin-id", "")]
      [Soup.Tag "img" [("src", "http://x/5555/a.jpg")] []] in
  Soup.get "data-pin-id" pin_div = Some ""
  /\ option_map (option_map (Spec.field "id"))
       (fallback_pin (ext := Demo.site) pin_div)
     = Some (Some (VStr "5555"))
  /\ VStr "5555" <> VStr "".
Proof. split; [reflexivity | split; [reflexivity | discriminate]]. Qed.

(** * The orchestrator *)

Section Orchestrator.
Context {ext : Externals}.
Variable config : PinterestScraperConfig.

Lemma normalize_pin_item_fields (pin_obj r : value) :
  _normalize_pin pin_obj = Some r -> Spec.item_fields r = true.
Proof.
  intros Hr. apply normalize_pin_inv in Hr.
  destruct Hr as (d & pinner & date & _ & Hkeys & Hdate & ->).
  apply parse_pinterest_timestamp_shape in Hdate.
  destruct Hdate as (formatted & -> & Hf).
  unfold Spec.item_fields.
  change (Spec.field "pinner" _) with pinner. rewrite Hkeys.
  cbn. now rewrite Hf.
Qed.

Lemma canonical_item_fields (r : value) :
  Spec.canonical_item r = true -> Spec.item_fields r = true.
Proof.
  unfold Spec.canonical_item. intros H.
  do 3 (apply andb_prop in H; destruct H as [H _]). exact H.
Qed.

(** Every record the loop adds is the normalization of a candidate it was
    handed. *)
Lemma normalize_loop_sound (limit : Z) (pins_raw normalized : list value) :
  exists added,
    fst (normalize_loop limit pins_raw normalized) = (normalized ++ added)%list
    /\ Forall (fun r =>
                 exists p,
                   In p (Spec.normalized_candidates
                           (snd (normalize_loop limit pins_raw normalized)))
                   /\ _normalize_pin p = Some r) added.
Proof.
  revert normalized.
  induction pins_raw as [|pin_obj rest IH]; intros normalized; simpl.
  - exists []. now rewrite app_nil_r.
  - destruct (_normalize_pin pin_obj) as [r|] eqn:Hr.
    + destruct (limit <=? _)%Z.
      * exists [r]. split; [reflexivity|]. constructor; [|constructor].
        exists pin_obj. split; [now left | assumption].
      * specialize (IH (normalized ++ [r])%list).
        destruct (normalize_loop limit rest (normalized ++ [r])) as [out evs].
        destruct IH as (added & Hout & Hadded). simpl in *.
        exists (r :: added). split; [now rewrite Hout, <- app_assoc|].
        constructor.
        -- exists pin_obj. split; [now left | assumption].
        -- eapply Forall_impl; [|exact Hadded].
           intros r' (p & Hp & Hnp). exists p. split; [now right | assumption].
    + specialize (IH normalized).
      destruct (normalize_loop limit rest normalized) as [out evs].
      destruct IH as (added & Hout & Hadded). simpl in *.
      exists added. split; [assumption|].
      eapply Forall_impl; [|exact Hadded].
      intros r' (p & Hp & Hnp). exists p. split; [now right | assumption].
Qed.

(** While the limit is ahead the loop takes the candidates one by one. *)
Lemma normalize_loop_prefix (limit : Z) (pins_raw normalized : list value)
    (k : nat) :
  k = Z.to_nat (limit - Z.of_nat (List.length normalized)) ->
  (Z.of_nat (List.length normalized) < limit)%Z ->
  k <= List.length pins_raw ->
  Forall (fun p => _normalize_pin p <> None) (firstn k pins_raw) ->
  exists added,
    normalize_loop limit pins_raw normalized
    = ((normalized ++ added)%list, map EvNormalize (firstn k pins_raw))
    /\ map Some added = map _normalize_pin (firstn k pins_raw).
Proof.
  revert normalized k.
  induction pins_raw as [|pin_obj rest IH]; intros normalized k Ek Hlt Hk Hok;
    simpl in Hk; [lia|].
  destruct k as [|k']; [lia|].
  simpl in Hok |- *. inversion Hok as [|? ? Hp Hrest]; subst.
  destruct (_normalize_pin pin_obj) as [r|] eqn:Hr; [|contradiction].
  rewrite length_app. simpl.
  destruct (Z.leb_spec limit (Z.of_nat (List.length normalized + 1)))
    as [Hle|Hgt].
  - assert (k' = 0) as -> by lia. exists [r]. now rewrite firstn_O.
  - destruct (IH (normalized ++ [r])%list k') as (added & Hloop & Hadded);
      try (rewrite ?length_app; simpl; lia); [exact Hrest|].
    rewrite Hloop. exists (r :: added).
    rewrite <- app_assoc. simpl. now rewrite Hadded.
Qed.

Lemma retry_loop_no_normalize (url : string) (params : list (string * string))
    (attempts : list nat) :
  Spec.normalized_candidates (snd (retry_loop config url params attempts)) = [].
Proof.
  induction attempts as [|a rest IH]; [reflexivity|].
  cbn [retry_loop].
  destruct (retry_loop config url params rest) as [resp evs]. simpl in IH.
  assert (Hfailed :
    Spec.normalized_candidates
      (snd (if wait_overflows a then (@None (option Response), [EvGet a])
            else if sleep_raises (sleep_for config a (random_unit a))
                 then (None, [EvGet a])
                 else (resp,
                       EvGet a
                         :: EvSleep (sleep_for config a (random_unit a))
                         :: evs)))
    = []).
  { destruct (wait_overflows a); [reflexivity|].
    destruct (sleep_raises _); [reflexivity | exact IH]. }
  destruct (session_get url params a) as [|resp']; [exact Hfailed|].
  destruct (500 <=? status_code resp')%Z; [exact Hfailed | reflexivity].
Qed.

Lemma candidates_of_blobs (blobs : list value) :
  match blobs with [] => [] | _ => _find_pin_objects blobs end
  = _find_pin_objects blobs.
Proof. now destruct blobs. Qed.

Lemma search_html_fallback (limit : Z) (html : string) :
  Spec.candidates html = [] ->
  search_html limit html
  = (option_map (slice_to limit) (_fallback_parse_from_html html), []).
Proof.
  unfold search_html, Spec.candidates, _fallback_parse_from_html,
    _extract_json_blobs_from_html.
  destruct (BeautifulSoup html) as [soup|]; [|reflexivity].
  rewrite candidates_of_blobs. now intros ->.
Qed.

Lemma search_html_normalize (limit : Z) (html : string) :
  Spec.candidates html <> [] ->
  search_html limit html
  = (Some (fst (normalize_loop limit (Spec.candidates html) [])),
     snd (normalize_loop limit (Spec.candidates html) [])).
Proof.
  unfold search_html, Spec.candidates.
  destruct (_extract_json_blobs_from_html html) as [blobs|]; [|congruence].
  rewrite candidates_of_blobs.
  destruct (_find_pin_objects _) as [|p rest]; [congruence|]. intros _.
  now destruct (normalize_loop limit (p :: rest) []).
Qed.

(** [search] on a page that was fetched with status 200. *)
Lemma search_fetched (query content_filter : string) (limit : Z)
    (resp : Response) :
  fst (Spec.fetch_of_search config query content_filter) = Some resp ->
  status_code resp = 200%Z ->
  search config query limit content_filter
  = (fst (search_html limit (resp_text resp)),
     (snd (Spec.fetch_of_search config query content_filter)
      ++ snd (search_html limit (resp_text resp)))%list).
Proof.
  unfold search, Spec.fetch_of_search.
  destruct (_build_search_url config query content_filter) as [url params].
  cbn [fst snd].
  destruct (_request_with_retries config url params) as [[[resp'|]|] evs];
    cbn [fst snd]; try discriminate.
  intros [= ->] ->. simpl.
  now destruct (search_html limit (resp_text resp)).
Qed.

(** [search] when the fetch returned and no page with status 200 came
    back. *)
Lemma search_not_fetched (query content_filter : string) (limit : Z) :
  Spec.fetch_raised config query content_filter = false ->
  (forall resp,
      fst (Spec.fetch_of_search config query content_filter) = Some resp ->
      status_code resp <> 200%Z) ->
  search config query limit content_filter
  = (Some [], snd (Spec.fetch_of_search config query content_filter)).
Proof.
  unfold search, Spec.fetch_of_search, Spec.fetch_raised.
  destruct (_build_search_url config query content_filter) as [url params].
  cbn [fst snd].
  destruct (_request_with_retries config url params) as [[[resp|]|] evs];
    cbn [fst snd]; [| reflexivity | discriminate].
  intros _ H. specialize (H resp eq_refl).
  destruct (Z.eqb_spec (status_code resp) 200); [contradiction | reflexivity].
Qed.

(** [search] when an exception left the fetch: it leaves [search] too. *)
Lemma search_fetch_raised (query content_filter : string) (limit : Z) :
  Spec.fetch_raised config query content_filter = true ->
  search config query limit content_filter
  = (None, snd (Spec.fetch_of_search config query content_filter)).
Proof.
  unfold search, Spec.fetch_of_search, Spec.fetch_raised.
  destruct (_build_search_url config query content_filter) as [url params].
  cbn [fst snd].
  destruct (_request_with_retries config url params) as [[[resp|]|] evs];
    cbn [fst snd]; try discriminate.
  reflexivity.
Qed.

Lemma fetch_no_normalize (query content_filter : string) :
  Spec.normalized_candidates
    (snd (Spec.fetch_of_search config query content_filter)) = [].
Proof. apply retry_loop_no_normalize. Qed.

Lemma normalized_candidates_app (evs1 evs2 : list event) :
  Spec.normalized_candidates (evs1 ++ evs2)
  = (Spec.normalized_candidates evs1 ++ Spec.normalized_candidates evs2)%list.
Proof. apply flat_map_app. Qed.

Lemma normalize_loop_calls (limit : Z) (p : value) (rest normalized : list value) :
  Spec.normalized_candidates (snd (normalize_loop limit (p :: rest) normalized))
  <> [].
Proof.
  simpl. destruct (_normalize_pin p).
  - destruct (limit <=? _)%Z; [discriminate|].
    destruct (normalize_loop limit rest _); discriminate.
  - destruct (normalize_loop limit rest _); discriminate.
Qed.

(** Where the records of a search come from, when it returns. *)
Lemma search_cases (query content_filter : string) (limit : Z) :
  fst (search config query limit content_filter) = None
  \/ (fst (search config query limit content_filter) = Some []
   /\ Spec.normalized_candidates
        (snd (search config query limit content_filter)) = [])
  \/ (exists html found,
        Spec.candidates html = []
        /\ _fallback_parse_from_html html = Some found
        /\ fst (search config query limit content_filter)
           = Some (slice_to limit found)
        /\ Spec.normalized_candidates
             (snd (search config query limit content_filter)) = [])
  \/ (exists html,
        Spec.candidates html <> []
        /\ fst (search config query limit content_filter)
           = Some (fst (normalize_loop limit (Spec.candidates html) []))
        /\ Spec.normalized_candidates
             (snd (search config query limit content_filter))
           = Spec.normalized_candidates
               (snd (normalize_loop limit (Spec.candidates html) []))
        /\ Spec.normalized_candidates
             (snd (search config query limit content_filter)) <> []).
Proof.
  destruct (Spec.fetch_raised config query content_filter) eqn:Hraised.
  { left. now rewrite search_fetch_raised. }
  destruct (fst (Spec.fetch_of_search config query content_filter))
    as [resp|] eqn:Hfetch.
  - destruct (Z.eq_dec (status_code resp) 200) as [H200|H200].
    + rewrite (search_fetched _ _ _ resp Hfetch H200). cbn [fst snd].
      rewrite normalized_candidates_app, fetch_no_normalize. cbn [app].
      destruct (Spec.candidates (resp_text resp)) as [|p rest] eqn:Hc.
      * rewrite (search_html_fallback _ _ Hc). cbn [fst snd].
        destruct (_fallback_parse_from_html (resp_text resp))
          as [found|] eqn:Hfound; [|now left].
        right. right. left. exists (resp_text resp), found. now repeat split.
      * right. right. right. exists (resp_text resp).
        assert (Hne : Spec.candidates (resp_text resp) <> [])
          by (rewrite Hc; discriminate).
        rewrite (search_html_normalize _ _ Hne), Hc. cbn [fst snd].
        repeat split; [discriminate|]. apply normalize_loop_calls.
    + right. left. rewrite search_not_fetched; [| assumption |].
      * split; [reflexivity | apply fetch_no_normalize].
      * intros resp' Hr. congruence.
  - right. left. rewrite search_not_fetched; [| assumption |].
    + split; [reflexivity | apply fetch_no_normalize].
    + intros resp' Hr. congruence.
Qed.

Lemma In_firstn {A : Type} (n : nat) (l : list A) (x : A) :
  In x (firstn n l) -> In x l.
Proof.
  intros Hx. rewrite <- (firstn_skipn n l). apply in_or_app. now left.
Qed.

Lemma Forall_slice_to {A : Type} (P : A -> Prop) (limit : Z) (l : list A) :
  Forall P l -> Forall P (slice_to limit l).
Proof.
  intros H. unfold slice_to.
  destruct (0 <=? limit)%Z;
    rewrite Forall_forall in *; intros x Hx; apply H;
    now apply In_firstn in Hx.
Qed.

(** C1, as the program has it. Every record [search] returns has exactly
    the six top-level fields [id], [title], [pinner] (the creator),
    [date], [type], [imageURL]; its [id] is a string, its creator has
    exactly the five fields, its date exactly [formatted] and [initial].
    When no candidate was normalized (the fallback path) [title], [type]
    and [imageURL] are strings too. When candidates were normalized (the
    normalization path) every record is the normalization of one of them
    and holds under [title], [type] and [imageURL] that candidate's own
    value when it is true in Python's sense, whatever its type, and the
    default string otherwise. *)
Theorem C1_search_item_fields (query content_filter : string) (limit : Z)
    (recs : list value) :
  fst (search config query limit content_filter) = Some recs ->
  Forall (fun r => Spec.item_fields r = true) recs
  /\ (Spec.normalized_candidates
        (snd (search config query limit content_filter)) = [] ->
      Forall (fun r => Spec.canonical_item r = true) recs)
  /\ (Spec.normalized_candidates
        (snd (search config query limit content_filter)) <> [] ->
      Forall
        (fun r =>
           exists d,
             In (VDict d)
               (Spec.normalized_candidates
                  (snd (search config query limit content_filter)))
             /\ _normalize_pin (VDict d) = Some r
             /\ Spec.field "title" r = Spec.title_first_truthy d
             /\ Spec.field "type" r = por (Py.get "type" d) (VStr "pin")
             /\ Spec.field "imageURL" r
                = por (_extract_primary_image_url d) (VStr ""))
        recs).
Proof.
  intros Hrecs.
  destruct (search_cases query content_filter limit)
    as [Hs | [[Hs Hn] | [(html & found & Hc & Hfound & Hs & Hn)
                        | (html & Hc & Hs & Hn & Hne)]]];
    rewrite Hs in Hrecs; [discriminate | ..]; injection Hrecs as <-.
  - repeat split; intros; constructor.
  - assert (Hcanon : Forall (fun r => Spec.canonical_item r = true)
                       (slice_to limit found)).
    { apply Forall_slice_to.
      destruct (fallback_parse_inv _ _ Hfound) as (soup & _ & Hloop).
      now apply fallback_loop_canonical with (Soup.find_all "div" soup). }
    split; [|split].
    + eapply Forall_impl; [|exact Hcanon]. apply canonical_item_fields.
    + intros _. exact Hcanon.
    + intros Hnot. contradiction.
  - destruct (normalize_loop_sound limit (Spec.candidates html) [])
      as (added & Hout & Hadded).
    rewrite Hout. cbn [app]. rewrite Hn. split; [|split].
    + eapply Forall_impl; [|exact Hadded].
      intros r (p & _ & Hp). now apply normalize_pin_item_fields with p.
    + intros Hnil. rewrite Hn in Hne. contradiction.
    + intros _. eapply Forall_impl; [|exact Hadded].
      intros r (p & Hin & Hp).
      destruct (normalize_pin_inv _ _ Hp) as (d & pinner & date & -> & _ & _ & ->).
      exists d. rewrite <- pin_title_first_truthy. now repeat split.
Qed.

(** C2. With a positive limit [L] and more than [L] candidates that all
    normalize, the normalization path of [search] returns exactly [L]
    records, the normalizations of the first [L] candidates in their
    order, and the normalizer is called on those [L] candidates only. *)
Theorem C2_limit_truncates (query content_filter : string) (L : Z)
    (resp : Response) (pins : list value) :
  fst (Spec.fetch_of_search config query content_filter) = Some resp ->
  status_code resp = 200%Z ->
  Spec.candidates (resp_text resp) = pins ->
  (0 < L)%Z ->
  (L < Z.of_nat (List.length pins))%Z ->
  Forall (fun p => _normalize_pin p <> None) pins ->
  exists recs,
    fst (search config query L content_filter) = Some recs
    /\ Z.of_nat (List.length recs) = L
    /\ map Some recs = map _normalize_pin (firstn (Z.to_nat L) pins)
    /\ Spec.normalized_candidates
         (snd (search config query L content_filter))
       = firstn (Z.to_nat L) pins.
Proof.
  intros Hfetch H200 Hpins Hpos Hlt Hok.
  assert (Hne : Spec.candidates (resp_text resp) <> []).
  { rewrite Hpins. destruct pins; [simpl in Hlt; lia | discriminate]. }
  rewrite (search_fetched _ _ _ resp Hfetch H200).
  rewrite (search_html_normalize _ _ Hne), Hpins. cbn [fst snd].
  destruct (normalize_loop_prefix L pins [] (Z.to_nat L))
    as (added & Hloop & Hadded).
  - simpl. f_equal. lia.
  - simpl. lia.
  - lia.
  - rewrite Forall_forall in *. intros p Hp. apply Hok.
    now apply In_firstn in Hp.
  - rewrite Hloop. cbn [fst snd app]. exists added.
    split; [reflexivity|]. split; [|split; [exact Hadded|]].
    + apply (f_equal (@List.length _)) in Hadded.
      rewrite !length_map, length_firstn in Hadded. lia.
    + rewrite normalized_candidates_app, fetch_no_normalize. cbn [app].
      clear. induction (firstn (Z.to_nat L) pins) as [|p l IH];
        simpl; congruence.
Qed.

(** C10, as the program has it. With a limit at or below zero the
    normalization path returns exactly one record as soon as the first
    candidate normalizes. The fallback path returns the found records cut
    by Python's slice: [min (found, limit)] of them for a limit at or
    above zero, none for the limit zero, and all but the last [-limit] for
    a negative limit. *)
Theorem C10_limit_not_positive (query content_filter : string) (limit : Z)
    (resp : Response) :
  fst (Spec.fetch_of_search config query content_filter) = Some resp ->
  status_code resp = 200%Z ->
  (forall p rest r,
      Spec.candidates (resp_text resp) = p :: rest ->
      _normalize_pin p = Some r ->
      (limit <= 0)%Z ->
      fst (search config query limit content_filter) = Some [r]
      /\ Z.of_nat (List.length [r])
         <> Z.min (Z.of_nat (List.length (p :: rest))) limit)
  /\ (forall found,
        Spec.candidates (resp_text resp) = [] ->
        _fallback_parse_from_html (resp_text resp) = Some found ->
        fst (search config query limit content_filter)
        = Some (slice_to limit found)
        /\ ((0 <= limit)%Z ->
            Z.of_nat (List.length (slice_to limit found))
            = Z.min (Z.of_nat (List.length found)) limit)
        /\ (limit = 0%Z -> slice_to limit found = [])
        /\ ((limit < 0)%Z ->
            slice_to limit found
            = firstn (List.length found - Z.to_nat (- limit)) found
            /\ Z.of_nat (List.length (slice_to limit found))
               = Z.max 0 (Z.of_nat (List.length found) + limit))).
Proof.
  intros Hfetch H200.
  rewrite (search_fetched _ _ _ resp Hfetch H200). cbn [fst]. split.
  - intros p rest r Hc Hp Hle.
    assert (Hne : Spec.candidates (resp_text resp) <> [])
      by (rewrite Hc; discriminate).
    rewrite (search_html_normalize _ _ Hne), Hc. simpl. rewrite Hp.
    destruct (Z.leb_spec limit 1); [|lia]. simpl. split; [reflexivity | lia].
  - intros found Hc Hfound.
    rewrite (search_html_fallback _ _ Hc), Hfound. cbn [fst option_map].
    split; [reflexivity|]. unfold slice_to. repeat split.
    + intros Hpos. destruct (Z.leb_spec 0 limit); [|lia].
      rewrite length_firstn. lia.
    + intros ->. reflexivity.
    + destruct (Z.leb_spec 0 limit); [lia|]. f_equal. lia.
    + destruct (Z.leb_spec 0 limit); [lia|]. rewrite length_firstn. lia.
Qed.

End Orchestrator.

Lemma C1_search_item_fields_witness :
  Forall (fun r => Spec.item_fields r = true)
    [VDict [("id", VStr "1"); ("title", VInt 5);
            ("pinner", VDict [("id", VNone); ("username", VNone);
                              ("fullName", VNone); ("avatarURL", VNone);
                              ("followers", VNone)]);
            ("date", VDict [("formatted", VNone); ("initial", VNone)]);
            ("type", VStr "pin"); ("imageURL", VStr "")]].
Proof.
  apply (proj1 (C1_search_item_fields (ext := Demo.site) default_config
                  "numeric" "all" 10 _ ltac:(vm_compute; reflexivity))).
Defined.

(** C1 as stated fails: the page [{"id": 1, "title": 5}] gives one record
    whose title is the number 5, not a string. *)
Lemma C1_counterexample :
  option_map (map (Spec.field "title"))
    (fst (search (ext := Demo.site) default_config "numeric" 10 "all"))
  = Some [VInt 5]
  /\ option_map (map Spec.canonical_item)
       (fst (search (ext := Demo.site) default_config "numeric" 10 "all"))
     = Some [false].
Proof. split; vm_compute; reflexivity. Qed.

Lemma C2_limit_truncates_witness :
  exists recs,
    fst (search (ext := Demo.site) default_config "three" 2 "all") = Some recs
    /\ Z.of_nat (List.length recs) = 2%Z
    /\ map Some recs
       = map (_normalize_pin (ext := Demo.site))
           (firstn (Z.to_nat 2)
              [Demo.pin_value 1 (VStr "A"); Demo.pin_value 2 (VStr "B");
               Demo.pin_value 3 (VStr "C")])
    /\ Spec.normalized_candidates
         (snd (search (ext := Demo.site) default_config "three" 2 "all"))
       = firstn (Z.to_nat 2)
           [Demo.pin_value 1 (VStr "A"); Demo.pin_value 2 (VStr "B");
            Demo.pin_value 3 (VStr "C")].
Proof.
  apply (C2_limit_truncates (ext := Demo.site) default_config "three" "all" 2
           (mkResponse 200 Demo.html_three)).
  - vm_compute. reflexivity.
  - reflexivity.
  - vm_compute. reflexivity.
  - lia.
  - simpl. lia.
  - repeat constructor; discriminate.
Defined.

Lemma C10_limit_not_positive_witness :
  fst (search (ext := Demo.site) default_config "fallback" 0 "all") = Some []
  /\ fst (search (ext := Demo.site) default_config "three" 0 "all")
     = Some [VDict [("id", VStr "1"); ("title", VStr "A");
                    ("pinner", VDict [("id", VNone); ("username", VNone);
                                      ("fullName", VNone); ("avatarURL", VNone);
                                      ("followers", VNone)]);
                    ("date", VDict [("formatted", VNone); ("initial", VNone)]);
                    ("type", VStr "pin"); ("imageURL", VStr "")]].
Proof.
  split.
  - destruct (proj2 (C10_limit_not_positive (ext := Demo.site) default_config
                       "fallback" "all" 0 (mkResponse 200 Demo.html_fallback)
                       ltac:(vm_compute; reflexivity) eq_refl)
                _ ltac:(vm_compute; reflexivity) ltac:(vm_compute; reflexivity))
      as (Hs & _ & Hzero & _).
    rewrite Hs, (Hzero eq_refl). reflexivity.
  - apply (proj1 (C10_limit_not_positive (ext := Demo.site) default_config
                    "three" "all" 0 (mkResponse 200 Demo.html_three)
                    ltac:(vm_compute; reflexivity) eq_refl)
             (Demo.pin_value 1 (VStr "A"))
             [Demo.pin_value 2 (VStr "B"); Demo.pin_value 3 (VStr "C")]).
    + vm_compute. reflexivity.
    + vm_compute. reflexivity.
    + lia.
Defined.

(** C10 as stated fails on the fallback path: with the limit -1 and two
    found records, one record is returned, not zero. *)
Lemma C10_counterexample :
  option_map (@List.length value)
    (_fallback_parse_from_html (ext := Demo.site) Demo.html_fallback)
  = Some 2
  /\ option_map (@List.length value)
       (fst (search (ext := Demo.site) default_config "fallback" (-1) "all"))
     = Some 1
  /\ 1 <> 0.
Proof. split; [|split]; [vm_compute; reflexivity .. | discriminate]. Qed.

(** * The fetcher *)

Section Fetcher.
Context {ext : Externals}.
Variable config : PinterestScraperConfig.

Lemma retryable_fails (o : outcome) :
  Spec.retryable o = true ->
  o = Raises \/ exists resp, o = Returns resp /\ (500 <=? status_code resp)%Z = true.
Proof. destruct o as [|resp]; simpl; eauto. Qed.

(** One pass of the loop of the fetcher. *)
Lemma retry_loop_cons (url : string) (params : list (string * string))
    (a : nat) (rest : list nat) :
  retry_loop config url params (a :: rest)
  = match session_get url params a with
    | Returns resp =>
        if (500 <=? status_code resp)%Z
        then if Spec.handler_returns config a
             then (fst (retry_loop config url params rest),
                   (Spec.failed_attempt config a
                    ++ snd (retry_loop config url params rest))%list)
             else (None, [EvGet a])
        else (Some (Some resp), [EvGet a])
    | Raises =>
        if Spec.handler_returns config a
        then (fst (retry_loop config url params rest),
              (Spec.failed_attempt config a
               ++ snd (retry_loop config url params rest))%list)
        else (None, [EvGet a])
    end.
Proof.
  cbn [retry_loop]. unfold Spec.handler_returns, Spec.failed_attempt.
  destruct (retry_loop config url params rest) as [res evs].
  destruct (wait_overflows a); cbn [negb andb fst snd app];
    [now destruct (session_get url params a) as [|resp];
       [|destruct (500 <=? status_code resp)%Z]|].
  destruct (sleep_raises _); cbn [negb];
    destruct (session_get url params a) as [|resp]; try reflexivity;
    destruct (500 <=? status_code resp)%Z; reflexivity.
Qed.

Lemma retry_loop_failed (url : string) (params : list (string * string))
    (a : nat) (rest : list nat) :
  Spec.retryable (session_get url params a) = true ->
  retry_loop config url params (a :: rest)
  = if Spec.handler_returns config a
    then (fst (retry_loop config url params rest),
          (Spec.failed_attempt config a
           ++ snd (retry_loop config url params rest))%list)
    else (None, [EvGet a]).
Proof.
  intros Hr. rewrite retry_loop_cons.
  destruct (retryable_fails _ Hr) as [-> | (resp & -> & ->)]; reflexivity.
Qed.

Lemma retry_loop_all_fail (url : string) (params : list (string * string))
    (attempts : list nat) :
  (forall a, In a attempts ->
     Spec.retryable (session_get url params a) = true
     /\ Spec.handler_returns config a = true) ->
  retry_loop config url params attempts
  = (Some None, flat_map (Spec.failed_attempt config) attempts).
Proof.
  induction attempts as [|a rest IH]; intros Hall; [reflexivity|].
  destruct (Hall a (or_introl eq_refl)) as [Hr Hh].
  rewrite (retry_loop_failed _ _ _ _ Hr), Hh.
  rewrite IH by (intros; apply Hall; now right). reflexivity.
Qed.

Lemma retry_loop_first_success (url : string) (params : list (string * string))
    (before after : list nat) (k : nat) (resp : Response) :
  (forall a, In a before ->
     Spec.retryable (session_get url params a) = true
     /\ Spec.handler_returns config a = true) ->
  session_get url params k = Returns resp ->
  (status_code resp < 500)%Z ->
  retry_loop config url params (before ++ k :: after)
  = (Some (Some resp),
     (flat_map (Spec.failed_attempt config) before ++ [EvGet k])%list).
Proof.
  intros Hall Hk Hlt.
  induction before as [|a rest IH].
  - cbn [app flat_map]. rewrite retry_loop_cons, Hk.
    destruct (Z.leb_spec 500 (status_code resp)); [lia | reflexivity].
  - destruct (Hall a (or_introl eq_refl)) as [Hr Hh].
    cbn [app flat_map].
    rewrite (retry_loop_failed _ _ _ _ Hr), Hh.
    rewrite IH by (intros; apply Hall; now right).
    cbn [fst snd]. now rewrite app_assoc.
Qed.

(** The exception of the handler leaves the loop at the attempt it is
    raised in. *)
Lemma retry_loop_handler_raises (url : string) (params : list (string * string))
    (before after : list nat) (k : nat) :
  (forall a, In a before ->
     Spec.retryable (session_get url params a) = true
     /\ Spec.handler_returns config a = true) ->
  Spec.retryable (session_get url params k) = true ->
  Spec.handler_returns config k = false ->
  retry_loop config url params (before ++ k :: after)
  = (None, (flat_map (Spec.failed_attempt config) before ++ [EvGet k])%list).
Proof.
  intros Hall Hk Hraise.
  induction before as [|a rest IH].
  - cbn [app flat_map]. now rewrite (retry_loop_failed _ _ _ _ Hk), Hraise.
  - destruct (Hall a (or_introl eq_refl)) as [Hr Hh].
    cbn [app flat_map].
    rewrite (retry_loop_failed _ _ _ _ Hr), Hh.
    rewrite IH by (intros; apply Hall; now right).
    cbn [fst snd]. now rewrite app_assoc.
Qed.

Lemma attempts_made_failed (attempts : list nat) :
  Spec.attempts_made (flat_map (Spec.failed_attempt config) attempts)
  = List.length attempts.
Proof.
  unfold Spec.attempts_made.
  induction attempts as [|a rest IH]; simpl; congruence.
Qed.

Lemma attempts_made_app (evs1 evs2 : list event) :
  Spec.attempts_made (evs1 ++ evs2)
  = Spec.attempts_made evs1 + Spec.attempts_made evs2.
Proof.
  unfold Spec.attempts_made. now rewrite filter_app, length_app.
Qed.

Lemma seq_split_at (k R : nat) :
  1 <= k <= R -> seq 1 R = (seq 1 (k - 1) ++ k :: seq (S k) (R - k))%list.
Proof.
  intros Hk. replace R with ((k - 1) + S (R - k)) at 1 by lia.
  rewrite seq_app. f_equal. simpl. f_equal; [lia | f_equal; lia].
Qed.

(** The waiting time before the jitter: the backoff factor at the first
    attempt, doubled at each further one. *)
Lemma wait_of_first : (wait_of config 1 == backoff_factor config)%Q.
Proof. unfold wait_of. simpl. ring. Qed.

Lemma wait_of_double (a : nat) :
  1 <= a -> (wait_of config (S a) == 2 * wait_of config a)%Q.
Proof.
  intros Ha. unfold wait_of.
  replace (Z.of_nat (S a) - 1)%Z with (Z.succ (Z.of_nat a - 1)) by lia.
  rewrite Z.pow_succ_r by lia. rewrite inject_Z_mult. ring.
Qed.

Lemma wait_of_nonneg (a : nat) :
  (0 <= backoff_factor config)%Q -> (0 <= wait_of config a)%Q.
Proof.
  intros Hb. unfold wait_of. apply Qmult_le_0_compat; [assumption|].
  change 0%Q with (inject_Z 0). rewrite <- Zle_Qle.
  apply Z.pow_nonneg. lia.
Qed.

Lemma wait_of_pos (a : nat) :
  1 <= a -> (0 < backoff_factor config)%Q -> (0 < wait_of config a)%Q.
Proof.
  intros Ha Hb. unfold wait_of. apply Qmult_lt_0_compat; [assumption|].
  change 0%Q with (inject_Z 0). rewrite <- Zlt_Qlt.
  apply Z.pow_pos_nonneg; lia.
Qed.

Lemma wait_of_mono (a b : nat) :
  (0 <= backoff_factor config)%Q -> 1 <= a <= b ->
  (wait_of config a <= wait_of config b)%Q.
Proof.
  intros Hb Hab. unfold wait_of.
  assert (Hp : (inject_Z (2 ^ (Z.of_nat a - 1))
                <= inject_Z (2 ^ (Z.of_nat b - 1)))%Q).
  { rewrite <- Zle_Qle. apply Z.pow_le_mono_r; lia. }
  revert Hp Hb.
  generalize (inject_Z (2 ^ (Z.of_nat a - 1))) (inject_Z (2 ^ (Z.of_nat b - 1)))
    (backoff_factor config).
  intros p q f Hp Hf. nra.
Qed.

Lemma sleep_for_affine (a : nat) (u : Q) :
  (sleep_for config a u == wait_of config a + wait_of config a / 2 * u)%Q.
Proof. unfold sleep_for, uniform. field. Qed.

Lemma sleep_for_bounds (a : nat) (u : Q) :
  (0 <= wait_of config a)%Q -> (0 <= u)%Q -> (u <= 1)%Q ->
  (wait_of config a <= sleep_for config a u)%Q
  /\ (sleep_for config a u <= (3 # 2) * wait_of config a)%Q.
Proof.
  rewrite sleep_for_affine. generalize (wait_of config a). intros w Hw Hu0 Hu1.
  unfold Qdiv. change (/ 2)%Q with (1 # 2)%Q. split; nra.
Qed.

Lemma expected_sleep_value (a : nat) :
  (Spec.expected_sleep config a == (5 # 4) * wait_of config a)%Q.
Proof. unfold Spec.expected_sleep. rewrite sleep_for_affine. field. Qed.

Lemma total_sleeps (a : nat) (us : list Q) :
  (Spec.total (map (sleep_for config a) us)
   == inject_Z (Z.of_nat (List.length us)) * wait_of config a
      + wait_of config a / 2 * Spec.total us)%Q.
Proof.
  induction us as [|u us IH]; cbn [map Spec.total fold_right List.length].
  - change (inject_Z (Z.of_nat 0)) with 0%Q. field.
  - fold (Spec.total (map (sleep_for config a) us)). fold (Spec.total us).
    rewrite IH, sleep_for_affine, Nat2Z.inj_succ. unfold Z.succ.
    rewrite inject_Z_plus. change (inject_Z 1) with 1%Q. field.
Qed.

(** The mean of the sleeps is the sleep at the mean of the draws. *)
Lemma mean_sleeps (a : nat) (us : list Q) :
  us <> [] ->
  (Spec.mean (map (sleep_for config a) us)
   == wait_of config a + wait_of config a / 2 * Spec.mean us)%Q.
Proof.
  intros Hne. unfold Spec.mean. rewrite length_map, total_sleeps.
  assert (Hn : ~ (inject_Z (Z.of_nat (List.length us)) == 0)%Q).
  { destruct us as [|u us]; [contradiction|]. cbn [List.length].
    unfold Qeq. simpl. lia. }
  field. exact Hn.
Qed.

(** Within these bounds the handler comes to its end at every attempt. *)
Lemma handler_returns_in_bounds (R a : nat) :
  R <= 1024 ->
  (0 <= backoff_factor config)%Q ->
  (forall n, 0 <= random_unit n /\ random_unit n <= 1)%Q ->
  ((3 # 2) * wait_of config R <= max_sleep)%Q ->
  1 <= a <= R ->
  Spec.handler_returns config a = true.
Proof.
  intros HR Hb Hu Hmax Ha. unfold Spec.handler_returns, wait_overflows.
  destruct (Nat.leb_spec 1025 a) as [Hover|_]; [lia|]. cbn [negb andb].
  unfold sleep_raises.
  destruct (Hu a) as [Hu0 Hu1].
  destruct (sleep_for_bounds a (random_unit a) (wait_of_nonneg a Hb) Hu0 Hu1)
    as [Hlo Hhi].
  pose proof (wait_of_nonneg a Hb) as Hw.
  pose proof (wait_of_mono a R Hb Ha) as Hm.
  assert (H0 : Qle_bool 0 (sleep_for config a (random_unit a)) = true).
  { apply Qle_bool_iff. lra. }
  assert (H1 : Qle_bool (sleep_for config a (random_unit a)) max_sleep = true).
  { apply Qle_bool_iff. lra. }
  now rewrite H0, H1.
Qed.

(** From the attempt 1025 on the wait cannot be computed. *)
Lemma handler_raises_overflow (a : nat) :
  1025 <= a -> Spec.handler_returns config a = false.
Proof.
  intros Ha. unfold Spec.handler_returns, wait_overflows.
  destruct (Nat.leb_spec 1025 a) as [_|Hlt]; [reflexivity | lia].
Qed.

(** A negative backoff factor makes every sleep negative. *)
Lemma handler_raises_negative (a : nat) :
  (backoff_factor config < 0)%Q -> 1 <= a ->
  (0 <= random_unit a)%Q ->
  Spec.handler_returns config a = false.
Proof.
  intros Hb Ha Hu. unfold Spec.handler_returns, sleep_raises.
  assert (Hw : (wait_of config a < 0)%Q).
  { unfold wait_of.
    assert (Hp : (0 < inject_Z (2 ^ (Z.of_nat a - 1)))%Q).
    { change 0%Q with (inject_Z 0). rewrite <- Zlt_Qlt.
      apply Z.pow_pos_nonneg; lia. }
    revert Hp. generalize (inject_Z (2 ^ (Z.of_nat a - 1))).
    generalize (backoff_factor config) Hb. intros b Hb' p Hp. nra. }
  assert (H0 : Qle_bool 0 (sleep_for config a (random_unit a)) = false).
  { destruct (Qle_bool 0 _) eqn:E; [|reflexivity].
    apply Qle_bool_iff in E. rewrite sleep_for_affine in E.
    revert E Hw Hu. generalize (wait_of config a) (random_unit a).
    intros w u E Hw Hu. unfold Qdiv in E. change (/ 2)%Q with (1 # 2)%Q in E.
    nra. }
  rewrite H0. cbn [negb orb]. now rewrite andb_false_r.
Qed.

(** A sleep beyond the clock of [time.sleep] is refused. *)
Lemma handler_raises_too_long (a : nat) :
  (max_sleep < wait_of config a)%Q ->
  (0 <= random_unit a)%Q ->
  Spec.handler_returns config a = false.
Proof.
  intros Hw Hu. unfold Spec.handler_returns, sleep_raises.
  assert (H1 : Qle_bool (sleep_for config a (random_unit a)) max_sleep = false).
  { destruct (Qle_bool _ max_sleep) eqn:E; [|reflexivity].
    apply Qle_bool_iff in E. rewrite sleep_for_affine in E.
    assert (Hpos : (0 < max_sleep)%Q) by reflexivity.
    revert E Hw Hu Hpos. generalize max_sleep (wait_of config a) (random_unit a).
    intros m w u E Hw Hu Hpos. unfold Qdiv in E.
    change (/ 2)%Q with (1 # 2)%Q in E. nra. }
  rewrite H1. cbn [negb]. now rewrite orb_true_r, andb_false_r.
Qed.

(** C3, as the program has it. With [1 <= max_retries = R], a backoff
    factor at or above zero and sleeps that [time.sleep] takes (no more
    than [R = 1024] attempts, the longest sleep within its clock): when
    every attempt raises or answers with a status of 500 or more, the
    fetcher makes exactly [R] attempts, each followed by its sleep, and
    returns [None], and [search] returns the empty list; an answer with a
    status below 500 is returned at once, without a further attempt. After
    a failed attempt the sleep is [backoff_factor * 2 ^ (attempt - 1)] plus
    a jitter that is affine in the draw of [random()], from zero at the
    draw 0 to half the wait at the draw 1; the mean of the sleeps over any
    draws is the sleep at the mean draw, so the expected sleep, at the
    mean draw one half, is five quarters of the wait, and it grows from
    one attempt to the next. Outside the
    bounds the handler raises (from the attempt 1025 on, with a negative
    backoff factor, with a wait beyond the clock), and its exception
    leaves the fetcher and [search] after the failed request. *)
Theorem C3_fetch_retries (url : string) (params : list (string * string)) :
  let R := Z.to_nat (max_retries config) in
  ((1 <= max_retries config <= 1024)%Z ->
   (0 <= backoff_factor config)%Q ->
   (forall a, 0 <= random_unit a /\ random_unit a <= 1)%Q ->
   ((3 # 2) * wait_of config R <= max_sleep)%Q ->
   ((forall a, 1 <= a <= R ->
       Spec.retryable (session_get url params a) = true) ->
    _request_with_retries config url params
    = (Some None, flat_map (Spec.failed_attempt config) (seq 1 R))
    /\ Spec.attempts_made (snd (_request_with_retries config url params)) = R
    /\ (forall query limit content_filter,
          _build_search_url config query content_filter = (url, params) ->
          fst (search config query limit content_filter) = Some []
          /\ Spec.attempts_made
               (snd (search config query limit content_filter)) = R))
   /\ (forall k resp,
         1 <= k <= R ->
         (forall a, 1 <= a < k ->
            Spec.retryable (session_get url params a) = true) ->
         session_get url params k = Returns resp ->
         (status_code resp < 500)%Z ->
         _request_with_retries config url params
         = (Some (Some resp),
            (flat_map (Spec.failed_attempt config) (seq 1 (k - 1))
             ++ [EvGet k])%list)
         /\ Spec.attempts_made (snd (_request_with_retries config url params))
            = k))
  /\ (forall a,
        1 <= a ->
        (forall u,
            (sleep_for config a u
             == wait_of config a + uniform 0 (wait_of config a / 2) u)%Q
            /\ (uniform 0 (wait_of config a / 2) u
                == wait_of config a / 2 * u)%Q)
        /\ (Spec.failed_attempt config a
            = [EvGet a; EvSleep (sleep_for config a (random_unit a))])
        /\ (wait_of config 1 == backoff_factor config)%Q
        /\ (wait_of config (S a) == 2 * wait_of config a)%Q
        /\ (Spec.expected_sleep config a == (5 # 4) * wait_of config a)%Q
        /\ (Spec.expected_sleep config a
            == (sleep_for config a 0 + sleep_for config a 1) / 2)%Q
        /\ ((0 <= backoff_factor config)%Q ->
            (forall u, (0 <= u)%Q -> (u <= 1)%Q ->
               (0 <= uniform 0 (wait_of config a / 2) u)%Q
               /\ (uniform 0 (wait_of config a / 2) u
                   <= wait_of config a / 2)%Q)
            /\ (Spec.expected_sleep config a
                <= Spec.expected_sleep config (S a))%Q)
        /\ ((0 < backoff_factor config)%Q ->
            (Spec.expected_sleep config a
             < Spec.expected_sleep config (S a))%Q))
  /\ (forall k,
        1 <= k <= R ->
        (forall a, 1 <= a < k ->
           Spec.retryable (session_get url params a) = true
           /\ Spec.handler_returns config a = true) ->
        Spec.retryable (session_get url params k) = true ->
        Spec.handler_returns config k = false ->
        _request_with_retries config url params
        = (None,
           (flat_map (Spec.failed_attempt config) (seq 1 (k - 1))
            ++ [EvGet k])%list)
        /\ (forall query limit content_filter,
              _build_search_url config query content_filter = (url, params) ->
              fst (search config query limit content_filter) = None))
  /\ (forall a,
        (1025 <= a -> Spec.handler_returns config a = false)
        /\ ((backoff_factor config < 0)%Q -> 1 <= a ->
            (0 <= random_unit a)%Q ->
            Spec.handler_returns config a = false)
        /\ ((max_sleep < wait_of config a)%Q -> (0 <= random_unit a)%Q ->
            Spec.handler_returns config a = false))
  /\ (forall a us,
        us <> [] ->
        (Spec.mean (map (sleep_for config a) us)
         == sleep_for config a (Spec.mean us))%Q
        /\ ((Spec.mean us == 1 # 2)%Q ->
            (Spec.mean (map (sleep_for config a) us)
             == Spec.expected_sleep config a)%Q)).
Proof.
  intros R. split; [|split; [|split; [|split]]].
  - intros HR Hb Hu Hmax.
    assert (Hh : forall a, 1 <= a <= R -> Spec.handler_returns config a = true).
    { intros a Ha. apply (handler_returns_in_bounds R a); try assumption.
      unfold R. lia. }
    split.
    + intros Hall.
      assert (Hfetch : _request_with_retries config url params
                       = (Some None,
                          flat_map (Spec.failed_attempt config) (seq 1 R))).
      { apply retry_loop_all_fail. intros a Ha. apply in_seq in Ha.
        split; [apply Hall | apply Hh]; lia. }
      split; [exact Hfetch|]. rewrite Hfetch. cbn [snd].
      rewrite attempts_made_failed, length_seq. split; [reflexivity|].
      intros query limit content_filter Hurl. unfold search.
      rewrite Hurl, Hfetch. cbn [fst snd].
      now rewrite attempts_made_failed, length_seq.
    + intros k resp Hk Hbefore Hget Hlt.
      unfold _request_with_retries. fold R.
      rewrite (seq_split_at k R Hk).
      rewrite (retry_loop_first_success url params _ _ k resp); try assumption.
      * split; [reflexivity|]. cbn [snd].
        rewrite attempts_made_app, attempts_made_failed, length_seq.
        unfold Spec.attempts_made. simpl. lia.
      * intros a Ha. apply in_seq in Ha.
        split; [apply Hbefore | apply Hh]; lia.
  - intros a Ha.
    pose proof (wait_of_double a Ha) as Hd.
    split; [|split; [reflexivity | split; [apply wait_of_first |
      split; [exact Hd | split; [apply expected_sleep_value | split; [|split]]]]]].
    + intros u. split; [reflexivity | unfold uniform; ring].
    + unfold Spec.expected_sleep. rewrite !sleep_for_affine. field.
    + intros Hb. pose proof (wait_of_nonneg a Hb) as Hw. split.
      * intros u Hu0 Hu1. unfold uniform. revert Hw.
        generalize (wait_of config a). intros w Hw.
        unfold Qdiv. change (/ 2)%Q with (1 # 2)%Q. split; nra.
      * rewrite !expected_sleep_value, Hd. lra.
    + intros Hpos. pose proof (wait_of_pos a Ha Hpos).
      rewrite !expected_sleep_value, Hd. lra.
  - intros k Hk Hbefore Hfail Hraise.
    assert (Hfetch : _request_with_retries config url params
                     = (None,
                        (flat_map (Spec.failed_attempt config) (seq 1 (k - 1))
                         ++ [EvGet k])%list)).
    { unfold _request_with_retries. fold R.
      rewrite (seq_split_at k R Hk).
      apply retry_loop_handler_raises; try assumption.
      intros a Ha. apply in_seq in Ha. apply Hbefore. lia. }
    split; [exact Hfetch|].
    intros query limit content_filter Hurl. unfold search.
    now rewrite Hurl, Hfetch.
  - intros a. split; [apply handler_raises_overflow|].
    split; [apply handler_raises_negative | apply handler_raises_too_long].
  - intros a us Hne. rewrite (mean_sleeps a us Hne). split.
    + now rewrite sleep_for_affine.
    + intros Hmean. rewrite Hmean, expected_sleep_value. field.
Qed.

End Fetcher.

Lemma C3_fetch_retries_witness :
  (fst (search (ext := Demo.site) default_config "down" 10 "all") = Some []
   /\ Spec.attempts_made
        (snd (search (ext := Demo.site) default_config "down" 10 "all")) = 3)
  /\ Spec.attempts_made
       (snd (_request_with_retries (ext := Demo.site) default_config
               "https://www.pinterest.com/search/pins/"
               [("q", "flaky"); ("rs", "typed")])) = 3.
Proof.
  split.
  - apply (proj1 (proj1 (C3_fetch_retries (ext := Demo.site) default_config
                    "https://www.pinterest.com/search/pins/"
                    [("q", "down"); ("rs", "typed")])
                    ltac:(simpl; lia)
                    ltac:(unfold Qle; simpl; lia)
                    ltac:(intros a; split; unfold Qle; simpl; lia)
                    ltac:(vm_compute; discriminate))).
    + intros a _. reflexivity.
    + reflexivity.
  - apply (proj2 (proj1 (C3_fetch_retries (ext := Demo.site) default_config
                    "https://www.pinterest.com/search/pins/"
                    [("q", "flaky"); ("rs", "typed")])
                    ltac:(simpl; lia)
                    ltac:(unfold Qle; simpl; lia)
                    ltac:(intros a; split; unfold Qle; simpl; lia)
                    ltac:(vm_compute; discriminate))
             3 (mkResponse 200 Demo.html_three)).
    + simpl. lia.
    + intros a Ha. assert (a = 1 \/ a = 2) as [-> | ->] by lia; reflexivity.
    + reflexivity.
    + simpl. lia.
Defined.

(** C3 as stated fails: [max_retries] is 3 and every attempt is answered
    with the status 503. With the backoff factor -1 the first sleep is
    negative, with the backoff factor [10 ^ 10] it is beyond the clock of
    [time.sleep]: either way the handler raises after the first request,
    the fetcher does not return [None] and [search] does not return the
    empty list, the exception leaves both. *)
Lemma C3_counterexample :
  let negative := mkConfig "https://www.pinterest.com/search/pins/" 10 3 (-1)
                    "PinterestSearchScraper/1.0" in
  let slow := mkConfig "https://www.pinterest.com/search/pins/" 10 3
                (10000000000 # 1) "PinterestSearchScraper/1.0" in
  (1 <= max_retries negative)%Z
  /\ (1 <= max_retries slow)%Z
  /\ (forall a, Spec.retryable
                  (session_get (Externals := Demo.site)
                     "https://www.pinterest.com/search/pins/"
                     [("q", "down"); ("rs", "typed")] a) = true)
  /\ _request_with_retries (ext := Demo.site) negative
       "https://www.pinterest.com/search/pins/"
       [("q", "down"); ("rs", "typed")]
     = (None, [EvGet 1])
  /\ search (ext := Demo.site) negative "down" 10 "all" = (None, [EvGet 1])
  /\ _request_with_retries (ext := Demo.site) slow
       "https://www.pinterest.com/search/pins/"
       [("q", "down"); ("rs", "typed")]
     = (None, [EvGet 1])
  /\ search (ext := Demo.site) slow "down" 10 "all" = (None, [EvGet 1])
  /\ fst (search (ext := Demo.site) slow "down" 10 "all") <> Some [].
Proof.
  cbv zeta. repeat split; try (vm_compute; congruence); reflexivity.
Qed.

(** * The exporter *)

Section ExporterPaths.

Lemma kept_safe_char (c : ascii) :
  Exporter.kept (if Exporter.kept c then c else "_"%char) = true.
Proof. destruct (Exporter.kept c) eqn:Hc; [exact Hc | reflexivity]. Qed.

Lemma kept_not_slash (c : ascii) :
  Exporter.kept c = true -> (c =? "/")%char = false.
Proof.
  destruct (Ascii.eqb_spec c "/") as [->|]; [discriminate | reflexivity].
Qed.

Lemma safe_stub_fixed (s : string) :
  Behaviour.all_chars Exporter.kept s = true -> Exporter.safe_stub s = s.
Proof.
  induction s as [|c s IH];
    cbn [Behaviour.all_chars Exporter.safe_stub]; [reflexivity|].
  intros H. apply andb_prop in H. destruct H as [Hc Hs].
  now rewrite Hc, IH.
Qed.

(** X1. The file stub of a path keeps its length, and character by
    character: an alphanumeric character, a hyphen and an underscore stay
    as they are, any other character becomes an underscore. So every
    character of the result is one of these; a stub made of such
    characters is unchanged, and cleaning twice is cleaning once. *)
Theorem X1_safe_stub_clean (filename_stub : string) :
  String.length (Exporter.safe_stub filename_stub) = String.length filename_stub
  /\ Behaviour.all_chars Exporter.kept (Exporter.safe_stub filename_stub) = true
  /\ Exporter.safe_stub (Exporter.safe_stub filename_stub)
     = Exporter.safe_stub filename_stub
  /\ (Behaviour.all_chars Exporter.kept filename_stub = true <->
      Exporter.safe_stub filename_stub = filename_stub)
  /\ (forall n c,
        String.get n filename_stub = Some c ->
        (Exporter.kept c = true ->
         String.get n (Exporter.safe_stub filename_stub) = Some c)
        /\ (Exporter.kept c = false ->
            String.get n (Exporter.safe_stub filename_stub) = Some "_"%char))
  /\ (forall c,
        Exporter.kept c
        = Exporter.isalnum c || (c =? "-")%char || (c =? "_")%char).
Proof.
  assert (Hall : forall s,
             Behaviour.all_chars Exporter.kept (Exporter.safe_stub s) = true).
  { induction s as [|c s IH];
      cbn [Behaviour.all_chars Exporter.safe_stub]; [reflexivity|].
    now rewrite kept_safe_char, IH. }
  split; [|split; [apply Hall | split; [|split; [|split]]]].
  - induction filename_stub as [|c s IH];
      cbn [String.length Exporter.safe_stub]; congruence.
  - apply safe_stub_fixed, Hall.
  - split; [apply safe_stub_fixed|]. intros <-. apply Hall.
  - induction filename_stub as [|a s IH]; intros n c;
      cbn [String.get Exporter.safe_stub]; [discriminate|].
    destruct n as [|n]; [|apply IH].
    intros [= ->]. split; intros ->; reflexivity.
  - reflexivity.
Qed.

Lemma X1_safe_stub_witness :
  Exporter.safe_stub "pinterest_results" = "pinterest_results".
Proof.
  apply (proj1 (proj2 (proj2 (proj2 (X1_safe_stub_clean "pinterest_results"))))).
  reflexivity.
Defined.

Lemma char_free_app (c : ascii) (s t : string) :
  Behaviour.char_free c (s ++ t)
  = Behaviour.char_free c s && Behaviour.char_free c t.
Proof.
  induction s as [|a s IH]; simpl; [reflexivity|].
  now rewrite IH, andb_assoc.
Qed.

Lemma safe_stub_slash_free (s : string) :
  Behaviour.char_free "/" (Exporter.safe_stub s) = true.
Proof.
  induction s as [|c s IH];
    cbn [Behaviour.char_free Exporter.safe_stub]; [reflexivity|].
  now rewrite (kept_not_slash _ (kept_safe_char c)), IH.
Qed.

(** X2. When the extension holds no slash, the file name built from any
    stub holds none either, and the path is the output directory, a slash
    unless the directory is empty or ends with one, and that file name:
    no stub leads out of the output directory. *)
Theorem X2_build_path_in_output_dir (self : Exporter.DataExporter)
    (filename_stub extension : string) :
  Behaviour.char_free "/" extension = true ->
  let name := Exporter.safe_stub filename_stub ++ "." ++ extension in
  Behaviour.char_free "/" name = true
  /\ Exporter._build_path self filename_stub extension
     = Exporter.output_dir self
       ++ (if (Exporter.output_dir self =? "")
              || PyStr.endswith "/" (Exporter.output_dir self)
           then "" else "/")
       ++ name.
Proof.
  intros Hext name.
  assert (Hname : Behaviour.char_free "/" name = true).
  { unfold name. rewrite !char_free_app, safe_stub_slash_free, Hext.
    reflexivity. }
  split; [exact Hname|].
  unfold Exporter._build_path, Exporter.path_join. fold name.
  assert (Hstart : PyStr.startswith "/" name = false).
  { unfold PyStr.startswith. destruct name as [|c rest]; [reflexivity|].
    cbn [Behaviour.char_free] in Hname.
    apply andb_prop in Hname. destruct Hname as [Hc _].
    cbn [String.prefix].
    destruct (Ascii.ascii_dec "/" c) as [<-|]; [discriminate | reflexivity]. }
  rewrite Hstart.
  now destruct ((Exporter.output_dir self =? "")
                || PyStr.endswith "/" (Exporter.output_dir self)).
Qed.

Lemma X2_build_path_witness :
  Exporter._build_path (Exporter.init "data" "JSON") "../etc/results" "json"
  = "data/___etc_results.json".
Proof.
  apply (proj2 (X2_build_path_in_output_dir
                  (Exporter.init "data" "JSON") "../etc/results" "json"
                  eq_refl)).
Defined.

End ExporterPaths.

Section ExporterFormats.

Lemma lower_char_idem (c : ascii) :
  PyStr.lower_char (PyStr.lower_char c) = PyStr.lower_char c.
Proof. destruct c as [[] [] [] [] [] [] [] []]; reflexivity. Qed.

Lemma lower_idem (s : string) : PyStr.lower (PyStr.lower s) = PyStr.lower s.
Proof.
  induction s as [|c s IH]; simpl; [reflexivity|].
  now rewrite lower_char_idem, IH.
Qed.

Lemma lower_empty (s : string) : (PyStr.lower s =? "") = (s =? "").
Proof. destruct s; reflexivity. Qed.

Lemma supported_formats_In (fmt : string) :
  existsb (String.eqb fmt) Exporter.supported_formats = true
  <-> In fmt Exporter.supported_formats.
Proof.
  rewrite existsb_exists. split.
  - intros (x & Hx & Heq). apply String.eqb_eq in Heq. now subst.
  - intros H. exists fmt. split; [assumption | apply String.eqb_refl].
Qed.

(** X3. [export] raises [ValueError], and runs no writer, exactly when
    the format, taken from the call or, when that is missing or empty,
    from the exporter, and put in lower case, is none of json, jsonl, csv,
    xlsx, excel, xml. Otherwise it runs one writer, the one of the format,
    once, on the data it was given and on the path built from the stub
    with that format as extension, xlsx for excel; it returns that path
    when the writer returns, and the exception of the writer leaves it
    otherwise. Letter case in the format makes no difference. *)
Theorem X3_export_format
    (writer_returns :
       Exporter.writer -> list (list (string * value)) -> string -> bool)
    (self : Exporter.DataExporter) (data : list (list (string * value)))
    (filename_stub : string) (output_format : option string) :
  let fmt := PyStr.lower (or_str output_format (Exporter.default_format self)) in
  let result :=
    Exporter.export writer_returns self data filename_stub output_format in
  (~ In fmt Exporter.supported_formats
   <-> result = (Exporter.UnsupportedFormat fmt, []))
  /\ (In fmt Exporter.supported_formats ->
      let path :=
        Exporter._build_path self filename_stub
          (if fmt =? "excel" then "xlsx" else fmt) in
      exists w,
        snd result = [(w, data, path)]
        /\ (w = Exporter.ExportJson <-> fmt = "json")
        /\ (w = Exporter.ExportJsonl <-> fmt = "jsonl")
        /\ (w = Exporter.ExportCsv <-> fmt = "csv")
        /\ (w = Exporter.ExportExcel <-> fmt = "xlsx" \/ fmt = "excel")
        /\ (w = Exporter.ExportXml <-> fmt = "xml")
        /\ (writer_returns w data path = true ->
            fst result = Exporter.Exported path)
        /\ (writer_returns w data path = false ->
            fst result = Exporter.WriterRaised))
  /\ (forall f,
        output_format = Some f ->
        Exporter.export writer_returns self data filename_stub
          (Some (PyStr.lower f))
        = result).
Proof.
  intros fmt result. split; [|split].
  - unfold result, Exporter.export. fold fmt. rewrite <- supported_formats_In.
    destruct (existsb (String.eqb fmt) Exporter.supported_formats); cbn [negb].
    + split; [congruence|]. unfold Exporter.run_writer.
      destruct (fmt =? "json"), (fmt =? "jsonl"), (fmt =? "csv"),
        ((fmt =? "xlsx") || (fmt =? "excel")); discriminate.
    + split; [reflexivity | congruence].
  - intros Hin path. unfold result, Exporter.export. fold fmt.
    pose proof (proj2 (supported_formats_In fmt) Hin) as Hex. rewrite Hex.
    cbn [negb]. subst path. clear Hex result. clearbody fmt.
    unfold Exporter.run_writer.
    simpl in Hin.
    destruct Hin as [<-|[<-|[<-|[<-|[<-|[<-|[]]]]]]]; cbn;
      eexists; (split; [reflexivity|]);
      repeat split; try discriminate; try (intros ->; reflexivity);
      try (intros [|]; discriminate); auto.
  - intros f ->. unfold result, Exporter.export. simpl.
    rewrite lower_empty. destruct (f =? ""); [reflexivity|].
    now rewrite lower_idem.
Qed.

Lemma X3_export_format_witness :
  Exporter.export (fun _ _ _ => true) (Exporter.init "data" "json")
    [[("id", VStr "1")]] "pinterest_results" (Some "yaml")
  = (Exporter.UnsupportedFormat "yaml", [])
  /\ exists w,
       snd (Exporter.export (fun _ _ _ => true) (Exporter.init "data" "json")
              [[("id", VStr "1")]] "pinterest_results" (Some "Excel"))
       = [(w, [[("id", VStr "1")]], "data/pinterest_results.xlsx")]
       /\ (w = Exporter.ExportJson <-> "excel" = "json")
       /\ (w = Exporter.ExportJsonl <-> "excel" = "jsonl")
       /\ (w = Exporter.ExportCsv <-> "excel" = "csv")
       /\ (w = Exporter.ExportExcel <-> "excel" = "xlsx" \/ "excel" = "excel")
       /\ (w = Exporter.ExportXml <-> "excel" = "xml")
       /\ (true = true ->
           fst (Exporter.export (fun _ _ _ => true)
                  (Exporter.init "data" "json")
                  [[("id", VStr "1")]] "pinterest_results" (Some "Excel"))
           = Exporter.Exported "data/pinterest_results.xlsx")
       /\ (true = false ->
           fst (Exporter.export (fun _ _ _ => true)
                  (Exporter.init "data" "json")
                  [[("id", VStr "1")]] "pinterest_results" (Some "Excel"))
           = Exporter.WriterRaised).
Proof.
  split.
  - apply (proj1 (X3_export_format (fun _ _ _ => true)
                    (Exporter.init "data" "json") [[("id", VStr "1")]]
                    "pinterest_results" (Some "yaml"))).
    simpl. intros H. repeat (destruct H as [H|H]; [discriminate|]). exact H.
  - apply (proj1 (proj2 (X3_export_format (fun _ _ _ => true)
                    (Exporter.init "data" "json") [[("id", VStr "1")]]
                    "pinterest_results" (Some "Excel")))).
    simpl. tauto.
Defined.

End ExporterFormats.

Section Flatten.

Lemma flatten_value_loop (entries : list (string * value))
    (parent_key sep : string) :
  Exporter._flatten_dict entries parent_key sep
  = Exporter.flatten_loop parent_key sep entries [].
Proof.
  unfold Exporter._flatten_dict. cbn [Exporter.flatten_value].
  generalize (@nil (string * value)) as items.
  induction entries as [|[key v] l IH]; intros items; [reflexivity|].
  cbn [Exporter.flatten_loop]. destruct v; apply IH.
Qed.

Lemma dict_set_keys (key : string) (v : value) (items : list (string * value)) :
  Py.keys (Exporter.dict_set key v items)
  = if Py.contains key items then Py.keys items
    else (Py.keys items ++ [key])%list.
Proof.
  unfold Py.contains.
  induction items as [|[k old] rest IH]; simpl; [reflexivity|].
  destruct (k =? key); simpl; [reflexivity|].
  rewrite IH. now destruct (Py.lookup key rest).
Qed.

Lemma contains_In (key : string) (items : list (string * value)) :
  Py.contains key items = true <-> In key (Py.keys items).
Proof.
  rewrite contains_has_field. unfold Spec.has_field.
  rewrite existsb_exists. split.
  - intros (x & Hx & Heq). apply String.eqb_eq in Heq. now subst.
  - intros H. exists key. split; [assumption | apply String.eqb_refl].
Qed.

Lemma dict_set_nodup (key : string) (v : value) (items : list (string * value)) :
  NoDup (Py.keys items) -> NoDup (Py.keys (Exporter.dict_set key v items)).
Proof.
  intros Hnd. rewrite dict_set_keys.
  destruct (Py.contains key items) eqn:Hc; [assumption|].
  apply NoDup_app; [assumption | repeat constructor; intros [] | ].
  intros x Hx [<-|[]]. apply contains_In in Hx. congruence.
Qed.

Lemma dict_set_flat (key : string) (v : value) (items : list (string * value)) :
  isinstance_dict v = false -> Behaviour.flat items -> Behaviour.flat (Exporter.dict_set key v items).
Proof.
  intros Hv. unfold Behaviour.flat.
  induction items as [|[k old] rest IH]; simpl; intros Hf.
  - now repeat constructor.
  - inversion Hf; subst. destruct (k =? key); constructor; auto.
Qed.

Lemma dict_update_inv (items other : list (string * value)) :
  Behaviour.flat other -> Behaviour.flat items /\ NoDup (Py.keys items) ->
  Behaviour.flat (Exporter.dict_update items other)
  /\ NoDup (Py.keys (Exporter.dict_update items other)).
Proof.
  unfold Exporter.dict_update. intros Hother. revert items.
  induction Hother as [|[k v] other Hv _ IH]; intros items [Hf Hnd];
    simpl; [now split|].
  apply IH. split; [now apply dict_set_flat | now apply dict_set_nodup].
Qed.

Lemma flatten_inv (data : value) (parent_key sep : string) :
  Behaviour.flat (Exporter.flatten_value data parent_key sep)
  /\ NoDup (Py.keys (Exporter.flatten_value data parent_key sep)).
Proof.
  revert parent_key.
  induction data as [| | | | | |entries IH] using value_ind; intros parent_key;
    try (split; constructor).
  change (Exporter.flatten_value (VDict entries) parent_key sep)
    with (Exporter._flatten_dict entries parent_key sep).
  rewrite flatten_value_loop.
  assert (Hstart : Behaviour.flat [] /\ NoDup (Py.keys (@nil (string * value))))
    by (split; constructor).
  revert Hstart. generalize (@nil (string * value)) as items.
  induction IH as [|[key v] l Hv _ IHl]; intros items Hinv; [exact Hinv|].
  cbn [Exporter.flatten_loop]. simpl in Hv.
  destruct v; apply IHl;
    try (split; [apply dict_set_flat | apply dict_set_nodup];
         solve [reflexivity | apply Hinv]).
  apply dict_update_inv; [|exact Hinv].
  apply (Hv (Exporter.new_key parent_key sep key)).
Qed.

(** X4. Whatever mapping is flattened, no value of the result is a
    mapping and no key occurs twice. *)
Theorem X4_flatten_dict_flat (data : list (string * value))
    (parent_key sep : string) :
  Forall (fun kv => isinstance_dict (snd kv) = false)
    (Exporter._flatten_dict data parent_key sep)
  /\ NoDup (Py.keys (Exporter._flatten_dict data parent_key sep)).
Proof. apply (flatten_inv (VDict data)). Qed.

Lemma dict_set_fresh (key : string) (v : value) (items : list (string * value)) :
  ~ In key (Py.keys items) ->
  Exporter.dict_set key v items = (items ++ [(key, v)])%list.
Proof.
  induction items as [|[k old] rest IH]; simpl; intros Hin; [reflexivity|].
  destruct (String.eqb_spec k key) as [->|Hne]; [tauto|].
  rewrite IH; tauto.
Qed.

Lemma flatten_loop_flat (sep : string) (l items : list (string * value)) :
  Behaviour.flat l -> NoDup (Py.keys (items ++ l)) ->
  Exporter.flatten_loop "" sep l items = (items ++ l)%list.
Proof.
  intros Hl. revert items.
  induction Hl as [|[key v] l Hv _ IH]; intros items Hnd;
    [now rewrite app_nil_r|].
  simpl in Hv. cbn [Exporter.flatten_loop].
  assert (Hstep : Exporter.flatten_loop "" sep l
                    (Exporter.dict_set (Exporter.new_key "" sep key) v items)
                  = (items ++ (key, v) :: l)%list).
  { change (Exporter.new_key "" sep key) with key.
    unfold Py.keys in Hnd. rewrite map_app in Hnd. simpl in Hnd.
    rewrite dict_set_fresh.
    - rewrite IH; rewrite <- app_assoc; [reflexivity|].
      unfold Py.keys. now rewrite map_app.
    - apply NoDup_remove_2 in Hnd. intros Hin. apply Hnd.
      apply in_or_app. now left. }
  destruct v; try exact Hstep. discriminate.
Qed.

(** X5. A mapping without nested mappings and without repeated keys is
    its own flattening, so flattening a flattened mapping again changes
    nothing. *)
Theorem X5_flatten_dict_idempotent (data : list (string * value))
    (parent_key sep : string) :
  (Forall (fun kv => isinstance_dict (snd kv) = false) data ->
   NoDup (Py.keys data) ->
   Exporter._flatten_dict data "" sep = data)
  /\ Exporter._flatten_dict (Exporter._flatten_dict data parent_key sep) "" sep
     = Exporter._flatten_dict data parent_key sep.
Proof.
  assert (Hid : forall d,
             Behaviour.flat d -> NoDup (Py.keys d) -> Exporter._flatten_dict d "" sep = d).
  { intros d Hf Hnd. rewrite flatten_value_loop.
    now rewrite flatten_loop_flat. }
  split; [apply Hid|].
  apply Hid; apply (flatten_inv (VDict data)).
Qed.

End Flatten.

Lemma X5_flatten_dict_witness :
  Exporter._flatten_dict [("id", VStr "1"); ("title", VStr "A")] "" "."
  = [("id", VStr "1"); ("title", VStr "A")].
Proof.
  apply (proj1 (X5_flatten_dict_idempotent _ "" ".")).
  - repeat constructor.
  - repeat constructor; simpl; intuition discriminate.
Defined.

Section ItemColumns.

Lemma flatten_loop_leaf (parent_key sep key : string) (v : value)
    (l items : list (string * value)) :
  isinstance_dict v = false ->
  Exporter.flatten_loop parent_key sep ((key, v) :: l) items
  = Exporter.flatten_loop parent_key sep l
      (Exporter.dict_set (Exporter.new_key parent_key sep key) v items).
Proof. destruct v; try reflexivity. discriminate. Qed.

Lemma flatten_loop_dict (parent_key sep key : string)
    (sub l items : list (string * value)) :
  Exporter.flatten_loop parent_key sep ((key, VDict sub) :: l) items
  = Exporter.flatten_loop parent_key sep l
      (Exporter.dict_update items
         (Exporter.flatten_loop (Exporter.new_key parent_key sep key) sep sub [])).
Proof. cbn [Exporter.flatten_loop]. now rewrite flatten_value_loop. Qed.

Lemma same_keys_eq (a b : list string) : Spec.same_keys a b = true -> a = b.
Proof.
  revert b. induction a as [|x a IH]; intros [|y b]; simpl; try discriminate;
    [reflexivity|].
  intros H. apply andb_prop in H. destruct H as [Hxy Hab].
  apply String.eqb_eq in Hxy. subst. f_equal. now apply IH.
Qed.

Lemma keys_cons_inv (d : list (string * value)) (k : string) (ks : list string) :
  Py.keys d = k :: ks -> exists v d', d = (k, v) :: d' /\ Py.keys d' = ks.
Proof.
  destruct d as [|[k' v] d']; simpl; [discriminate|].
  intros [= -> <-]. now exists v, d'.
Qed.

Lemma keys_nil_inv (d : list (string * value)) : Py.keys d = [] -> d = [].
Proof. destruct d; [reflexivity | discriminate]. Qed.

Ltac open_keys H :=
  repeat (let v := fresh "v" in
          let d := fresh "d" in
          let E := fresh "E" in
          apply keys_cons_inv in H; destruct H as (v & d & E & H); subst);
  apply keys_nil_inv in H; subst.

(** The layout of a record with the item fields. *)
Lemma item_fields_inv (r : value) :
  Spec.item_fields r = true ->
  exists id title p_id p_username p_full p_avatar p_followers formatted
         initial type_ image_url,
    r = VDict [("id", VStr id); ("title", title);
               ("pinner", VDict [("id", p_id); ("username", p_username);
                                 ("fullName", p_full); ("avatarURL", p_avatar);
                                 ("followers", p_followers)]);
               ("date", VDict [("formatted", formatted); ("initial", initial)]);
               ("type", type_); ("imageURL", image_url)]
    /\ Spec.str_or_none formatted = true.
Proof.
  unfold Spec.item_fields. intros H.
  apply andb_prop in H. destruct H as [H Hfmt].
  apply andb_prop in H. destruct H as [H Hdate].
  apply andb_prop in H. destruct H as [H Hpinner].
  apply andb_prop in H. destruct H as [Hkeys Hid].
  apply same_keys_eq in Hkeys, Hpinner, Hdate.
  destruct r as [| | | | | |d]; try discriminate. cbn [Spec.keys_of] in Hkeys.
  open_keys Hkeys.
  cbn in Hid, Hpinner, Hdate, Hfmt.
  destruct v as [| | | |id| |]; try discriminate.
  destruct v1 as [| | | | | |pinner]; try discriminate.
  destruct v2 as [| | | | | |date]; try discriminate.
  cbn [Spec.keys_of] in Hpinner, Hdate.
  open_keys Hpinner. open_keys Hdate. cbn in Hfmt.
  now eexists _, _, _, _, _, _, _, _, _, _, _.
Qed.

Lemma item_record_keys (d : list (string * value)) :
  Spec.item_fields (VDict d) = true ->
  Behaviour.scalar_leaves (VDict d) = true ->
  Py.keys (Exporter._flatten_dict d "" ".") = Behaviour.item_columns.
Proof.
  intros Hfields Hleaves.
  destruct (item_fields_inv _ Hfields)
    as (id & title & p1 & p2 & p3 & p4 & p5 & formatted & initial & type_
        & image_url & [= ->] & Hfmt).
  cbn in Hleaves.
  repeat (apply andb_prop in Hleaves;
          let H := fresh "Hleaf" in destruct Hleaves as [H Hleaves];
          apply negb_true_iff in H).
  assert (Hf : isinstance_dict formatted = false)
    by (destruct formatted; try discriminate; reflexivity).
  rewrite flatten_value_loop.
  repeat first
    [ rewrite flatten_loop_leaf by (assumption || reflexivity)
    | rewrite flatten_loop_dict ].
  reflexivity.
Qed.

(** X6. A record with the item fields whose values below them are no
    mappings flattens to exactly eleven columns, in the order id, title,
    the five of the creator under [pinner.], the two of the date under
    [date.], type, imageURL. *)
Theorem X6_item_record_columns (d : list (string * value)) :
  Spec.item_fields (VDict d) = true ->
  Behaviour.scalar_leaves (VDict d) = true ->
  Py.keys (Exporter._flatten_dict d "" ".") = Behaviour.item_columns
  /\ List.length (Exporter._flatten_dict d "" ".") = 11.
Proof.
  intros Hfields Hleaves.
  pose proof (item_record_keys d Hfields Hleaves) as Hkeys.
  split; [exact Hkeys|].
  apply (f_equal (@List.length _)) in Hkeys.
  unfold Py.keys in Hkeys. now rewrite length_map in Hkeys.
Qed.

End ItemColumns.

Lemma X6_item_record_columns_witness :
  Py.keys
    (Exporter._flatten_dict
       [("id", VStr "1"); ("title", VStr "A"); ("pinner", null_pinner);
        ("date", VDict [("formatted", VNone); ("initial", VNone)]);
        ("type", VStr "pin"); ("imageURL", VStr "http://x/1/a.jpg")] "" ".")
  = Behaviour.item_columns.
Proof.
  apply X6_item_record_columns; reflexivity.
Defined.

Section Csv.

Lemma add_fieldname_In (fieldnames : list string) (key x : string) :
  In x (Exporter.add_fieldname fieldnames key) <-> In x fieldnames \/ x = key.
Proof.
  unfold Exporter.add_fieldname.
  destruct (existsb (String.eqb key) fieldnames) eqn:He.
  - split; [tauto|]. intros [H| ->]; [assumption|].
    apply existsb_exists in He. destruct He as (y & Hy & Heq).
    apply String.eqb_eq in Heq. now subst.
  - rewrite in_app_iff. simpl. intuition.
Qed.

Lemma add_fieldname_nodup (fieldnames : list string) (key : string) :
  NoDup fieldnames -> NoDup (Exporter.add_fieldname fieldnames key).
Proof.
  intros Hnd. unfold Exporter.add_fieldname.
  destruct (existsb (String.eqb key) fieldnames) eqn:He; [assumption|].
  apply NoDup_app; [assumption | repeat constructor; intros [] |].
  intros x Hx [<-|[]].
  assert (existsb (String.eqb key) fieldnames = true); [|congruence].
  apply existsb_exists. exists key. split; [assumption | apply String.eqb_refl].
Qed.

Lemma add_fieldnames_inv (keys fieldnames : list string) :
  NoDup fieldnames ->
  NoDup (fold_left Exporter.add_fieldname keys fieldnames)
  /\ forall x, In x (fold_left Exporter.add_fieldname keys fieldnames)
               <-> In x fieldnames \/ In x keys.
Proof.
  revert fieldnames. induction keys as [|k keys IH]; intros fieldnames Hnd;
    simpl; [split; [assumption | tauto]|].
  destruct (IH _ (add_fieldname_nodup fieldnames k Hnd)) as [Hnd' Hin].
  split; [assumption|]. intros x. rewrite Hin, add_fieldname_In.
  intuition.
Qed.

Lemma csv_fieldnames_inv (flat_rows : list (list (string * value)))
    (fieldnames : list string) :
  NoDup fieldnames ->
  let result :=
    fold_left (fun fns row => fold_left Exporter.add_fieldname (Py.keys row) fns)
              flat_rows fieldnames in
  NoDup result
  /\ forall x, In x result
               <-> In x fieldnames
                   \/ exists row, In row flat_rows /\ In x (Py.keys row).
Proof.
  revert fieldnames.
  induction flat_rows as [|row rows IH]; intros fieldnames Hnd; simpl.
  - split; [assumption|]. intros x. split; [tauto|].
    intros [H|(row & [] & _)]. assumption.
  - destruct (add_fieldnames_inv (Py.keys row) fieldnames Hnd) as [Hnd' Hin'].
    destruct (IH _ Hnd') as [Hres Hin]. split; [assumption|].
    intros x. rewrite Hin, Hin'. split.
    + intros [[H|H]|(row' & Hrow' & Hx)]; eauto.
    + intros [H|(row' & [<-|Hrow'] & Hx)]; eauto.
Qed.

(** X7. [_export_csv] writes an empty file without a header exactly for
    no data. Otherwise the rows are the flattened records in their order,
    and the header holds each key of each row once: no column is repeated
    and no row has a key outside the header. *)
Theorem X7_export_csv_header (data : list (list (string * value))) :
  (Exporter._export_csv data = Exporter.CsvEmptyFile <-> data = [])
  /\ forall fieldnames rows,
      Exporter._export_csv data = Exporter.CsvTable fieldnames rows ->
      rows = map (fun row => Exporter._flatten_dict row "" ".") data
      /\ NoDup fieldnames
      /\ (forall x, In x fieldnames
                    <-> exists row, In row rows /\ In x (Py.keys row))
      /\ Forall (fun row => Forall (fun key => In key fieldnames) (Py.keys row))
           rows.
Proof.
  split.
  - destruct data; simpl; split; congruence.
  - intros fieldnames rows. destruct data as [|row0 data]; [discriminate|].
    unfold Exporter._export_csv. intros [= <- <-].
    set (rows := map _ (row0 :: data)).
    destruct (csv_fieldnames_inv rows [] (NoDup_nil _)) as [Hnd Hin].
    fold (Exporter.csv_fieldnames rows) in Hnd, Hin.
    assert (Hiff : forall x, In x (Exporter.csv_fieldnames rows)
                     <-> exists row, In row rows /\ In x (Py.keys row)).
    { intros x. rewrite Hin. simpl. tauto. }
    repeat split; try assumption; try apply Hiff.
    rewrite Forall_forall. intros row Hrow. rewrite Forall_forall.
    intros key Hkey. apply Hiff. eauto.
Qed.

Lemma X7_export_csv_witness :
  Exporter._export_csv
    [[("id", VStr "1"); ("date", VDict [("formatted", VNone)])];
     [("id", VStr "2"); ("title", VStr "B")]]
  = Exporter.CsvTable ["id"; "date.formatted"; "title"]
      [[("id", VStr "1"); ("date.formatted", VNone)];
       [("id", VStr "2"); ("title", VStr "B")]]
  /\ NoDup ["id"; "date.formatted"; "title"].
Proof.
  split; [reflexivity|].
  apply (proj2 (X7_export_csv_header
                  [[("id", VStr "1"); ("date", VDict [("formatted", VNone)])];
                   [("id", VStr "2"); ("title", VStr "B")]])
           _ _ eq_refl).
Defined.

Lemma csv_fieldnames_items (rows : list (list (string * value))) :
  Forall (fun row => Py.keys row = Behaviour.item_columns) rows ->
  fold_left (fun fns row => fold_left Exporter.add_fieldname (Py.keys row) fns)
            rows Behaviour.item_columns
  = Behaviour.item_columns.
Proof.
  induction 1 as [|row rows Hrow _ IH]; simpl; [reflexivity|].
  rewrite Hrow. exact IH.
Qed.

(** X8. Item records whose values below the item fields are no mappings
    go to CSV under the same eleven-column header, however many they
    are. *)
Theorem X8_export_csv_item_header (row0 : list (string * value))
    (data : list (list (string * value))) :
  Forall (fun row => Spec.item_fields (VDict row) = true
                     /\ Behaviour.scalar_leaves (VDict row) = true)
         (row0 :: data) ->
  Exporter._export_csv (row0 :: data)
  = Exporter.CsvTable Behaviour.item_columns
      (map (fun row => Exporter._flatten_dict row "" ".") (row0 :: data)).
Proof.
  intros Hall. unfold Exporter._export_csv. f_equal.
  assert (Hkeys : Forall (fun row => Py.keys row = Behaviour.item_columns)
                    (map (fun row => Exporter._flatten_dict row "" ".")
                         (row0 :: data))).
  { rewrite Forall_map. eapply Forall_impl; [|exact Hall].
    intros row [Hf Hl]. cbv beta. now apply item_record_keys. }
  unfold Exporter.csv_fieldnames. inversion Hkeys as [|? ? H0 Hrest]; subst.
  cbn [map fold_left]. rewrite H0.
  change (fold_left Exporter.add_fieldname Behaviour.item_columns [])
    with Behaviour.item_columns.
  now apply csv_fieldnames_items.
Qed.

End Csv.

Lemma X8_export_csv_item_header_witness :
  Exporter._export_csv
    [[("id", VStr "1"); ("title", VStr "A"); ("pinner", null_pinner);
      ("date", VDict [("formatted", VNone); ("initial", VNone)]);
      ("type", VStr "pin"); ("imageURL", VStr "http://x/1/a.jpg")]]
  = Exporter.CsvTable Behaviour.item_columns
      [[("id", VStr "1"); ("title", VStr "A"); ("pinner.id", VNone);
        ("pinner.username", VNone); ("pinner.fullName", VNone);
        ("pinner.avatarURL", VNone); ("pinner.followers", VNone);
        ("date.formatted", VNone); ("date.initial", VNone);
        ("type", VStr "pin"); ("imageURL", VStr "http://x/1/a.jpg")]].
Proof.
  refine (eq_trans (X8_export_csv_item_header _ [] _) _);
    [repeat constructor | reflexivity].
Defined.

(** * More on the timestamp normalizer *)

Section StripLemmas.

Lemma append_assoc (s t u : string) : (s ++ t) ++ u = s ++ (t ++ u).
Proof. induction s; simpl; congruence. Qed.

Lemma rev_append_app (s acc : string) :
  PyStr.rev_append s acc = PyStr.rev s ++ acc.
Proof.
  unfold PyStr.rev. revert acc.
  induction s as [|c s IH]; intros acc; simpl; [reflexivity|].
  rewrite IH, (IH (String c "")).
  rewrite append_assoc. reflexivity.
Qed.

Lemma rev_cons (c : ascii) (s : string) :
  PyStr.rev (String c s) = PyStr.rev s ++ String c "".
Proof. unfold PyStr.rev at 1. simpl. apply rev_append_app. Qed.

Lemma append_empty_r (s : string) : s ++ "" = s.
Proof. induction s; simpl; congruence. Qed.

Lemma rev_app (s t : string) : PyStr.rev (s ++ t) = PyStr.rev t ++ PyStr.rev s.
Proof.
  induction s as [|c s IH]; simpl.
  - now rewrite append_empty_r.
  - now rewrite !rev_cons, IH, append_assoc.
Qed.

Lemma rev_involutive (s : string) : PyStr.rev (PyStr.rev s) = s.
Proof.
  induction s as [|c s IH]; [reflexivity|].
  now rewrite rev_cons, rev_app, IH.
Qed.

Lemma lstrip_idem (s : string) : PyStr.lstrip (PyStr.lstrip s) = PyStr.lstrip s.
Proof.
  induction s as [|c s IH]; [reflexivity|].
  cbn [PyStr.lstrip]. destruct (PyStr.isspace c) eqn:Hc; [exact IH|].
  cbn [PyStr.lstrip]. now rewrite Hc.
Qed.

Lemma lstrip_keeps_last (u : string) (c : ascii) :
  PyStr.isspace c = false ->
  exists u', PyStr.lstrip (u ++ String c "") = u' ++ String c "".
Proof.
  intros Hc. induction u as [|a u (u' & IH)].
  - exists "". cbn [append PyStr.lstrip]. now rewrite Hc.
  - cbn [append PyStr.lstrip]. destruct (PyStr.isspace a).
    + now exists u'.
    + now exists (String a u).
Qed.

Lemma rstrip_idem (s : string) : PyStr.rstrip (PyStr.rstrip s) = PyStr.rstrip s.
Proof. unfold PyStr.rstrip. now rewrite rev_involutive, lstrip_idem. Qed.

Lemma lstrip_rstrip (c : ascii) (t : string) :
  PyStr.isspace c = false ->
  PyStr.lstrip (PyStr.rstrip (String c t)) = PyStr.rstrip (String c t).
Proof.
  intros Hc. unfold PyStr.rstrip. rewrite rev_cons.
  destruct (lstrip_keeps_last (PyStr.rev t) c Hc) as (u' & ->).
  rewrite rev_app. cbn [PyStr.rev PyStr.rev_append append PyStr.lstrip].
  now rewrite Hc.
Qed.

Lemma lstrip_head (s : string) :
  PyStr.lstrip s = ""
  \/ exists c t, PyStr.lstrip s = String c t /\ PyStr.isspace c = false.
Proof.
  induction s as [|c s IH]; [now left|].
  cbn [PyStr.lstrip]. destruct (PyStr.isspace c) eqn:Hc; [exact IH|].
  right. now exists c, s.
Qed.

(** Trimming a trimmed string changes nothing. *)
Lemma strip_idem (s : string) : PyStr.strip (PyStr.strip s) = PyStr.strip s.
Proof.
  unfold PyStr.strip.
  destruct (lstrip_head s) as [-> | (c & t & -> & Hc)]; [reflexivity|].
  now rewrite lstrip_rstrip, rstrip_idem.
Qed.

End StripLemmas.

Section TimestampMore.
Context {ext : Externals}.

(** X9. Whatever the raw value, when the normalizer returns, [initial] is
    that raw value itself, untrimmed and unconverted, and [formatted] is
    null exactly when no date-time came out of the raw value. *)
Theorem X9_timestamp_initial_is_raw (raw r : value) :
  parse_pinterest_timestamp raw = Some r ->
  Spec.field "initial" r = raw
  /\ (Spec.field "formatted" r = VNone <-> _safe_to_datetime raw = None)
  /\ Spec.str_or_none (Spec.field "formatted" r) = true.
Proof.
  unfold parse_pinterest_timestamp.
  destruct (_safe_to_datetime raw) as [dt|].
  - destruct (strftime_ymd dt) as [s|]; [|discriminate].
    intros [= <-]. cbn. repeat split; discriminate.
  - intros [= <-]. cbn. repeat split; reflexivity.
Qed.

(** X10. A string that is empty once trimmed is never given to the date
    parser: [formatted] is null and [initial] the string as it came.
    For any string the formatted date is that of the trimmed string. *)
Theorem X10_timestamp_string_trimmed (s : string) :
  (PyStr.strip s = "" ->
   parse_pinterest_timestamp (VStr s)
   = Some (VDict [("formatted", VNone); ("initial", VStr s)]))
  /\ option_map (Spec.field "formatted") (parse_pinterest_timestamp (VStr s))
     = option_map (Spec.field "formatted")
         (parse_pinterest_timestamp (VStr (PyStr.strip s))).
Proof.
  split.
  - intros Hs. unfold parse_pinterest_timestamp, _safe_to_datetime.
    now rewrite Hs.
  - unfold parse_pinterest_timestamp, _safe_to_datetime.
    rewrite strip_idem.
    destruct (PyStr.strip s =? ""); [reflexivity|].
    destruct (dateutil_parse_utc (PyStr.strip s)) as [dt|]; [|reflexivity].
    now destruct (strftime_ymd dt).
Qed.

End TimestampMore.

Lemma X9_timestamp_initial_witness :
  Spec.field "initial"
    (VDict [("formatted", VNone); ("initial", VStr " soon ")])
  = VStr " soon ".
Proof.
  apply (proj1 (X9_timestamp_initial_is_raw (ext := Demo.site)
                  (VStr " soon ") _ eq_refl)).
Defined.

Lemma X10_timestamp_blank_witness :
  parse_pinterest_timestamp (ext := Demo.site) (VStr "   ")
  = Some (VDict [("formatted", VNone); ("initial", VStr "   ")]).
Proof.
  apply (proj1 (X10_timestamp_string_trimmed (ext := Demo.site) "   ")).
  reflexivity.
Defined.

(** * More on the fetcher *)

Section FetcherMore.
Context {ext : Externals}.
Variable config : PinterestScraperConfig.

Lemma seq_app_inv (before after : list nat) (k s n : nat) :
  seq s n = (before ++ k :: after)%list ->
  before = seq s (List.length before)
  /\ k = s + List.length before
  /\ List.length before < n.
Proof.
  revert s n. induction before as [|a before IH]; intros s n H.
  - destruct n as [|n]; [discriminate|]. cbn in H. injection H as <- _.
    cbn. split; [reflexivity | lia].
  - destruct n as [|n]; [discriminate|]. cbn in H. injection H as <- H.
    destruct (IH _ _ H) as (Hb & Hk & Hl).
    cbn [List.length seq]. split; [f_equal; exact Hb | lia].
Qed.

(** What the loop of the fetcher did, read off its result. *)
Lemma retry_loop_inv (url : string) (params : list (string * string))
    (attempts : list nat) :
  match fst (retry_loop config url params attempts) with
  | Some (Some resp) =>
      exists before k after,
        attempts = (before ++ k :: after)%list
        /\ (forall a, In a before ->
              Spec.retryable (session_get url params a) = true
              /\ Spec.handler_returns config a = true)
        /\ session_get url params k = Returns resp
        /\ (status_code resp < 500)%Z
        /\ snd (retry_loop config url params attempts)
           = (flat_map (Spec.failed_attempt config) before ++ [EvGet k])%list
  | Some None =>
      (forall a, In a attempts ->
         Spec.retryable (session_get url params a) = true
         /\ Spec.handler_returns config a = true)
      /\ snd (retry_loop config url params attempts)
         = flat_map (Spec.failed_attempt config) attempts
  | None =>
      exists before k after,
        attempts = (before ++ k :: after)%list
        /\ (forall a, In a before ->
              Spec.retryable (session_get url params a) = true
              /\ Spec.handler_returns config a = true)
        /\ Spec.retryable (session_get url params k) = true
        /\ Spec.handler_returns config k = false
        /\ snd (retry_loop config url params attempts)
           = (flat_map (Spec.failed_attempt config) before ++ [EvGet k])%list
  end.
Proof.
  induction attempts as [|a rest IH].
  - cbn. split; [intros a [] | reflexivity].
  - destruct (Spec.retryable (session_get url params a)) eqn:Hr.
    + rewrite (retry_loop_failed config _ _ _ _ Hr).
      destruct (Spec.handler_returns config a) eqn:Hh; cbn [fst snd].
      * destruct (fst (retry_loop config url params rest)) as [[resp|]|].
        -- destruct IH as (before & k & after & -> & Hb & Hk & Hlt & Hevs).
           exists (a :: before), k, after. rewrite Hevs.
           cbn [app flat_map]. rewrite app_assoc.
           repeat split; try assumption;
             destruct H as [<- | Ha]; try assumption; now apply Hb.
        -- destruct IH as (Hb & Hevs). rewrite Hevs. cbn [flat_map].
           split; [|reflexivity].
           intros a' [<- | Ha]; [now split | now apply Hb].
        -- destruct IH as (before & k & after & -> & Hb & Hk & Hraise & Hevs).
           exists (a :: before), k, after. rewrite Hevs.
           cbn [app flat_map]. rewrite app_assoc.
           repeat split; try assumption;
             destruct H as [<- | Ha]; try assumption; now apply Hb.
      * exists [], a, rest. repeat split; try assumption; destruct H.
    + rewrite retry_loop_cons.
      destruct (session_get url params a) as [|resp] eqn:Hget; [discriminate|].
      cbn [Spec.retryable] in Hr. rewrite Hr. cbn [fst snd].
      exists [], a, rest. apply Z.leb_gt in Hr.
      repeat split; try assumption; destruct H.
Qed.

(** X11. Whatever the network does, the fetcher makes at most
    [max_retries] requests, and what it did is read off its result. A
    response it returns has a status below 500 and answers the last
    request; every request before it failed and was followed by its sleep,
    and nothing follows the last request. When it returns [None] every
    one of the [max_retries] requests was made, failed and was followed by
    its sleep, the last one too. When the handler raises, the trace ends
    with the failed request of that attempt. A failed attempt is the
    request and then the sleep, in this order. *)
Theorem X11_fetch_bounds (url : string) (params : list (string * string)) :
  let result := _request_with_retries config url params in
  let R := Z.to_nat (max_retries config) in
  Spec.attempts_made (snd result) <= R
  /\ (forall resp,
        fst result = Some (Some resp) ->
        exists k,
          1 <= k <= R
          /\ session_get url params k = Returns resp
          /\ (status_code resp < 500)%Z
          /\ (forall a, 1 <= a < k ->
                Spec.retryable (session_get url params a) = true)
          /\ snd result
             = (flat_map (Spec.failed_attempt config) (seq 1 (k - 1))
                ++ [EvGet k])%list)
  /\ (fst result = Some None ->
      (forall a, 1 <= a <= R ->
         Spec.retryable (session_get url params a) = true)
      /\ snd result = flat_map (Spec.failed_attempt config) (seq 1 R))
  /\ (fst result = None ->
      exists k,
        1 <= k <= R
        /\ (forall a, 1 <= a <= k ->
              Spec.retryable (session_get url params a) = true)
        /\ Spec.handler_returns config k = false
        /\ snd result
           = (flat_map (Spec.failed_attempt config) (seq 1 (k - 1))
              ++ [EvGet k])%list)
  /\ (forall a,
        Spec.failed_attempt config a
        = [EvGet a; EvSleep (sleep_for config a (random_unit a))]).
Proof.
  cbn zeta. unfold _request_with_retries.
  set (R := Z.to_nat (max_retries config)).
  pose proof (retry_loop_inv url params (seq 1 R)) as H.
  assert (Hsplit : forall before k after,
            seq 1 R = (before ++ k :: after)%list ->
            1 <= k <= R /\ before = seq 1 (k - 1)).
  { intros before k after Hs. apply seq_app_inv in Hs.
    destruct Hs as (Hb & Hk & Hl).
    split; [lia|]. replace (k - 1) with (List.length before) by lia.
    exact Hb. }
  destruct (fst (retry_loop config url params (seq 1 R))) as [[resp|]|].
  - destruct H as (before & k & after & Hs & Hb & Hget & Hlt & Hevs).
    destruct (Hsplit _ _ _ Hs) as [Hk ->]. rewrite Hevs.
    split; [|split; [|split; [discriminate | split; [discriminate|reflexivity]]]].
    + rewrite attempts_made_app, attempts_made_failed, length_seq.
      unfold Spec.attempts_made. simpl. lia.
    + intros resp' [= <-]. exists k. repeat split; try assumption; try lia.
      intros a Ha. apply Hb. apply in_seq. lia.
  - destruct H as (Hb & Hevs). rewrite Hevs.
    split; [|split; [discriminate | split; [|split; [discriminate|reflexivity]]]].
    + now rewrite attempts_made_failed, length_seq.
    + intros _. split; [|reflexivity].
      intros a Ha. apply Hb. apply in_seq. lia.
  - destruct H as (before & k & after & Hs & Hb & Hfail & Hraise & Hevs).
    destruct (Hsplit _ _ _ Hs) as [Hk ->]. rewrite Hevs.
    split; [|split; [discriminate | split; [discriminate | split; [|reflexivity]]]].
    + rewrite attempts_made_app, attempts_made_failed, length_seq.
      unfold Spec.attempts_made. simpl. lia.
    + intros _. exists k. repeat split; try assumption; try lia.
      intros a Ha. destruct (Nat.eq_dec a k) as [->|Hne]; [assumption|].
      apply Hb. apply in_seq. lia.
Qed.

(** X12. With [max_retries] at or below zero no request is made: the
    fetcher returns [None] at once and [search] the empty list. *)
Theorem X12_no_retries_no_request (query content_filter : string) (limit : Z) :
  (max_retries config <= 0)%Z ->
  (forall url params,
      _request_with_retries config url params = (Some None, []))
  /\ search config query limit content_filter = (Some [], []).
Proof.
  intros HR.
  assert (Hfetch : forall url params,
             _request_with_retries config url params = (Some None, [])).
  { intros url params. unfold _request_with_retries.
    replace (Z.to_nat (max_retries config)) with 0 by lia. reflexivity. }
  split; [exact Hfetch|].
  unfold search.
  destruct (_build_search_url config query content_filter) as [url params].
  now rewrite Hfetch.
Qed.

(** X13. When the first answer has a status below 500 other than 200,
    [search] returns the empty list after that single request: no retry,
    no sleep, nothing parsed. *)
Theorem X13_search_bad_status (query content_filter : string) (limit : Z)
    (resp : Response) :
  (1 <= max_retries config)%Z ->
  session_get (fst (_build_search_url config query content_filter))
    (snd (_build_search_url config query content_filter)) 1 = Returns resp ->
  (status_code resp < 500)%Z ->
  status_code resp <> 200%Z ->
  search config query limit content_filter = (Some [], [EvGet 1]).
Proof.
  intros HR Hget Hlt Hne. unfold search.
  destruct (_build_search_url config query content_filter) as [url params].
  cbn [fst snd] in Hget. unfold _request_with_retries.
  destruct (Z.to_nat (max_retries config)) as [|n] eqn:En; [lia|].
  cbn [seq]. rewrite retry_loop_cons, Hget.
  destruct (Z.leb_spec 500 (status_code resp)); [lia|].
  destruct (Z.eqb_spec (status_code resp) 200); [contradiction | reflexivity].
Qed.

End FetcherMore.

Lemma X11_fetch_bounds_witness :
  exists k,
    1 <= k <= 3
    /\ Demo.serve [("q", "flaky"); ("rs", "typed")] k
       = Returns (mkResponse 200 Demo.html_three)
    /\ (200 < 500)%Z
    /\ (forall a, 1 <= a < k ->
          Spec.retryable (Demo.serve [("q", "flaky"); ("rs", "typed")] a)
          = true)
    /\ snd (_request_with_retries (ext := Demo.site) default_config
              "https://www.pinterest.com/search/pins/"
              [("q", "flaky"); ("rs", "typed")])
       = (flat_map (Spec.failed_attempt (ext := Demo.site) default_config)
            (seq 1 (k - 1)) ++ [EvGet k])%list.
Proof.
  apply (proj1 (proj2 (X11_fetch_bounds (ext := Demo.site) default_config
                         "https://www.pinterest.com/search/pins/"
                         [("q", "flaky"); ("rs", "typed")]))
           (mkResponse 200 Demo.html_three)).
  reflexivity.
Defined.

Lemma X12_no_retries_witness :
  search (ext := Demo.site)
    (mkConfig "https://www.pinterest.com/search/pins/" 10 0 (1 # 2) "agent")
    "three" 10 "all"
  = (Some [], []).
Proof.
  apply (X12_no_retries_no_request (ext := Demo.site)).
  simpl. lia.
Defined.

Lemma X13_search_bad_status_witness :
  search (ext := Demo.site) default_config "missing" 10 "all"
  = (Some [], [EvGet 1]).
Proof.
  apply (X13_search_bad_status (ext := Demo.site) default_config
           "missing" "all" 10 (mkResponse 404 "")).
  - simpl. lia.
  - reflexivity.
  - simpl. lia.
  - discriminate.
Defined.

(** * More on the orchestrator *)

Section OrchestratorMore.
Context {ext : Externals}.
Variable config : PinterestScraperConfig.

Lemma normalize_loop_successes (limit : Z) (pins_raw normalized : list value) :
  (Z.of_nat (List.length normalized) < limit)%Z ->
  fst (normalize_loop limit pins_raw normalized)
  = (normalized
     ++ firstn (Z.to_nat (limit - Z.of_nat (List.length normalized)))
          (Behaviour.successes pins_raw))%list.
Proof.
  revert normalized.
  induction pins_raw as [|pin_obj rest IH]; intros normalized Hlt.
  - cbn. now rewrite firstn_nil, app_nil_r.
  - cbn [normalize_loop Behaviour.successes flat_map].
    fold (Behaviour.successes rest).
    destruct (_normalize_pin pin_obj) as [r|].
    + rewrite length_app. cbn [List.length app].
      destruct (Z.leb_spec limit (Z.of_nat (List.length normalized + 1)))
        as [Hle|Hgt].
      * replace (Z.to_nat (limit - Z.of_nat (List.length normalized)))
          with 1 by lia.
        reflexivity.
      * specialize (IH (normalized ++ [r])%list).
        destruct (normalize_loop limit rest (normalized ++ [r])) as [out evs].
        cbn [fst] in *. rewrite IH by (rewrite length_app; simpl; lia).
        rewrite length_app. cbn [List.length].
        replace (Z.to_nat (limit - Z.of_nat (List.length normalized)))
          with (S (Z.to_nat (limit - Z.of_nat (List.length normalized + 1))))
          by lia.
        now rewrite <- app_assoc.
    + specialize (IH normalized Hlt).
      destruct (normalize_loop limit rest normalized) as [out evs].
      exact IH.
Qed.

(** X14. On a fetched page with candidates and a limit of at least one,
    [search] returns the records of the candidates whose normalization
    does not raise, in the order of the candidates, cut after [limit] of
    them: a candidate that fails is skipped and the ones after it are
    still tried. *)
Theorem X14_search_skips_failures (query content_filter : string) (limit : Z)
    (resp : Response) :
  fst (Spec.fetch_of_search config query content_filter) = Some resp ->
  status_code resp = 200%Z ->
  Spec.candidates (resp_text resp) <> [] ->
  (1 <= limit)%Z ->
  fst (search config query limit content_filter)
  = Some (firstn (Z.to_nat limit)
            (Behaviour.successes (Spec.candidates (resp_text resp)))).
Proof.
  intros Hfetch H200 Hne Hlimit.
  rewrite (search_fetched config _ _ _ resp Hfetch H200). cbn [fst].
  rewrite (search_html_normalize _ _ Hne). cbn [fst].
  rewrite normalize_loop_successes by (simpl; lia).
  cbn [app List.length]. do 2 f_equal. lia.
Qed.

(** The page part of a search raises exactly when the parser does. *)
Lemma search_html_raises (limit : Z) (html : string) :
  fst (search_html limit html) = None <-> BeautifulSoup html = None.
Proof.
  unfold search_html, _extract_json_blobs_from_html.
  destruct (BeautifulSoup html) as [soup|] eqn:Hsoup;
    [|split; reflexivity].
  split; [|discriminate].
  destruct (match flat_map blobs_of_script (Soup.find_all "script" soup) with
            | [] => []
            | _ :: _ =>
                _find_pin_objects
                  (flat_map blobs_of_script (Soup.find_all "script" soup))
            end) as [|p rest].
  - destruct (fallback_parse_total html soup Hsoup) as (found & ->).
    discriminate.
  - destruct (normalize_loop limit (p :: rest) []). discriminate.
Qed.

(** X15. With a limit of at least one, the list [search] returns is never
    longer than the limit. An exception leaves [search] exactly when one
    left the fetcher (raised by its handler) or when the parser rejects
    the markup of a page fetched with the status 200: no failure on a
    single script, blob or candidate does. *)
Theorem X15_search_at_most_limit (query content_filter : string) (limit : Z) :
  (1 <= limit)%Z ->
  (forall recs,
      fst (search config query limit content_filter) = Some recs ->
      (Z.of_nat (List.length recs) <= limit)%Z)
  /\ (fst (search config query limit content_filter) = None
      <-> Spec.fetch_raised config query content_filter = true
          \/ exists resp,
               fst (Spec.fetch_of_search config query content_filter)
               = Some resp
               /\ status_code resp = 200%Z
               /\ BeautifulSoup (resp_text resp) = None).
Proof.
  intros Hlimit. split.
  - intros recs Hrecs.
    destruct (search_cases config query content_filter limit)
      as [Hs | [[Hs _] | [(html & found & _ & _ & Hs & _)
                         | (html & Hc & Hs & _)]]];
      rewrite Hs in Hrecs; [discriminate | ..]; injection Hrecs as <-.
    + simpl. lia.
    + unfold slice_to. destruct (Z.leb_spec 0 limit); [|lia].
      rewrite length_firstn. lia.
    + rewrite normalize_loop_successes by (simpl; lia).
      cbn [app]. rewrite length_firstn. simpl. lia.
  - destruct (Spec.fetch_raised config query content_filter) eqn:Hraised.
    { rewrite (search_fetch_raised config _ _ _ Hraised). cbn [fst].
      split; [now left | reflexivity]. }
    destruct (fst (Spec.fetch_of_search config query content_filter))
      as [resp|] eqn:Hfetch.
    + destruct (Z.eq_dec (status_code resp) 200) as [H200|H200].
      * rewrite (search_fetched config _ _ _ resp Hfetch H200). cbn [fst].
        rewrite search_html_raises. split.
        -- intros Hnone. right. now exists resp.
        -- intros [Hf | (resp' & [= <-] & _ & Hnone)];
             [discriminate | assumption].
      * rewrite (search_not_fetched config _ _ _ Hraised)
          by (intros resp' Hr; congruence).
        cbn [fst]. split; [discriminate|].
        intros [Hf | (resp' & [= <-] & H200' & _)];
          [discriminate | contradiction].
    + rewrite (search_not_fetched config _ _ _ Hraised)
        by (intros resp' Hr; congruence).
      cbn [fst]. split; [discriminate|].
      intros [Hf | (resp' & Hr & _)]; discriminate.
Qed.

End OrchestratorMore.

Lemma X14_search_skips_failures_witness :
  fst (search (ext := Demo.site) default_config "three" 2 "all")
  = Some (firstn (Z.to_nat 2)
            (Behaviour.successes (ext := Demo.site)
               (Spec.candidates (ext := Demo.site) Demo.html_three))).
Proof.
  apply (X14_search_skips_failures (ext := Demo.site) default_config
           "three" "all" 2 (mkResponse 200 Demo.html_three)).
  - vm_compute. reflexivity.
  - reflexivity.
  - vm_compute. discriminate.
  - lia.
Defined.

Lemma X15_search_at_most_limit_witness :
  (Z.of_nat
     (List.length
        (firstn 2
           (Behaviour.successes (ext := Demo.site)
              (Spec.candidates (ext := Demo.site) Demo.html_three))))
   <= 2)%Z
  /\ fst (search (ext := Demo.site) default_config "rejected" 2 "all") = None.
Proof.
  split.
  - apply (proj1 (X15_search_at_most_limit (ext := Demo.site) default_config
                    "three" "all" 2 ltac:(lia))).
    vm_compute. reflexivity.
  - apply (proj2 (X15_search_at_most_limit (ext := Demo.site) default_config
                    "rejected" "all" 2 ltac:(lia))).
    right. exists (mkResponse 200 Demo.html_rejected).
    repeat split; vm_compute; reflexivity.
Defined.

(** * More on the record normalizer *)

Section NormalizerMore.
Context {ext : Externals}.

(** The creator and the date of a normalized record, as built. *)
Lemma normalize_pin_parts (d : list (string * value)) (r : value) :
  _normalize_pin (VDict d) = Some r ->
  let p := match por (Py.get "pinner" d) (por (Py.get "owner" d) (VDict [])) with
           | VDict p => p
           | _ => []
           end in
  let created_at :=
    por (Py.get "created_at" d)
      (por (Py.get "created_at_timestamp" d) (Py.get "createdAt" d)) in
  Spec.field "pinner" r
  = VDict [("id", por (Py.get "id" p) (Py.get "user_id" p));
           ("username", por (Py.get "username" p) (Py.get "urlname" p));
           ("fullName", por (Py.get "full_name" p) (Py.get "fullName" p));
           ("avatarURL",
            if Py.contains "image_small_url" p
            then Py.get "image_small_url" p
            else if Py.contains "image_medium_url" p
            then Py.get "image_medium_url" p
            else if Py.contains "image_xlarge_url" p
            then Py.get "image_xlarge_url" p
            else VNone);
           ("followers", por (Py.get "follower_count" p) (Py.get "followers" p))]
  /\ parse_pinterest_timestamp created_at = Some (Spec.field "date" r)
  /\ Spec.field "id" r = VStr (py_str (Py.get "id" d))
  /\ Spec.field "type" r = por (Py.get "type" d) (VStr "pin")
  /\ Spec.field "imageURL" r = por (_extract_primary_image_url d) (VStr "").
Proof.
  unfold _normalize_pin.
  destruct (parse_pinterest_timestamp _) as [date|] eqn:Hdate; [|discriminate].
  intros [= <-]. cbn zeta. repeat split.
Qed.

Lemma avatar_first_present (p : list (string * value)) :
  (if Py.contains "image_small_url" p
   then Py.get "image_small_url" p
   else if Py.contains "image_medium_url" p
   then Py.get "image_medium_url" p
   else if Py.contains "image_xlarge_url" p
   then Py.get "image_xlarge_url" p
   else VNone)
  = Behaviour.first_present
      ["image_small_url"; "image_medium_url"; "image_xlarge_url"] p.
Proof.
  unfold Py.contains, Py.get. cbn [Behaviour.first_present].
  destruct (Py.lookup "image_small_url" p); [reflexivity|].
  destruct (Py.lookup "image_medium_url" p); [reflexivity|].
  destruct (Py.lookup "image_xlarge_url" p); reflexivity.
Qed.

(** The mapping the creator is read from. *)
Lemma creator_source_cases (d p : list (string * value)) :
  (Py.get "pinner" d = VDict p /\ p <> [])
  \/ (truthy (Py.get "pinner" d) = false /\ Py.get "owner" d = VDict p) ->
  match por (Py.get "pinner" d) (por (Py.get "owner" d) (VDict [])) with
  | VDict q => q
  | _ => []
  end = p.
Proof.
  unfold por. intros [[Hpin Hne] | [Ht Ho]].
  - rewrite Hpin. destruct p; [contradiction | reflexivity].
  - rewrite Ht, Ho. now destruct p.
Qed.

(** X16. The creator is read from [pinner] when that holds a true value
    and from [owner] otherwise: each of its five fields comes from that
    mapping. When the value chosen is no mapping (a [pinner] that is a
    string or a number hides a well-formed [owner]; an [owner] that is a
    string below a false [pinner]) or both are false, all five creator
    fields are null. *)
Theorem X16_creator_source (d : list (string * value)) (r : value) :
  _normalize_pin (VDict d) = Some r ->
  let creator := Spec.field "pinner" r in
  let read_from (p : list (string * value)) :=
    Spec.field "id" creator = por (Py.get "id" p) (Py.get "user_id" p)
    /\ Spec.field "username" creator
       = por (Py.get "username" p) (Py.get "urlname" p)
    /\ Spec.field "fullName" creator
       = por (Py.get "full_name" p) (Py.get "fullName" p)
    /\ Spec.field "avatarURL" creator
       = Behaviour.first_present
           ["image_small_url"; "image_medium_url"; "image_xlarge_url"] p
    /\ Spec.field "followers" creator
       = por (Py.get "follower_count" p) (Py.get "followers" p) in
  (truthy (Py.get "pinner" d) = true ->
   isinstance_dict (Py.get "pinner" d) = false ->
   creator = null_pinner)
  /\ (truthy (Py.get "pinner" d) = false ->
      truthy (Py.get "owner" d) = false ->
      creator = null_pinner)
  /\ (truthy (Py.get "pinner" d) = false ->
      truthy (Py.get "owner" d) = true ->
      isinstance_dict (Py.get "owner" d) = false ->
      creator = null_pinner)
  /\ (forall p, Py.get "pinner" d = VDict p -> p <> [] -> read_from p)
  /\ (forall p,
        truthy (Py.get "pinner" d) = false ->
        Py.get "owner" d = VDict p ->
        read_from p).
Proof.
  intros Hr. destruct (normalize_pin_parts d r Hr) as (Hp & _). cbn zeta in Hp.
  cbn zeta. rewrite Hp. clear Hp Hr. rewrite avatar_first_present.
  set (src := por (Py.get "pinner" d) (por (Py.get "owner" d) (VDict []))).
  split; [|split; [|split; [|split]]].
  - intros Ht Hd.
    assert (Hsrc : src = Py.get "pinner" d) by (unfold src, por; now rewrite Ht).
    rewrite Hsrc. destruct (Py.get "pinner" d); try discriminate; reflexivity.
  - intros Ht Ho.
    assert (Hsrc : src = VDict []) by (unfold src, por; now rewrite Ht, Ho).
    rewrite Hsrc. reflexivity.
  - intros Ht Ho Hd.
    assert (Hsrc : src = Py.get "owner" d)
      by (unfold src, por; now rewrite Ht, Ho).
    rewrite Hsrc. destruct (Py.get "owner" d); try discriminate; reflexivity.
  - intros p Hpin Hne. unfold src.
    rewrite (creator_source_cases d p (or_introl (conj Hpin Hne))).
    repeat split.
  - intros p Ht Ho. unfold src.
    rewrite (creator_source_cases d p (or_intror (conj Ht Ho))).
    repeat split.
Qed.

(** X17. Within the mapping the creator is read from, [pinner] or
    [owner], the avatar is the value under the first key that is present
    among [image_small_url], [image_medium_url], [image_xlarge_url], null
    included, so a null small image hides the others, and it is null when
    none of the three is present; the followers are [follower_count] when
    that is true and the value under [followers] otherwise, so a count of
    zero without [followers] becomes null. *)
Theorem X17_creator_fields (d p : list (string * value)) (r : value) :
  _normalize_pin (VDict d) = Some r ->
  (Py.get "pinner" d = VDict p /\ p <> [])
  \/ (truthy (Py.get "pinner" d) = false /\ Py.get "owner" d = VDict p) ->
  (forall v, Py.lookup "image_small_url" p = Some v ->
             Spec.field "avatarURL" (Spec.field "pinner" r) = v)
  /\ (forall v, Py.lookup "image_small_url" p = None ->
                Py.lookup "image_medium_url" p = Some v ->
                Spec.field "avatarURL" (Spec.field "pinner" r) = v)
  /\ (forall v, Py.lookup "image_small_url" p = None ->
                Py.lookup "image_medium_url" p = None ->
                Py.lookup "image_xlarge_url" p = Some v ->
                Spec.field "avatarURL" (Spec.field "pinner" r) = v)
  /\ (Py.lookup "image_small_url" p = None ->
      Py.lookup "image_medium_url" p = None ->
      Py.lookup "image_xlarge_url" p = None ->
      Spec.field "avatarURL" (Spec.field "pinner" r) = VNone)
  /\ (truthy (Py.get "follower_count" p) = false ->
      Spec.field "followers" (Spec.field "pinner" r) = Py.get "followers" p)
  /\ (truthy (Py.get "follower_count" p) = true ->
      Spec.field "followers" (Spec.field "pinner" r)
      = Py.get "follower_count" p).
Proof.
  intros Hr Hsrc.
  destruct (normalize_pin_parts d r Hr) as (Hp & _). cbn zeta in Hp.
  rewrite Hp. clear Hp Hr.
  rewrite (creator_source_cases d p Hsrc).
  cbn [Spec.field Py.get Py.lookup String.eqb Ascii.eqb Bool.eqb].
  unfold Py.contains, Py.get, por. repeat split.
  - intros v ->. reflexivity.
  - intros v -> ->. reflexivity.
  - intros v -> -> ->. reflexivity.
  - intros -> -> ->. reflexivity.
  - intros ->. reflexivity.
  - intros ->. reflexivity.
Qed.

(** X18. The id of a normalized record is the text of the candidate's
    [id]: a string as it is, an integer in decimal, and the word [None]
    when the id is null or missing. The type is [pin] unless the
    candidate holds a true value under [type]. *)
Theorem X18_id_text (d : list (string * value)) (r : value) :
  _normalize_pin (VDict d) = Some r ->
  (forall s, Py.get "id" d = VStr s -> Spec.field "id" r = VStr s)
  /\ (forall z, Py.get "id" d = VInt z ->
                Spec.field "id" r = VStr (PyStr.str_int z))
  /\ (Py.get "id" d = VNone -> Spec.field "id" r = VStr "None")
  /\ (truthy (Py.get "type" d) = false -> Spec.field "type" r = VStr "pin").
Proof.
  intros Hr. destruct (normalize_pin_parts d r Hr) as (_ & _ & Hid & Hty & _).
  rewrite Hid, Hty. unfold por. repeat split.
  - now intros s ->.
  - now intros z ->.
  - now intros ->.
  - now intros ->.
Qed.

(** X19. The date of a normalized record is the result of the timestamp
    normalizer on [created_at] when that is true, else on
    [created_at_timestamp] when that is true, else on [createdAt]; its
    [initial] is that raw value. A candidate whose [created_at] and
    [created_at_timestamp] are false or missing, a [created_at] of zero
    included, and whose [createdAt] is null or missing gets the date with
    both fields null. *)
Theorem X19_date_source (d : list (string * value)) (r : value) :
  _normalize_pin (VDict d) = Some r ->
  let created_at :=
    por (Py.get "created_at" d)
      (por (Py.get "created_at_timestamp" d) (Py.get "createdAt" d)) in
  Spec.field "initial" (Spec.field "date" r) = created_at
  /\ parse_pinterest_timestamp created_at = Some (Spec.field "date" r)
  /\ (truthy (Py.get "created_at" d) = true ->
      parse_pinterest_timestamp (Py.get "created_at" d)
      = Some (Spec.field "date" r))
  /\ (truthy (Py.get "created_at" d) = false ->
      truthy (Py.get "created_at_timestamp" d) = true ->
      parse_pinterest_timestamp (Py.get "created_at_timestamp" d)
      = Some (Spec.field "date" r))
  /\ (truthy (Py.get "created_at" d) = false ->
      truthy (Py.get "created_at_timestamp" d) = false ->
      parse_pinterest_timestamp (Py.get "createdAt" d)
      = Some (Spec.field "date" r))
  /\ (truthy (Py.get "created_at" d) = false ->
      truthy (Py.get "created_at_timestamp" d) = false ->
      Py.get "createdAt" d = VNone ->
      Spec.field "date" r
      = VDict [("formatted", VNone); ("initial", VNone)]).
Proof.
  intros Hr created_at.
  destruct (normalize_pin_parts d r Hr) as (_ & Hdate & _). cbn zeta in Hdate.
  fold created_at in Hdate.
  split; [|split; [exact Hdate|]].
  - destruct (parse_pinterest_timestamp_shape _ _ Hdate) as (f & -> & _).
    reflexivity.
  - unfold created_at, por in Hdate. repeat split.
    + intros H1. now rewrite H1 in Hdate.
    + intros H1 H2. now rewrite H1, H2 in Hdate.
    + intros H1 H2. now rewrite H1, H2 in Hdate.
    + intros H1 H2 H3. rewrite H1, H2, H3 in Hdate. cbn in Hdate. congruence.
Qed.

End NormalizerMore.

Lemma X16_creator_source_witness :
  Spec.field "pinner"
    (VDict [("id", VStr "7"); ("title", VStr "T"); ("pinner", null_pinner);
            ("date", VDict [("formatted", VNone); ("initial", VNone)]);
            ("type", VStr "pin"); ("imageURL", VStr "")])
  = null_pinner.
Proof.
  apply (proj1 (X16_creator_source (ext := Demo.site)
                  [("id", VInt 7); ("title", VStr "T");
                   ("pinner", VStr "someone");
                   ("owner", VDict [("username", VStr "ann")])]
                  _ eq_refl)); reflexivity.
Defined.

Lemma X17_creator_fields_witness :
  Spec.field "followers"
    (Spec.field "pinner"
       (VDict [("id", VStr "7"); ("title", VStr "T");
               ("pinner", VDict [("id", VNone); ("username", VStr "ann");
                                 ("fullName", VNone); ("avatarURL", VNone);
                                 ("followers", VNone)]);
               ("date", VDict [("formatted", VNone); ("initial", VNone)]);
               ("type", VStr "pin"); ("imageURL", VStr "")]))
  = Py.get "followers" [("username", VStr "ann"); ("follower_count", VInt 0)].
Proof.
  apply (proj1 (proj2 (proj2 (proj2 (proj2
           (X17_creator_fields (ext := Demo.site)
              [("id", VInt 7); ("title", VStr "T");
               ("owner", VDict [("username", VStr "ann");
                                ("follower_count", VInt 0)])]
              [("username", VStr "ann"); ("follower_count", VInt 0)]
              _ eq_refl (or_intror (conj eq_refl eq_refl)))))))).
  reflexivity.
Defined.

Lemma X18_id_text_witness :
  Spec.field "id"
    (VDict [("id", VStr "None"); ("title", VStr "T"); ("pinner", null_pinner);
            ("date", VDict [("formatted", VNone); ("initial", VNone)]);
            ("type", VStr "pin"); ("imageURL", VStr "")])
  = VStr "None".
Proof.
  apply (proj1 (proj2 (proj2 (X18_id_text (ext := Demo.site)
                  [("id", VNone); ("title", VStr "T")] _ eq_refl)))).
  reflexivity.
Defined.

Lemma X19_date_source_witness :
  Spec.field "date"
    (VDict [("id", VStr "7"); ("title", VStr "T"); ("pinner", null_pinner);
            ("date", VDict [("formatted", VNone); ("initial", VNone)]);
            ("type", VStr "pin"); ("imageURL", VStr "")])
  = VDict [("formatted", VNone); ("initial", VNone)].
Proof.
  apply (proj2 (proj2 (proj2 (proj2 (proj2
           (X19_date_source (ext := Demo.site)
              [("id", VInt 7); ("title", VStr "T"); ("created_at", VInt 0)]
              _ eq_refl)))))); reflexivity.
Defined.

Section ImageMore.

Lemma first_url_skip (pre rest : list value) :
  (forall x, In x pre -> Behaviour.has_url x = false) ->
  first_url (pre ++ rest) = first_url rest.
Proof.
  induction pre as [|x pre IH]; intros Hpre; [reflexivity|].
  cbn [app first_url].
  assert (Hx : Behaviour.has_url x = false) by (apply Hpre; now left).
  assert (IH' : first_url (pre ++ rest) = first_url rest)
    by (apply IH; intros; apply Hpre; now right).
  destruct x as [| | | | | |sd]; try exact IH'.
  unfold Behaviour.has_url, Py.contains in Hx.
  destruct (Py.lookup "url" sd); [discriminate | exact IH'].
Qed.

(** X20. When [images] is a mapping whose [orig] is missing or no
    mapping, the image URL is the [url] of the first entry, in the order
    of the mapping, that is a mapping with a key [url], whatever entries
    come after it, and none when no entry is one. *)
Theorem X20_image_url_first_entry (pin_obj images : list (string * value)) :
  Py.get "images" pin_obj = VDict images ->
  isinstance_dict (Py.get "orig" images) = false ->
  (forall before size_data after,
      Py.values images = (before ++ VDict size_data :: after)%list ->
      (forall x, In x before -> Behaviour.has_url x = false) ->
      Py.contains "url" size_data = true ->
      _extract_primary_image_url pin_obj = Py.get "url" size_data)
  /\ ((forall x, In x (Py.values images) -> Behaviour.has_url x = false) ->
      _extract_primary_image_url pin_obj = VNone).
Proof.
  intros Himages Horig.
  assert (Hloop : _extract_primary_image_url pin_obj
                  = first_url (Py.values images)).
  { unfold _extract_primary_image_url. rewrite Himages.
    unfold Py.get in Horig.
    destruct (Py.lookup "orig" images) as [[]|]; try reflexivity.
    discriminate. }
  rewrite Hloop. split.
  - intros before size_data after -> Hbefore Hurl.
    rewrite first_url_skip by assumption. cbn [first_url].
    unfold Py.contains, Py.get in *.
    destruct (Py.lookup "url" size_data); [reflexivity | discriminate].
  - intros Hnone. rewrite <- (app_nil_r (Py.values images)).
    now rewrite first_url_skip.
Qed.

End ImageMore.

Lemma X20_image_url_witness :
  _extract_primary_image_url
    [("id", VInt 1);
     ("images", VDict [("count", VInt 2);
                       ("236x", VDict [("url", VStr "http://x/s.jpg")]);
                       ("736x", VDict [("url", VStr "http://x/l.jpg")])])]
  = Py.get "url" [("url", VStr "http://x/s.jpg")].
Proof.
  apply (proj1 (X20_image_url_first_entry
                  [("id", VInt 1);
                   ("images",
                    VDict [("count", VInt 2);
                           ("236x", VDict [("url", VStr "http://x/s.jpg")]);
                           ("736x", VDict [("url", VStr "http://x/l.jpg")])])]
                  [("count", VInt 2);
                   ("236x", VDict [("url", VStr "http://x/s.jpg")]);
                   ("736x", VDict [("url", VStr "http://x/l.jpg")])]
                  eq_refl eq_refl)
           [VInt 2] _ [VDict [("url", VStr "http://x/l.jpg")]]).
  - reflexivity.
  - intros x [<-|[]]. reflexivity.
  - reflexivity.
Defined.

(** * More on the locator and the fallback *)

Section BraceLemmas.

Lemma prefix_char (a c : ascii) (s : string) :
  String.prefix (String a "") (String c s) = (a =? c)%char.
Proof.
  cbn [String.prefix].
  destruct (Ascii.ascii_dec a c) as [->|Hne].
  - rewrite Ascii.eqb_refl. now destruct s.
  - symmetry. now apply Ascii.eqb_neq.
Qed.

Lemma find_char (c : ascii) (pre rest : string) :
  Behaviour.char_free c pre = true ->
  PyStr.find (String c "") (pre ++ String c rest) = Some (String.length pre).
Proof.
  induction pre as [|a pre IH]; intros Hfree.
  - cbn [append PyStr.find String.length].
    now rewrite prefix_char, Ascii.eqb_refl.
  - cbn [Behaviour.char_free] in Hfree.
    apply andb_prop in Hfree. destruct Hfree as [Ha Hpre].
    cbn [append PyStr.find String.length].
    rewrite prefix_char, Ascii.eqb_sym.
    apply negb_true_iff in Ha. rewrite Ha, IH by assumption. reflexivity.
Qed.

Lemma find_char_none (c : ascii) (s : string) :
  Behaviour.char_free c s = true -> PyStr.find (String c "") s = None.
Proof.
  induction s as [|a s IH]; intros Hfree; [reflexivity|].
  cbn [Behaviour.char_free] in Hfree.
  apply andb_prop in Hfree. destruct Hfree as [Ha Hs].
  cbn [PyStr.find]. rewrite prefix_char, Ascii.eqb_sym.
  apply negb_true_iff in Ha. now rewrite Ha, IH.
Qed.

Lemma rfind_char_none (c : ascii) (s : string) :
  Behaviour.char_free c s = true -> PyStr.rfind (String c "") s = None.
Proof.
  induction s as [|a s IH]; intros Hfree; [reflexivity|].
  cbn [Behaviour.char_free] in Hfree.
  apply andb_prop in Hfree. destruct Hfree as [Ha Hs].
  cbn [PyStr.rfind]. rewrite IH by assumption.
  rewrite prefix_char, Ascii.eqb_sym.
  apply negb_true_iff in Ha. now rewrite Ha.
Qed.

Lemma rfind_char (c : ascii) (before post : string) :
  Behaviour.char_free c post = true ->
  PyStr.rfind (String c "") (before ++ String c post)
  = Some (String.length before).
Proof.
  intros Hfree. induction before as [|a before IH].
  - cbn [append PyStr.rfind String.length].
    rewrite rfind_char_none by assumption.
    now rewrite prefix_char, Ascii.eqb_refl.
  - cbn [append PyStr.rfind String.length]. now rewrite IH.
Qed.

Lemma substring_skip (pre s : string) (n : nat) :
  String.substring (String.length pre) n (pre ++ s) = String.substring 0 n s.
Proof. induction pre as [|a pre IH]; [reflexivity | exact IH]. Qed.

Lemma substring_prefix (s post : string) :
  String.substring 0 (String.length s) (s ++ post) = s.
Proof.
  induction s as [|a s IH]; cbn [append String.length String.substring].
  - now destruct post.
  - now rewrite IH.
Qed.

Lemma length_append (s t : string) :
  String.length (s ++ t) = String.length s + String.length t.
Proof. induction s; simpl; congruence. Qed.

End BraceLemmas.

Section LocatorMore.
Context {ext : Externals}.

(** X21. Under the marker rule the text parsed is what stands between
    the first opening and the last closing brace, both included: code
    before the first opening brace and after the last closing brace is
    dropped. A text without an opening or without a closing brace gives
    no blob. *)
Theorem X21_parse_marked_wrapper (pre mid post : string) :
  Behaviour.char_free "{" pre = true ->
  Behaviour.char_free "}" post = true ->
  parse_marked (pre ++ "{" ++ mid ++ "}" ++ post)
  = json_loads ("{" ++ mid ++ "}")
  /\ (forall text,
        Behaviour.char_free "{" text = true
        \/ Behaviour.char_free "}" text = true ->
        parse_marked text = None).
Proof.
  intros Hpre Hpost. split.
  - unfold parse_marked.
    change (pre ++ "{" ++ mid ++ "}" ++ post)
      with (pre ++ String "{" (mid ++ String "}" post)) at 1.
    rewrite find_char by assumption.
    replace (pre ++ "{" ++ mid ++ "}" ++ post)
      with ((pre ++ String "{" mid) ++ String "}" post) at 1
      by (rewrite append_assoc; reflexivity).
    rewrite rfind_char by assumption.
    unfold PyStr.slice. rewrite substring_skip.
    replace (String.length (pre ++ String "{" mid) + 1 - String.length pre)
      with (String.length ("{" ++ mid ++ "}")).
    + replace ("{" ++ mid ++ "}" ++ post) with (("{" ++ mid ++ "}") ++ post).
      * now rewrite substring_prefix.
      * cbn [append]. now rewrite append_assoc.
    + cbn [append String.length].
      rewrite !length_append. cbn [String.length]. lia.
  - intros text [Hopen|Hclose]; unfold parse_marked.
    + now rewrite (find_char_none "{" text Hopen).
    + rewrite (rfind_char_none "}" text Hclose).
      now destruct (PyStr.find "{" text).
Qed.

Lemma fallback_loop_fields (divs : list Soup.node) (results : list value) :
  fallback_loop divs = Some results ->
  map (Spec.field "imageURL") results
  = map Behaviour.container_image (filter Behaviour.accepted_container divs)
  /\ map (Spec.field "title") results
     = map Behaviour.container_title (filter Behaviour.accepted_container divs).
Proof.
  revert results. induction divs as [|pin_div divs IH]; intros results.
  - intros [= <-]. now split.
  - cbn [fallback_loop filter].
    destruct (fallback_loop divs) as [rest|];
      [|destruct (fallback_pin pin_div) as [[|]|]; discriminate].
    specialize (IH rest eq_refl). destruct IH as [IHi IHt].
    unfold fallback_pin, Behaviour.accepted_container,
      Behaviour.container_image, Behaviour.container_title in *.
    destruct (PyStr.contains "pin" _); cbn [negb andb].
    + destruct (Soup.find "img" pin_div) as [img|] eqn:Himg.
      * cbn. intros [= <-]. cbn. rewrite Himg. now rewrite IHi, IHt.
      * intros [= <-]. now split.
    + intros [= <-]. now split.
Qed.

(** X22. The fallback gives one record for each [div] whose
    [data-test-id] holds [pin] in any letter case and that has an [img]
    below it, in document order, and none for the other [div]s; the
    record's image URL is the [src] of the first such [img], or its
    [data-src] when [src] is missing or empty, and its title the [alt]. *)
Theorem X22_fallback_records (html : string) (results : list value) :
  _fallback_parse_from_html html = Some results ->
  exists soup,
    BeautifulSoup html = Some soup
    /\ let divs := Soup.find_all "div" soup in
       List.length results
       = List.length (filter Behaviour.accepted_container divs)
       /\ map (Spec.field "imageURL") results
          = map Behaviour.container_image
              (filter Behaviour.accepted_container divs)
       /\ map (Spec.field "title") results
          = map Behaviour.container_title
              (filter Behaviour.accepted_container divs).
Proof.
  intros Hres.
  destruct (fallback_parse_inv _ _ Hres) as (soup & Hsoup & Hloop).
  exists soup. split; [exact Hsoup|]. intros divs.
  destruct (fallback_loop_fields divs results Hloop) as [Hi Ht].
  split; [|now split].
  apply (f_equal (@List.length _)) in Hi. now rewrite !length_map in Hi.
Qed.

End LocatorMore.

Lemma X21_parse_marked_witness :
  parse_marked (ext := Demo.site) Demo.js_three = Some Demo.value_three.
Proof.
  refine (eq_trans
            (proj1 (X21_parse_marked_wrapper (ext := Demo.site)
                      "window.initialReduxState = "
                      (String.substring 1 (String.length Demo.json_three - 2)
                         Demo.json_three)
                      ";" eq_refl eq_refl)) _).
  reflexivity.
Defined.

Lemma X22_fallback_records_witness :
  map (Spec.field "imageURL")
    [VDict [("id", VStr "1"); ("title", VStr "A"); ("pinner", null_pinner);
            ("date", VDict [("formatted", VNone); ("initial", VNone)]);
            ("type", VStr "pin"); ("imageURL", VStr "http://x/1/a.jpg")];
     VDict [("id", VStr "2"); ("title", VStr "B"); ("pinner", null_pinner);
            ("date", VDict [("formatted", VNone); ("initial", VNone)]);
            ("type", VStr "pin"); ("imageURL", VStr "http://x/2/b.jpg")]]
  = map Behaviour.container_image
      (filter Behaviour.accepted_container
         (Soup.find_all "div" Demo.soup_fallback)).
Proof.
  destruct (X22_fallback_records (ext := Demo.site) Demo.html_fallback
              _ (eq_refl
                   : _fallback_parse_from_html (ext := Demo.site)
                       Demo.html_fallback
                     = Some
                         [VDict [("id", VStr "1"); ("title", VStr "A");
                                 ("pinner", null_pinner);
                                 ("date", VDict [("formatted", VNone);
                                                 ("initial", VNone)]);
                                 ("type", VStr "pin");
                                 ("imageURL", VStr "http://x/1/a.jpg")];
                          VDict [("id", VStr "2"); ("title", VStr "B");
                                 ("pinner", null_pinner);
                                 ("date", VDict [("formatted", VNone);
                                                 ("initial", VNone)]);
                                 ("type", VStr "pin");
                                 ("imageURL", VStr "http://x/2/b.jpg")]]))
    as (soup & Hsoup & _ & Himage & _).
  injection Hsoup as <-. exact Himage.
Defined.

(** * The runner *)

Section RunnerJobs.
Context {ext : Externals}.
Variable int_of_text : value -> option Z.

Lemma lookup_app (k : string) (a b : list (string * value)) :
  Py.lookup k (a ++ b)
  = match Py.lookup k a with
    | Some v => Some v
    | None => Py.lookup k b
    end.
Proof.
  induction a as [|[k' v] a IH]; simpl; [reflexivity|].
  now destruct (k' =? k).
Qed.

Lemma setdefault_lookup (key k : string) (default : value)
    (job : list (string * value)) :
  Py.lookup k (Runner.setdefault key default job)
  = match Py.lookup k job with
    | Some v => Some v
    | None => if key =? k then Some default else None
    end.
Proof.
  unfold Runner.setdefault, Py.contains.
  destruct (Py.lookup key job) as [v|] eqn:Hkey.
  - destruct (Py.lookup k job) as [w|] eqn:Hk; [reflexivity|].
    destruct (String.eqb_spec key k) as [->|]; [congruence | reflexivity].
  - rewrite lookup_app. simpl. reflexivity.
Qed.

Lemma load_jobs_have_query (file : option value)
    (jobs : list (list (string * value))) :
  Runner.load_jobs_from_inputs file = Some jobs ->
  Forall (fun job => Py.contains "query" job = true) jobs.
Proof.
  destruct file as [[| | | | |data|]|]; try discriminate.
  intros [= <-].
  induction data as [|item data IH]; [constructor|].
  cbn [flat_map]. destruct item as [| | | | | |d]; try exact IH.
  cbn [Runner.job_of_item]. destruct (Py.contains "query" d) eqn:Hq;
    [now constructor | exact IH].
Qed.

(** X23. The jobs loaded from an inputs file are the items of its list
    that are mappings with a key [query], whatever else they hold, in the
    order of the file; other items are left out. The call raises exactly
    when the file is missing or holds no list. *)
Theorem X23_load_jobs (file : option value) :
  (forall jobs,
      Runner.load_jobs_from_inputs file = Some jobs ->
      exists data,
        file = Some (VList data)
        /\ map VDict jobs
           = filter (fun item => match item with
                                 | VDict d =>
                                     match Py.lookup "query" d with
                                     | Some _ => true
                                     | None => false
                                     end
                                 | _ => false
                                 end) data
        /\ Forall (fun job => Py.contains "query" job = true) jobs)
  /\ (Runner.load_jobs_from_inputs file = None
      <-> forall data, file <> Some (VList data)).
Proof.
  split.
  - intros jobs. destruct file as [[| | | | |data|]|]; try discriminate.
    intros [= <-]. exists data. split; [reflexivity|].
    induction data as [|item data [IHm IHf]]; [now split|].
    cbn [flat_map filter].
    destruct item as [| | | | | |d]; try (now split).
    cbn [Runner.job_of_item].
    destruct (Py.lookup "query" d) eqn:Hq.
    + assert (Hc : Py.contains "query" d = true)
        by (unfold Py.contains; now rewrite Hq).
      rewrite Hc. cbn [app map]. split; [now rewrite IHm|].
      constructor; assumption.
    + assert (Hc : Py.contains "query" d = false)
        by (unfold Py.contains; now rewrite Hq).
      rewrite Hc. now split.
  - split.
    + intros Hnone data ->. discriminate.
    + intros Hno. destruct file as [[| | | | |data|]|]; try reflexivity.
      now destruct (Hno data).
Qed.

Lemma setdefaults_app (job : list (string * value)) (limit filter : value) :
  Runner.setdefault "filter" filter (Runner.setdefault "limit" limit job)
  = (job
     ++ (if Py.contains "limit" job then [] else [("limit", limit)])
     ++ (if Py.contains "filter" job then [] else [("filter", filter)]))%list.
Proof.
  unfold Runner.setdefault at 2.
  destruct (Py.contains "limit" job) eqn:Hl.
  - unfold Runner.setdefault.
    destruct (Py.contains "filter" job); cbn [app];
      [now rewrite app_nil_r | reflexivity].
  - unfold Runner.setdefault, Py.contains. rewrite lookup_app. cbn.
    destruct (Py.lookup "filter" job); cbn [app];
      [reflexivity | now rewrite <- app_assoc].
Qed.

(** X24. Every job [build_jobs] takes from an inputs file has the keys
    [query], [limit] and [filter]: it is the job as loaded, followed by
    the configured default limit when it came without the key [limit]
    and by the configured default filter when it came without the key
    [filter]. So a job keeps the limit and the filter it came with,
    whatever their values (a null limit stays null), and gets the
    configured default for the ones it lacks. *)
Theorem X24_build_jobs_from_inputs (args : Runner.Args)
    (config : list (string * value)) (inputs_file : option value)
    (jobs : list (list (string * value))) :
  or_attr (Runner.arg_query args) None = None ->
  Runner.build_jobs int_of_text args config inputs_file = Some jobs ->
  let default_filter :=
    py_str (Runner.config_get "content_filter" (VStr "all") config) in
  exists loaded default_limit,
    Runner.load_jobs_from_inputs inputs_file = Some loaded
    /\ Runner.py_int int_of_text
         (Runner.config_get "default_limit" (VInt 50) config)
       = Some default_limit
    /\ List.length jobs = List.length loaded
    /\ Forall (fun job =>
                 Py.contains "query" job = true
                 /\ Py.contains "limit" job = true
                 /\ Py.contains "filter" job = true) jobs
    /\ Forall2 (fun job before =>
                  Py.get "query" job = Py.get "query" before
                  /\ (forall v, Py.lookup "limit" before = Some v ->
                                Py.lookup "limit" job = Some v)
                  /\ (Py.lookup "limit" before = None ->
                      Py.lookup "limit" job = Some (VInt default_limit))
                  /\ (forall v, Py.lookup "filter" before = Some v ->
                                Py.lookup "filter" job = Some v)
                  /\ (Py.lookup "filter" before = None ->
                      Py.lookup "filter" job = Some (VStr default_filter))
                  /\ job
                     = (before
                        ++ (if Py.contains "limit" before then []
                            else [("limit", VInt default_limit)])
                        ++ (if Py.contains "filter" before then []
                            else [("filter", VStr default_filter)]))%list)
         jobs loaded.
Proof.
  intros Hq. unfold Runner.build_jobs. rewrite Hq.
  destruct (Runner.py_int int_of_text _) as [default_limit|]; [|discriminate].
  destruct (Runner.load_jobs_from_inputs inputs_file) as [loaded|] eqn:Hload;
    [|discriminate].
  intros [= <-]. exists loaded, default_limit.
  split; [reflexivity|]. split; [reflexivity|].
  split; [apply length_map|].
  pose proof (load_jobs_have_query inputs_file loaded Hload) as Hquery.
  clear Hload. induction Hquery as [|job loaded Hjob _ IH]; [now repeat split|].
  destruct IH as [IHf IH2]. cbn [map]. split.
  - constructor; [|exact IHf].
    unfold Py.contains. rewrite !setdefault_lookup.
    unfold Py.contains in Hjob.
    destruct (Py.lookup "query" job); [|discriminate].
    destruct (Py.lookup "limit" job), (Py.lookup "filter" job); now repeat split.
  - constructor; [|exact IH2].
    split; [|split; [|split; [|split; [|split]]]];
      try apply setdefaults_app;
      unfold Py.get; rewrite !setdefault_lookup;
      destruct (Py.lookup "query" job), (Py.lookup "limit" job),
        (Py.lookup "filter" job); cbn; intros; congruence.
Qed.

(** X25. With a query on the command line [build_jobs] returns that one
    job, whatever the inputs file holds; a limit of zero or none on the
    command line gives the job the configured default limit. When the
    configured default limit is no integer, [build_jobs] raises even
    though the command line has a limit. *)
Theorem X25_build_jobs_from_query (args : Runner.Args)
    (config : list (string * value)) (inputs_file : option value)
    (query : string) :
  Runner.arg_query args = Some query ->
  query <> "" ->
  (forall default_limit,
      Runner.py_int int_of_text
        (Runner.config_get "default_limit" (VInt 50) config)
      = Some default_limit ->
      exists limit filter,
        Runner.build_jobs int_of_text args config inputs_file
        = Some [[("query", VStr query); ("limit", VInt limit);
                 ("filter", VStr filter)]]
        /\ (Runner.arg_limit args = None \/ Runner.arg_limit args = Some 0%Z ->
            limit = default_limit)
        /\ (forall z, Runner.arg_limit args = Some z -> z <> 0%Z -> limit = z))
  /\ (Runner.py_int int_of_text
        (Runner.config_get "default_limit" (VInt 50) config) = None ->
      Runner.build_jobs int_of_text args config inputs_file = None).
Proof.
  intros Hq Hne. unfold Runner.build_jobs. rewrite Hq.
  assert (Hor : or_attr (Some query) None = Some query).
  { unfold or_attr. destruct (String.eqb_spec query ""); [contradiction|].
    reflexivity. }
  rewrite Hor. split.
  - intros default_limit ->. eexists _, _. split; [reflexivity|].
    unfold Runner.or_int. split.
    + intros [-> | ->]; reflexivity.
    + intros z -> Hz. destruct (Z.eqb_spec z 0); [contradiction | reflexivity].
  - now intros ->.
Qed.

End RunnerJobs.

Lemma X23_load_jobs_witness :
  exists data,
    Some (VList [VDict [("query", VStr "cats")]; VStr "dogs";
                 VDict [("limit", VInt 5)]])
    = Some (VList data)
    /\ map VDict [[("query", VStr "cats")]]
       = filter (fun item => match item with
                             | VDict d =>
                                 match Py.lookup "query" d with
                                 | Some _ => true
                                 | None => false
                                 end
                             | _ => false
                             end) data
    /\ Forall (fun job => Py.contains "query" job = true)
         [[("query", VStr "cats")]].
Proof.
  apply (proj1 (X23_load_jobs
                  (Some (VList [VDict [("query", VStr "cats")]; VStr "dogs";
                                VDict [("limit", VInt 5)]])))).
  reflexivity.
Defined.

Lemma X24_build_jobs_from_inputs_witness :
  exists loaded default_limit,
    Runner.load_jobs_from_inputs
      (Some (VList [VDict [("query", VStr "cats"); ("limit", VNone)];
                    VDict [("query", VStr "dogs")]]))
    = Some loaded
    /\ Runner.py_int (fun _ => None)
         (Runner.config_get "default_limit" (VInt 50) [("default_limit", VInt 20)])
       = Some default_limit
    /\ List.length
         [[("query", VStr "cats"); ("limit", VNone); ("filter", VStr "all")];
          [("query", VStr "dogs"); ("limit", VInt 20); ("filter", VStr "all")]]
       = List.length loaded
    /\ Forall (fun job =>
                 Py.contains "query" job = true
                 /\ Py.contains "limit" job = true
                 /\ Py.contains "filter" job = true)
         [[("query", VStr "cats"); ("limit", VNone); ("filter", VStr "all")];
          [("query", VStr "dogs"); ("limit", VInt 20); ("filter", VStr "all")]]
    /\ Forall2 (fun job before =>
                  Py.get "query" job = Py.get "query" before
                  /\ (forall v, Py.lookup "limit" before = Some v ->
                                Py.lookup "limit" job = Some v)
                  /\ (Py.lookup "limit" before = None ->
                      Py.lookup "limit" job = Some (VInt default_limit))
                  /\ (forall v, Py.lookup "filter" before = Some v ->
                                Py.lookup "filter" job = Some v)
                  /\ (Py.lookup "filter" before = None ->
                      Py.lookup "filter" job = Some (VStr "all"))
                  /\ job
                     = (before
                        ++ (if Py.contains "limit" before then []
                            else [("limit", VInt default_limit)])
                        ++ (if Py.contains "filter" before then []
                            else [("filter", VStr "all")]))%list)
         [[("query", VStr "cats"); ("limit", VNone); ("filter", VStr "all")];
          [("query", VStr "dogs"); ("limit", VInt 20); ("filter", VStr "all")]]
         loaded.
Proof.
  apply (X24_build_jobs_from_inputs (ext := Demo.site) (fun _ => None)
           (Runner.mkArgs None None None) [("default_limit", VInt 20)]
           (Some (VList [VDict [("query", VStr "cats"); ("limit", VNone)];
                         VDict [("query", VStr "dogs")]]))).
  - reflexivity.
  - reflexivity.
Defined.

Lemma X25_build_jobs_from_query_witness :
  exists limit filter,
    Runner.build_jobs (ext := Demo.site) (fun _ => None)
      (Runner.mkArgs (Some "cats") (Some 0%Z) None) [] None
    = Some [[("query", VStr "cats"); ("limit", VInt limit);
             ("filter", VStr filter)]]
    /\ (Some 0%Z = None \/ Some 0%Z = Some 0%Z -> limit = 50%Z)
    /\ (forall z, Some 0%Z = Some z -> z <> 0%Z -> limit = z).
Proof.
  apply (proj1 (X25_build_jobs_from_query (ext := Demo.site) (fun _ => None)
                  (Runner.mkArgs (Some "cats") (Some 0%Z) None) [] None
                  "cats" eq_refl ltac:(discriminate))).
  reflexivity.
Defined.

Section Duplicates.
Context {ext : Externals}.

(** X26. A script that holds a marker and is a whole JSON object, and
    that parses under both rules, gives its blob twice, so every
    candidate found in it is found twice. *)
Theorem X26_marked_json_candidates_twice (script : Soup.node) (b : value) :
  script_text script <> "" ->
  has_marker (script_text script) = true ->
  looks_like_json (script_text script) = true ->
  parse_marked (script_text script) = Some b ->
  json_loads (script_text script) = Some b ->
  blobs_of_script script = [b; b]
  /\ _find_pin_objects (blobs_of_script script)
     = (_find_pin_objects [b] ++ _find_pin_objects [b])%list.
Proof.
  intros Hne Hm Hj Hp Hl.
  assert (Hblobs : blobs_of_script script = [b; b]).
  { unfold blobs_of_script. rewrite Hm, Hj, Hp, Hl.
    destruct (String.eqb_spec (script_text script) ""); [contradiction|].
    reflexivity. }
  split; [exact Hblobs|]. rewrite Hblobs.
  apply (find_pin_objects_app [b] [b]).
Qed.

End Duplicates.

Lemma X26_marked_json_witness :
  blobs_of_script (ext := Demo.site) Demo.script_marked
  = [Demo.value_marked; Demo.value_marked].
Proof.
  apply (proj1 (X26_marked_json_candidates_twice (ext := Demo.site)
                  Demo.script_marked Demo.value_marked
                  ltac:(discriminate) eq_refl eq_refl eq_refl eq_refl)).
Defined.
